(** * Meta on/off scheduler: rule scheduling and enforcement

    The repository holds two parallel servers that implement the same
    engine.  [Part000] embeds the SQLite/axios server (src/unnamed/part_000),
    [Part001] the JSON-file/fetch server (src/unnamed/part_001).  Both are
    embedded side by side because the specification speaks about both. *)

From Stdlib Require Import ZArith List Bool Lia Sorted.
From stdpp Require Import gmap strings list pretty.

Local Open Scope string_scope.
Local Open Scope list_scope.
Local Open Scope Z_scope.

(** ** JavaScript numbers, as far as the engine uses them

    Every number the engine computes with is an integer or [NaN] (the result
    of [Number] / [parseInt] on text that is not a number).  Comparisons
    with [NaN] are false, arithmetic with [NaN] is [NaN].  The integers are
    those a double holds exactly; on them [Number(x)] returns [x] itself,
    and so does [parseInt(x, 10)] below 1e21 (see [Js.parseInt]). *)

Inductive jsnum : Type :=
| NaN
| Num (z : Z).

Global Instance jsnum_eq_dec : EqDecision jsnum.
Proof. solve_decision. Defined.

Module Js.

Definition add (a b : jsnum) : jsnum :=
  match a, b with
  | Num x, Num y => Num (x + y)
  | _, _ => NaN
  end.

Definition mul (a b : jsnum) : jsnum :=
  match a, b with
  | Num x, Num y => Num (x * y)
  | _, _ => NaN
  end.

(** [a < b] *)
Definition lt (a b : jsnum) : bool :=
  match a, b with
  | Num x, Num y => x <? y
  | _, _ => false
  end.

(** [a >= b] *)
Definition ge (a b : jsnum) : bool :=
  match a, b with
  | Num x, Num y => y <=? x
  | _, _ => false
  end.

(** [a === b] on numbers: [NaN] is not equal to itself. *)
Definition strict_eq (a b : jsnum) : bool :=
  match a, b with
  | Num x, Num y => x =? y
  | _, _ => false
  end.

(** [isNaN(a)] *)
Definition isNaN (a : jsnum) : bool :=
  match a with NaN => true | Num _ => false end.

(** Truthiness of a number: [0] and [NaN] are falsy. *)
Definition truthy (a : jsnum) : bool :=
  match a with NaN => false | Num z => negb (z =? 0) end.

(** [Math.max] and [Math.min] return [NaN] as soon as one argument is. *)
Definition max (a b : jsnum) : jsnum :=
  match a, b with
  | Num x, Num y => Num (Z.max x y)
  | _, _ => NaN
  end.

Definition min (a b : jsnum) : jsnum :=
  match a, b with
  | Num x, Num y => Num (Z.min x y)
  | _, _ => NaN
  end.

(** [Array.prototype.includes] on an array of numbers compares with
    SameValueZero, under which [NaN] does equal [NaN]. *)
Definition includes_num (l : list jsnum) (x : jsnum) : bool :=
  existsb (fun y => bool_decide (y = x)) l.

(** [Array.prototype.includes] on an array of strings. *)
Definition includes_str (l : list string) (x : string) : bool :=
  existsb (fun y => bool_decide (y = x)) l.

(** [h * 60 + m], the minutes since midnight of a parsed ["HH:MM"]. *)
Definition hm_minutes (t : jsnum * jsnum) : jsnum :=
  add (mul (fst t) (Num 60)) (snd t).

(** [parseInt(x, 10)] on a number.  [parseInt] prints its argument and
    reads the digits the text starts with.  An integer below 1e21 prints as
    its digits and is read back; from 1e21 on a number prints in exponent
    notation ([1e+21], [2.5e+22]) and [parseInt] stops at the point or at
    the [e]: it returns [sci_head z], the integer part of the mantissa
    [Number::toString] prints for [z] (1 for 1e21). *)
Definition parseInt (sci_head : Z -> Z) (x : jsnum) : jsnum :=
  match x with
  | NaN => NaN
  | Num z => if Z.abs z <? 10 ^ 21 then Num z else Num (sci_head z)
  end.

End Js.

(** ** Wall clocks

    An instant is counted in whole minutes since 1970-01-01T00:00Z: both
    servers read only the weekday, the hour and the minute of an instant.
    A zone's offset from UTC at an instant is in minutes as well.  The
    first of January 1970 was a Thursday. *)

Module Clock.

Definition local (offset now : Z) : Z := now + offset.

Definition hour (lm : Z) : Z := (lm / 60) mod 24.
Definition minute (lm : Z) : Z := lm mod 60.

(** 0 is Sunday, as [dayjs().day()] counts. *)
Definition weekday (lm : Z) : Z := (lm / 1440 + 4) mod 7.

(** The [weekday: 'short'] names of the [en-US] locale. *)
Definition weekday_short (d : Z) : string :=
  match d with
  | 0 => "Sun" | 1 => "Mon" | 2 => "Tue" | 3 => "Wed"
  | 4 => "Thu" | 5 => "Fri" | _ => "Sat"
  end.

Definition minutes_since_midnight (lm : Z) : Z := hour lm * 60 + minute lm.

End Clock.

Inductive status : Type := ACTIVE | PAUSED.

Global Instance status_eq_dec : EqDecision status.
Proof. solve_decision. Defined.

(** The desired state as the specification words it, from the minutes since
    midnight [m] and the two boundary minutes. *)
Definition claimed_state (stop_m start_m m : Z) : status :=
  if stop_m =? start_m then PAUSED
  else if stop_m <? start_m then
    (if (stop_m <=? m) && (m <? start_m) then PAUSED else ACTIVE)
  else
    (if (stop_m <=? m) || (m <? start_m) then PAUSED else ACTIVE).

(** The period of the reconciliation trigger as the specification words
    it: the configured interval, clamped to at least 1 and at most 60. *)
Definition claimed_period (configured : Z) : Z := Z.max 1 (Z.min 60 configured).

(** A trigger whose period is [p] minutes, [fires] telling the minutes at
    which it runs: it runs at some minute, and after every minute at which
    it runs it runs next [p] minutes later. *)
Definition has_period (fires : Z -> bool) (p : Z) : Prop :=
  (exists lm, fires lm = true)
  /\ forall lm, fires lm = true ->
       fires (lm + p) = true /\ forall d, 0 < d < p -> fires (lm + d) = false.

(** [String.prototype.includes]: [sub] occurs in [s] as a contiguous run. *)
Fixpoint includes (s sub : string) : bool :=
  String.prefix sub s ||
  match s with
  | EmptyString => false
  | String _ s' => includes s' sub
  end.

(** What an [async] function ends with: a value, or a thrown error. *)
Inductive completion (E A : Type) : Type :=
| Returned (a : A)
| Threw (e : E).
Arguments Returned {E A} a.
Arguments Threw {E A} e.

(** ** The event loop

    A trigger's callback starts an [async] function: it runs up to its
    first [await] and leaves an invocation in flight; an invocation in
    flight advances to its next [await] when what it awaits settles.  Every
    other callback or continuation may run in between.  The loop is the
    same for both servers; each brings its actions [A], the points [P] at
    which an invocation can be suspended, and the settlements [X] the
    outside world delivers. *)

Module EventLoop.

Section Loop.

Context {K A P X : Type} `{EqDecision K}.

(** The rule an action works for. *)
Variable key : A -> K.
(** The point an invocation reaches when it is started at an instant. *)
Variable start : A -> Z -> P.
(** The point an invocation suspended at [p] reaches when [x] settles what
    it awaits; [None] when [p] does not await [x]. *)
Variable resume : A -> P -> X -> option P.
(** The object whose status POST an invocation suspended at [p] awaits. *)
Variable posting : P -> option string.
(** Whether the invocation has ended. *)
Variable finished : P -> bool.

Inductive label : Type :=
| Fire (a : A) (now : Z)
| Settle (i : nat) (x : X).

(** The invocations started so far, oldest first. *)
Local Abbreviation flights := (list (A * P)).

Definition step (c : flights) (l : label) : option flights :=
  match l with
  | Fire a now => Some (c ++ [(a, start a now)])
  | Settle i x =>
      match c !! i with
      | Some (a, p) =>
          match resume a p x with
          | Some p' => Some (<[i := (a, p')]> c)
          | None => None
          end
      | None => None
      end
  end.

Fixpoint steps (c : flights) (ls : list label) : option flights :=
  match ls with
  | [] => Some c
  | l :: ls' =>
      match step c l with
      | Some c' => steps c' ls'
      | None => None
      end
  end.

Definition is_running (k : K) (f : A * P) : bool :=
  bool_decide (key (fst f) = k) && negb (finished (snd f)).

Definition is_posting (k : K) (oid : string) (f : A * P) : bool :=
  bool_decide (key (fst f) = k) && bool_decide (posting (snd f) = Some oid).

(** The invocations of rule [k] that have not ended. *)
Definition running (k : K) (c : flights) : nat :=
  length (List.filter (is_running k) c).

(** The status POSTs to object [oid] that invocations of rule [k] await. *)
Definition posts_in_flight (k : K) (oid : string) (c : flights) : nat :=
  length (List.filter (is_posting k oid) c).

(** A run in which no trigger of rule [k] fires while an invocation of
    rule [k] is running. *)
Fixpoint calm (k : K) (c : flights) (ls : list label) : Prop :=
  match ls with
  | [] => True
  | l :: ls' =>
      match l with
      | Fire a _ => key a = k -> running k c = 0%nat
      | Settle _ _ => True
      end
      /\ match step c l with
         | Some c' => calm k c' ls'
         | None => True
         end
  end.

End Loop.

End EventLoop.

(** * The SQLite server (src/unnamed/part_000) *)

Module Part000.

(** A row of the [rules] table.  [target_ids] and [days_of_week] are kept
    as the arrays their JSON text parses to; [stop_time] and [start_time]
    as the pair [split(':').map(Number)] makes of them; [name_filter] is
    [None] for SQL [NULL]. *)
Record rule : Type := {
  id : Z;
  account_id : string;
  level : string;
  target_ids : list string;
  name_filter : option string;
  stop_time : jsnum * jsnum;
  start_time : jsnum * jsnum;
  timezone : string;
  enforce_window_minutes : Z;
  days_of_week : list string;
  enabled : bool;
  cred_index : Z
}.

(** The provider's error object, as far as the server looks at it:
    [e.response?.data?.error?.code] ([None] when there is none, or when
    it is not a number) and the payload [e.response?.data || e.message]. *)
Record provider_error : Type := {
  code : option Z;
  payload : string
}.

(** What the server's functions throw: the provider's error, the
    [RangeError] of [Intl.DateTimeFormat] for a name that is not a zone,
    the error of [cron.schedule] for an expression or a zone [node-cron]
    refuses, and the [SqliteError] of a statement SQLite does not compile. *)
Inductive error : Type :=
| AxiosError (e : provider_error)
| RangeError
| CronError
| SqliteError.

(** An object of the inventory listing: [{id, name}]. *)
Record item : Type := {
  item_id : string;
  item_name : option string
}.

(** What the outside world sees of a run, in the order it happens:
    requests to the provider, sleeps, alerts, and a write of the [last_run]
    column. *)
Inductive event : Type :=
| EvGet (account node : string)
| EvPost (object_id : string) (s : status)
| EvSleep (ms : Z)
| EvAlert (rule_id : Z) (lvl object_id : string) (s : status) (e : error)
| EvLastRun (rule_id : Z).

Definition trace : Type := list event.

Definition is_post (e : event) : bool :=
  match e with EvPost _ _ => true | _ => false end.

(** The requests and sleeps of a run: what a trace shows apart from the
    alerts and a write of [last_run]. *)
Definition is_request (e : event) : bool :=
  match e with
  | EvGet _ _ | EvPost _ _ | EvSleep _ => true
  | _ => false
  end.

(** The number of status POSTs sent so far. *)
Definition posts_made (tr : trace) : nat := length (List.filter is_post tr).

(** ["x || d"] on strings: the empty string is falsy. *)
Definition str_or (x d : string) : string := if bool_decide (x = "") then d else x.

Definition transient_codes : list Z := [1; 2; 4; 17; 32; 613; 80004].

Definition transient (c : option Z) : bool :=
  match c with
  | Some z => existsb (Z.eqb z) transient_codes
  | None => false
  end.

(** ** The trigger registry

    [node-cron] keeps the tasks it runs; the model calls a task by a
    handle, fresh at every [cron.schedule].  A task runs from
    [cron.schedule] until its [stop()]. *)

(** The two expressions the server writes: ["m h * * *"] and
    ["*/n * * * *"]. *)
Inductive cron_expr : Type :=
| Daily (minute hour : jsnum)
| EveryMinutes (n : Z).

(** The minutes at which [node-cron] runs a task, [lm] being the minute
    the wall clock of the task's zone shows, counted from its epoch.
    ["m h * * *"] is minute [m] of hour [h]; the step ["*/n"] of the
    minute field stands for the minutes 0, n, 2n, ... below 60 of every
    hour. *)
Definition fires (e : cron_expr) (lm : Z) : bool :=
  match e with
  | Daily m h =>
      Js.strict_eq (Num (Clock.minute lm)) m && Js.strict_eq (Num (Clock.hour lm)) h
  | EveryMinutes n => (0 <? n) && (Clock.minute lm mod n =? 0)
  end.

(** What a task's callback does when it fires. *)
Inductive action : Type :=
| RunEnforce (r : rule) (desired : status)
| RunPeriodic (r : rule).

Record cron_task : Type := {
  expr : cron_expr;
  task_tz : string;
  run : action
}.

(** The value of a [jobs] entry: [{ stop, start, enforce }]. *)
Record job_set : Type := {
  job_stop : nat;
  job_start : nat;
  job_enforce : nat
}.

Definition handles (j : job_set) : list nat :=
  [job_stop j; job_start j; job_enforce j].

Record scheduler : Type := {
  jobs : gmap Z job_set;
  tasks : gmap nat cron_task;
  next_task : nat
}.

Definition init : scheduler :=
  {| jobs := ∅; tasks := ∅; next_task := 0%nat |}.

(** [task.stop()] *)
Definition task_stop (s : scheduler) (h : nat) : scheduler :=
  {| jobs := jobs s; tasks := delete h (tasks s); next_task := next_task s |}.

Definition unscheduleRule (ruleId : Z) (s : scheduler) : scheduler :=
  match jobs s !! ruleId with
  | None => s
  | Some j =>
      let s1 := foldl task_stop s (handles j) in
      {| jobs := delete ruleId (jobs s1); tasks := tasks s1; next_task := next_task s1 |}
  end.

(** [Math.max(5, Number(rule.enforce_window_minutes) || 30)] *)
Definition everyXMins (r : rule) : Z :=
  Z.max 5 (if enforce_window_minutes r =? 0 then 30 else enforce_window_minutes r).

(** What the CRUD layer asks of the registry: the POST and PATCH handlers
    and the start-up loop call [scheduleRule(row)], the DELETE handler
    calls [unscheduleRule(id)]. *)
Inductive op : Type :=
| Schedule (r : rule)
| Unschedule (rid : Z).

(** ** Invocations of [enforce] in flight *)

(** Where an invocation of [enforce] is suspended: at [await
    getTargets(rule)], whose result is known at once ([Resolved]) or comes
    with the listing ([AwaitListing]); in [setStatus], at the POST of an
    attempt or at the sleep after it; at [await slackNotify(...)]; or
    nowhere, the invocation having ended. *)
Inductive pc : Type :=
| Resolved (desired : status) (targets : list string)
| AwaitListing (desired : status)
| AwaitPost (desired : status) (oid : string) (attempt : Z) (rest : list string)
| AwaitBackoff (desired : status) (oid : string) (attempt : Z) (rest : list string)
| AwaitSlack (desired : status) (rest : list string)
| Done.

(** What the outside world delivers to a suspended invocation. *)
Inductive settlement : Type :=
| Continue
| Listing (res : completion error (list string))
| PostReply (res : option provider_error)
| TimerFired
| SlackDone.

(** The next round of the [for (const id of targets)] loop. *)
Definition next_target (desired : status) (targets : list string) : pc :=
  match targets with
  | [] => Done
  | oid :: rest => AwaitPost desired oid 1 rest
  end.

Definition resume (a : action) (p : pc) (x : settlement) : option pc :=
  match p, x with
  | Resolved d targets, Continue => Some (next_target d targets)
  | AwaitListing d, Listing (Returned targets) => Some (next_target d targets)
  | AwaitListing d, Listing (Threw _) => Some Done
  | AwaitPost d oid k rest, PostReply None => Some (next_target d rest)
  | AwaitPost d oid k rest, PostReply (Some e) =>
      if (k <? 3) && transient (code e)
      then Some (AwaitBackoff d oid k rest)
      else Some (AwaitSlack d rest)
  | AwaitBackoff d oid k rest, TimerFired => Some (AwaitPost d oid (k + 1) rest)
  | AwaitSlack d rest, SlackDone => Some (next_target d rest)
  | _, _ => None
  end.

Definition posting (p : pc) : option string :=
  match p with
  | AwaitPost _ oid _ _ => Some oid
  | _ => None
  end.

Definition finished (p : pc) : bool :=
  match p with Done => true | _ => false end.

Definition rule_of (a : action) : rule :=
  match a with
  | RunEnforce r _ => r
  | RunPeriodic r => r
  end.

Definition key (a : action) : Z := id (rule_of a).

Section Server.

(** The zone database behind [Intl.DateTimeFormat]: the offset from UTC
    of a zone at an instant, [None] for a name that is not a zone (the
    constructor then throws a [RangeError]). *)
Variable utc_offset : string -> Z -> option Z.
(** The check [node-cron] makes of an expression and a zone before it
    creates a task: [cron.schedule] throws where it fails (an hour of 25, a
    field that is [NaN], a name that is not a zone). *)
Variable accepts : cron_expr -> string -> bool.
Variable DEFAULT_TZ : string.
(** Whether [SLACK_WEBHOOK_URL] is set. *)
Variable SLACK_WEBHOOK : bool.
(** The provider: the answer to the status POST sent after [n] earlier
    ones ([None] for success), and the first page of a listing. *)
Variable post_reply : nat -> option provider_error.
Variable list_reply : string -> string -> completion provider_error (list item).

Definition slackNotify (alert : event) (tr : trace) : trace :=
  if SLACK_WEBHOOK then tr ++ [alert] else tr.

Definition node_of (lvl : string) : string :=
  if bool_decide (lvl = "campaign") then "campaigns" else "adsets".

Definition fetchByNameFilter (r : rule) (tr : trace)
  : completion error (list string) * trace :=
  let tr1 := tr ++ [EvGet (account_id r) (node_of (level r))] in
  match list_reply (account_id r) (node_of (level r)) with
  | Threw e => (Threw (AxiosError e), tr1)
  | Returned data =>
      (Returned
         (map item_id
            (List.filter (fun x => includes (default "" (item_name x))
                                       (default "" (name_filter r))) data)),
       tr1)
  end.

Definition getTargets (r : rule) (tr : trace)
  : completion error (list string) * trace :=
  let ids := target_ids r in
  if negb (Nat.eqb (length ids) 0) then (Returned ids, tr)
  else if bool_decide (default "" (name_filter r) = "") then (Returned [], tr)
  else fetchByNameFilter r tr.

(** The loop of [setStatus], from attempt number [attempt] on.  The loop
    runs at most three times, so [fuel = 3] is all it ever needs. *)
Fixpoint setStatus_loop (fuel : nat) (attempt : Z) (oid : string)
    (desired : status) (tr : trace) : completion error unit * trace :=
  match fuel with
  | O => (Returned tt, tr)
  | S fuel' =>
      if negb (attempt <=? 3) then (Returned tt, tr)
      else
        let tr1 := tr ++ [EvPost oid desired] in
        match post_reply (posts_made tr) with
        | None => (Returned tt, tr1)
        | Some e =>
            if (attempt <? 3) && transient (code e)
            then setStatus_loop fuel' (attempt + 1) oid desired
                   (tr1 ++ [EvSleep (500 * attempt)])
            else (Threw (AxiosError e), tr1)
        end
  end.

Definition setStatus (oid : string) (desired : status) (r : rule) (tr : trace)
  : completion error unit * trace :=
  setStatus_loop 3 1 oid desired tr.

(** The body of the [for (const id of targets)] loop of [enforce]. *)
Definition enforce_target (r : rule) (desired : status) (tr : trace)
    (oid : string) : trace :=
  match setStatus oid desired r tr with
  | (Returned _, tr1) => tr1
  | (Threw e, tr1) => slackNotify (EvAlert (id r) (level r) oid desired e) tr1
  end.

(** The weekday [enforce] reads: the short [en-US] name of the day in
    the zone [rule.timezone]. *)
Definition local_weekday (tz : string) (now : Z) : option string :=
  off ← utc_offset tz now;
  Some (Clock.weekday_short (Clock.weekday (Clock.local off now))).

(** [enforce].  Its last statement prepares
    [UPDATE rules SET last_run = datetime("now") WHERE id = ?]: SQLite reads
    the double-quoted [now] as the name of a column, the table has none of
    that name and [better-sqlite3], which builds SQLite without
    double-quoted string literals, throws from [db.prepare]: a run that
    comes to this statement ends by throwing and [last_run] is not
    written. *)
Definition enforce (r : rule) (desired : status) (now : Z) (tr : trace)
  : completion error unit * trace :=
  match local_weekday (timezone r) now with
  | None => (Threw RangeError, tr)
  | Some dow =>
      if negb (Js.includes_str (days_of_week r) dow) then (Returned tt, tr)
      else
        match getTargets r tr with
        | (Threw e, tr1) => (Threw e, tr1)
        | (Returned targets, tr1) =>
            if Nat.eqb (length targets) 0 then (Returned tt, tr1)
            else
              let tr2 := foldl (enforce_target r desired) tr1 targets in
              (Threw SqliteError, tr2)
        end
  end.

(** The minutes since midnight [periodicEnforce] reads: [hh*60 + mm] of
    the [en-GB] 24-hour rendering in the zone
    [rule.timezone || DEFAULT_TZ]. *)
Definition local_minutes (tz : string) (now : Z) : option Z :=
  off ← utc_offset tz now;
  Some (Clock.minutes_since_midnight (Clock.local off now)).

(** The [let desired = ...] block of [periodicEnforce]. *)
Definition desired_at (cur : Z) (stopMin startMin : jsnum) : status :=
  if Js.lt stopMin startMin then
    if Js.ge (Num cur) stopMin && Js.lt (Num cur) startMin then PAUSED else ACTIVE
  else
    if Js.ge (Num cur) stopMin || Js.lt (Num cur) startMin then PAUSED else ACTIVE.

(** The state [periodicEnforce] hands to [enforce] at instant [now];
    [None] when the zone name is refused. *)
Definition periodic_desired (r : rule) (now : Z) : option status :=
  cur ← local_minutes (str_or (timezone r) DEFAULT_TZ) now;
  Some (desired_at cur (Js.hm_minutes (stop_time r)) (Js.hm_minutes (start_time r))).

(** [periodicEnforce] reads the clock, and [enforce] reads it again:
    [now'] is that second reading. *)
Definition periodicEnforce (r : rule) (now now' : Z) (tr : trace)
  : completion error unit * trace :=
  match periodic_desired r now with
  | None => (Threw RangeError, tr)
  | Some desired => enforce r desired now' tr
  end.

(** The three tasks [scheduleRule] creates for an enabled rule, in the
    order it creates them. *)
Definition triggers_of (r : rule) : list cron_task :=
  let tz := str_or (timezone r) DEFAULT_TZ in
  let '(stopH, stopM) := stop_time r in
  let '(startH, startM) := start_time r in
  [ {| expr := Daily stopM stopH; task_tz := tz; run := RunEnforce r PAUSED |};
    {| expr := Daily startM startH; task_tz := tz; run := RunEnforce r ACTIVE |};
    {| expr := EveryMinutes (everyXMins r); task_tz := tz; run := RunPeriodic r |} ].

(** The registry with one more task running, under the next handle. *)
Definition started (tk : cron_task) (s : scheduler) : scheduler :=
  {| jobs := jobs s;
     tasks := <[next_task s := tk]> (tasks s);
     next_task := S (next_task s) |}.

(** [cron.schedule(expr, fn, { timezone })]: [None] when it throws, no
    task being created then. *)
Definition cron_schedule (tk : cron_task) (s : scheduler) : option (nat * scheduler) :=
  if accepts (expr tk) (task_tz tk) then Some (next_task s, started tk s) else None.

(** [scheduleRule] has no [try]: when one of its [cron.schedule] calls
    throws, the old set is cancelled already, the tasks created before it
    run on, and [jobs.set] is not reached. *)
Definition scheduleRule (r : rule) (s : scheduler) : completion error unit * scheduler :=
  let s0 := unscheduleRule (id r) s in
  if negb (enabled r) then (Returned tt, s0)
  else
    let tz := str_or (timezone r) DEFAULT_TZ in
    let '(stopH, stopM) := stop_time r in
    let '(startH, startM) := start_time r in
    match cron_schedule {| expr := Daily stopM stopH; task_tz := tz;
                           run := RunEnforce r PAUSED |} s0 with
    | None => (Threw CronError, s0)
    | Some (stop, s1) =>
        match cron_schedule {| expr := Daily startM startH; task_tz := tz;
                               run := RunEnforce r ACTIVE |} s1 with
        | None => (Threw CronError, s1)
        | Some (start, s2) =>
            let everyXMins := everyXMins r in
            match cron_schedule {| expr := EveryMinutes everyXMins; task_tz := tz;
                                   run := RunPeriodic r |} s2 with
            | None => (Threw CronError, s2)
            | Some (enforceTask, s3) =>
                (Returned tt,
                 {| jobs := <[id r := {| job_stop := stop; job_start := start;
                                         job_enforce := enforceTask |}]> (jobs s3);
                    tasks := tasks s3;
                    next_task := next_task s3 |})
            end
        end
    end.

(** The registry after a request, whether or not [scheduleRule] threw. *)
Definition apply_op (s : scheduler) (o : op) : scheduler :=
  match o with
  | Schedule r => snd (scheduleRule r s)
  | Unschedule rid => unscheduleRule rid s
  end.

(** The registry after a sequence of requests on a fresh process. *)
Definition replay (ops : list op) : scheduler := foldl apply_op init ops.

(** Whether the call a request makes returns. *)
Definition returns (s : scheduler) (o : op) : bool :=
  match o with
  | Schedule r =>
      match fst (scheduleRule r s) with Returned _ => true | Threw _ => false end
  | Unschedule _ => true
  end.

(** No [scheduleRule] of the requests [ops], made one after the other from
    the registry [s], throws. *)
Fixpoint all_return (s : scheduler) (ops : list op) : bool :=
  match ops with
  | [] => true
  | o :: ops' => returns s o && all_return (apply_op s o) ops'
  end.

(** [node-cron] accepts the three triggers of the rule. *)
Definition accepted (r : rule) : bool :=
  forallb (fun tk => accepts (expr tk) (task_tz tk)) (triggers_of r).

(** The rules that have a registry entry after a sequence of requests,
    each with the configuration it was last scheduled with: [scheduleRule]
    sets the entry of an enabled rule whose triggers [node-cron] accepts,
    and leaves the id without an entry otherwise. *)
Definition installed_step (m : gmap Z rule) (o : op) : gmap Z rule :=
  match o with
  | Schedule r => if enabled r && accepted r then <[id r := r]> m else delete (id r) m
  | Unschedule rid => delete rid m
  end.

Definition installed (ops : list op) : gmap Z rule := foldl installed_step ∅ ops.

(** The registry [s] holds the triggers of the rules [m]: an entry for
    each of them and for no other id, its three tasks running with the
    rule's configuration, and no handle shared.  Every running task is a
    trigger [scheduleRule] made for some rule, and its handle is spent. *)
Record registry_inv (m : gmap Z rule) (s : scheduler) : Prop := {
  inv_dom : forall rid, jobs s !! rid = None <-> m !! rid = None;
  inv_tasks : forall rid r j,
    m !! rid = Some r -> jobs s !! rid = Some j ->
    (fun h => tasks s !! h) <$> handles j = Some <$> triggers_of r;
  inv_made : forall h tk,
    tasks s !! h = Some tk -> exists r, tk ∈ triggers_of r;
  inv_bound : forall h, is_Some (tasks s !! h) -> (h < next_task s)%nat;
  inv_fresh : forall rid j h,
    jobs s !! rid = Some j -> h ∈ handles j -> (h < next_task s)%nat;
  inv_disjoint : forall rid1 rid2 j1 j2 h,
    jobs s !! rid1 = Some j1 -> jobs s !! rid2 = Some j2 ->
    h ∈ handles j1 -> h ∈ handles j2 -> rid1 = rid2;
  inv_nodup : forall rid j, jobs s !! rid = Some j -> NoDup (handles j)
}.

(** No task runs outside the registry: every running task is one of the
    three of an entry. *)
Definition no_stray (s : scheduler) : Prop :=
  forall h, is_Some (tasks s !! h) ->
    exists rid j, jobs s !! rid = Some j /\ h ∈ handles j.

(** [enforce] up to its first [await]. *)
Definition begin_enforce (r : rule) (desired : status) (now : Z) : pc :=
  match local_weekday (timezone r) now with
  | None => Done
  | Some dow =>
      if negb (Js.includes_str (days_of_week r) dow) then Done
      else if negb (Nat.eqb (length (target_ids r)) 0)
      then Resolved desired (target_ids r)
      else if bool_decide (default "" (name_filter r) = "") then Resolved desired []
      else AwaitListing desired
  end.

(** A task's callback: [() => enforce(rule, 'PAUSED')],
    [() => enforce(rule, 'ACTIVE')] or [() => periodicEnforce(rule)]. *)
Definition start_action (a : action) (now : Z) : pc :=
  match a with
  | RunEnforce r desired => begin_enforce r desired now
  | RunPeriodic r =>
      match periodic_desired r now with
      | None => Done
      | Some desired => begin_enforce r desired now
      end
  end.

(** *** One invocation on its own

    The request an invocation suspended at [p] has sent and waits for, and
    what the provider answers to it after [n] earlier status POSTs. *)
Definition awaited (r : rule) (p : pc) : list event :=
  match p with
  | AwaitListing _ => [EvGet (account_id r) (node_of (level r))]
  | AwaitPost d oid _ _ => [EvPost oid d]
  | AwaitBackoff _ _ k _ => [EvSleep (500 * k)]
  | _ => []
  end.

Definition answer (r : rule) (p : pc) (n : nat) : option settlement :=
  match p with
  | Resolved _ _ => Some Continue
  | AwaitListing _ => Some (Listing (fst (fetchByNameFilter r [])))
  | AwaitPost _ _ _ _ => Some (PostReply (post_reply n))
  | AwaitBackoff _ _ _ _ => Some TimerFired
  | AwaitSlack _ _ => Some SlackDone
  | Done => None
  end.

(** The requests an invocation sends when nothing else runs between its
    steps, over at most [fuel] steps. *)
Fixpoint run_alone (fuel : nat) (a : action) (p : pc) (n : nat) : list event :=
  match fuel with
  | O => []
  | S fuel' =>
      match answer (rule_of a) p n with
      | None => []
      | Some x =>
          awaited (rule_of a) p ++
          match resume a p x with
          | Some p' =>
              run_alone fuel' a p' (match posting p with Some _ => S n | None => n end)
          | None => []
          end
      end
  end.

End Server.

End Part000.

(** * The JSON-file server (src/unnamed/part_001) *)

Module Part001.

(** A rule as the POST handler builds it.  [stop] and [start] are kept as
    the pair [split(':').map(v => parseInt(v, 10))] makes of them; an
    absent [days] is the empty list (the code treats both alike). *)
Record rule : Type := {
  id : string;
  account_id : string;
  level : string;
  ids : list string;
  name_contains : string;
  stop : jsnum * jsnum;
  start : jsnum * jsnum;
  tz : string;
  days : list jsnum;
  enforce_every : jsnum
}.

Record item : Type := {
  item_id : string;
  item_name : option string
}.

(** An address the listing is fetched from: the first page of a node of
    an account, or the [paging.next] link of an earlier page. *)
Inductive url : Type :=
| ListUrl (account node : string)
| NextUrl (link : string).

(** The answer to a listing request: a page ([json.data], and
    [json.paging.next] when there is one), a response that is not [ok],
    or a request that fails ([fetch] throws). *)
Inductive page_result : Type :=
| PageOk (data : list item) (next : option string)
| PageNotOk (json : string)
| PageThrew (msg : string).

(** The answer to a status POST. *)
Inductive post_result : Type :=
| PostOk (json : string)
| PostNotOk (json : string)
| PostThrew (msg : string).

(** An entry of the array [setStatusOnObjects] returns. *)
Inductive result : Type :=
| ResOk (object_id : string) (json : string)
| ResFail (object_id : string) (detail : string).

Inductive event : Type :=
| EvFetch (u : url)
| EvPost (object_id : string) (s : status)
| EvSlack (text : string).

Definition trace : Type := list event.

Definition is_post (e : event) : bool :=
  match e with EvPost _ _ => true | _ => false end.

Definition is_fetch (e : event) : bool :=
  match e with EvFetch _ => true | _ => false end.

Definition posts_made (tr : trace) : nat := length (List.filter is_post tr).

(** The number of listing requests sent so far. *)
Definition fetches (tr : trace) : nat := length (List.filter is_fetch tr).

Definition str_or (x d : string) : string := if bool_decide (x = "") then d else x.

(** ** The trigger registry *)

(** The two expressions the server writes: ["m h * * *"] and
    ["*/n * * * *"]. *)
Inductive cron_expr : Type :=
| Daily (minute hour : jsnum)
| EveryMinutes (n : jsnum).

(** The minutes at which [node-cron] runs a task, [lm] being the minute
    the wall clock of the task's zone shows, counted from its epoch.
    ["m h * * *"] is minute [m] of hour [h]; the step ["*/n"] of the
    minute field stands for the minutes 0, n, 2n, ... below 60 of every
    hour. *)
Definition fires (e : cron_expr) (lm : Z) : bool :=
  match e with
  | Daily m h =>
      Js.strict_eq (Num (Clock.minute lm)) m && Js.strict_eq (Num (Clock.hour lm)) h
  | EveryMinutes (Num n) => (0 <? n) && (Clock.minute lm mod n =? 0)
  | EveryMinutes NaN => false
  end.

(** What a task's callback does when it fires: the two edge callbacks
    resolve the targets and set a fixed status, the third calls
    [enforceRule]. *)
Inductive action : Type :=
| RunEdge (r : rule) (st : status)
| RunEnforceRule (r : rule).

Record cron_task : Type := {
  expr : cron_expr;
  task_tz : string;
  run : action
}.

Record scheduler : Type := {
  schedulers : gmap string (list nat);
  tasks : gmap nat cron_task;
  next_task : nat
}.

Definition init : scheduler :=
  {| schedulers := ∅; tasks := ∅; next_task := 0%nat |}.

(** [job.stop()] *)
Definition task_stop (s : scheduler) (h : nat) : scheduler :=
  {| schedulers := schedulers s; tasks := delete h (tasks s);
     next_task := next_task s |}.

Definition unschedule (rid : string) (s : scheduler) : scheduler :=
  match schedulers s !! rid with
  | Some set =>
      let s1 := foldl task_stop s set in
      {| schedulers := delete rid (schedulers s1); tasks := tasks s1;
         next_task := next_task s1 |}
  | None => s
  end.

(** [cronForTime]: the expression ["m h * * *"] with a field that did not
    parse replaced by 0. *)
Definition cronForTime (tm : jsnum * jsnum) (zone : string) : cron_expr * string :=
  let '(hh, mm) := tm in
  let m := if Js.isNaN mm then Num 0 else mm in
  let h := if Js.isNaN hh then Num 0 else hh in
  (Daily m h, zone).

(** What the CRUD layer asks of the registry: the POST handler and the
    start-up loop call [scheduleRule(rule)], the DELETE handler calls
    [unschedule(id)]. *)
Inductive op : Type :=
| Schedule (r : rule)
| Unschedule (rid : string).

(** ** Invocations of the trigger callbacks in flight *)

(** Where a callback is suspended: at [await findTargetsByName(...)]; in
    [setStatusOnObjects], at the POST for an object (until its body is
    read) or at [await postSlack(...)]; or nowhere, having ended. *)
Inductive pc : Type :=
| AwaitTargets (st : status)
| AwaitPost (st : status) (oid : string) (rest : list string)
| AwaitSlack (st : status) (rest : list string)
| Done.

Inductive settlement : Type :=
| Targets (res : completion string (list string))
| PostSettled (res : post_result)
| SlackDone.

(** The next round of the loop of [setStatusOnObjects]. *)
Definition next_target (st : status) (oids : list string) : pc :=
  match oids with
  | [] => Done
  | oid :: rest => AwaitPost st oid rest
  end.

Definition resume (a : action) (p : pc) (x : settlement) : option pc :=
  match p, x with
  | AwaitTargets st, Targets (Returned oids) => Some (next_target st oids)
  | AwaitTargets st, Targets (Threw _) => Some Done
  | AwaitPost st oid rest, PostSettled (PostOk _) => Some (next_target st rest)
  | AwaitPost st oid rest, PostSettled _ => Some (AwaitSlack st rest)
  | AwaitSlack st rest, SlackDone => Some (next_target st rest)
  | _, _ => None
  end.

Definition posting (p : pc) : option string :=
  match p with
  | AwaitPost _ oid _ => Some oid
  | _ => None
  end.

Definition finished (p : pc) : bool :=
  match p with Done => true | _ => false end.

Definition rule_of (a : action) : rule :=
  match a with
  | RunEdge r _ => r
  | RunEnforceRule r => r
  end.

Definition key (a : action) : string := id (rule_of a).

(** A callback up to its first [await], once the status is chosen. *)
Definition begin_apply (r : rule) (st : status) : pc :=
  if negb (Nat.eqb (length (ids r)) 0) then next_target st (ids r)
  else AwaitTargets st.

Section Server.

(** The offset from UTC of the zone the server process runs in: [dayjs]
    is used without its timezone plugin and reads the host's clock. *)
Variable host_offset : Z -> Z.
(** The check [node-cron] makes of an expression and a zone before it
    creates a task: [cron.schedule] throws where it fails (an hour of 25, a
    name that is not a zone). *)
Variable accepts : cron_expr -> string -> bool.
(** What [parseInt] reads of a number of 1e21 or more, see [Js.parseInt]. *)
Variable sci_head : Z -> Z.
Variable ACCOUNT_TIMEZONE_DEFAULT : string.
Variable SLACK_WEBHOOK_URL : bool.
Variable toLowerCase : string -> string.
Variable post_reply : nat -> post_result.
Variable page_reply : url -> page_result.

Definition postSlack (text : string) (tr : trace) : trace :=
  if SLACK_WEBHOOK_URL then tr ++ [EvSlack text] else tr.

(** The body of the loop of [setStatusOnObjects]; [json] is
    [JSON.stringify] of the body of a response that is not [ok], [msg] is
    [String(e)] of what [fetch] threw. *)
Definition setStatus_one (lvl : string) (st : status)
    (acc : list result * trace) (oid : string) : list result * trace :=
  let '(results, tr) := acc in
  let tr1 := tr ++ [EvPost oid st] in
  match post_reply (posts_made tr) with
  | PostOk json => (results ++ [ResOk oid json], tr1)
  | PostNotOk json =>
      (results ++ [ResFail oid json],
       postSlack ("Meta API status update failed for " +:+ lvl +:+ " " +:+ oid
                  +:+ ": " +:+ json) tr1)
  | PostThrew msg =>
      (results ++ [ResFail oid msg],
       postSlack ("Meta API request failed for " +:+ lvl +:+ " " +:+ oid
                  +:+ ": " +:+ msg) tr1)
  end.

Definition setStatusOnObjects (lvl : string) (oids : list string) (st : status)
    (tr : trace) : list result * trace :=
  foldl (setStatus_one lvl st) ([], tr) oids.

Definition node_of (lvl : string) : string :=
  if bool_decide (lvl = "campaign") then "campaigns" else "adsets".

(** The test of the inner loop of [findTargetsByName]. *)
Definition name_matches (nameContains : string) (it : item) : bool :=
  bool_decide (nameContains = "") ||
  includes (toLowerCase (default "" (item_name it))) (toLowerCase nameContains).

(** [json.paging && json.paging.next ? json.paging.next : null] *)
Definition next_url (next : option string) : option url :=
  match next with
  | Some link => if bool_decide (link = "") then None else Some (NextUrl link)
  | None => None
  end.

(** The loop of [findTargetsByName] from page counter [i] on, [node]
    being the node it lists.  The loop runs at most ten times, so
    [fuel = 10] is all it ever needs. *)
Fixpoint pages_loop (node : string) (fuel : nat) (i : Z) (u : option url)
    (nameContains : string) (out : list string) (tr : trace)
  : completion string (list string) * trace :=
  match fuel with
  | O => (Returned out, tr)
  | S fuel' =>
      match u with
      | None => (Returned out, tr)
      | Some addr =>
          if negb (i <? 10) then (Returned out, tr)
          else
            let tr1 := tr ++ [EvFetch addr] in
            match page_reply addr with
            | PageThrew msg => (Threw msg, tr1)
            | PageNotOk json =>
                (Returned out,
                 postSlack ("Meta API list " +:+ node +:+ " failed: " +:+ json) tr1)
            | PageOk data next =>
                pages_loop node fuel' (i + 1) (next_url next) nameContains
                  (out ++ map item_id (List.filter (name_matches nameContains) data)) tr1
            end
      end
  end.

Definition findTargetsByName (accountId lvl nameContains : string) (tr : trace)
  : completion string (list string) * trace :=
  let node := node_of lvl in
  pages_loop node 10 0 (Some (ListUrl accountId node)) nameContains [] tr.

(** The listing as the specification describes the walk over it: the
    objects on the pages reached from [u] by following the next links, over
    at most [n] requests, up to the first response that is not [ok]. *)
Fixpoint listing_walked (n : nat) (u : option url) : completion string (list item) :=
  match n, u with
  | S n', Some addr =>
      match page_reply addr with
      | PageThrew msg => Threw msg
      | PageNotOk _ => Returned []
      | PageOk data next =>
          match listing_walked n' (next_url next) with
          | Returned more => Returned (data ++ more)
          | Threw msg => Threw msg
          end
      end
  | _, _ => Returned []
  end.

(** The name of [it] contains [f], letter case set aside. *)
Definition contains_ci (f : string) (it : item) : bool :=
  includes (toLowerCase (default "" (item_name it))) (toLowerCase f).

(** The inner function [t] of [inActiveWindow]. *)
Definition t (s : jsnum * jsnum) : jsnum := Js.hm_minutes s.

Definition inActiveWindow (r : rule) (now : Z) : bool :=
  let n := Clock.local (host_offset now) now in
  let day := Clock.weekday n in
  if Nat.eqb (length (days r)) 0 then true
  else if negb (Js.includes_num (days r) (Num day)) then false
  else
    let mins := Num (Clock.hour n * 60 + Clock.minute n) in
    let start_ := t (start r) in
    let stop_ := t (stop r) in
    if Js.strict_eq start_ stop_ then false
    else if Js.lt start_ stop_ then Js.ge mins start_ && Js.lt mins stop_
    else negb (Js.ge mins stop_ && Js.lt mins start_).

(** [rule.ids && rule.ids.length > 0 ? rule.ids : await findTargetsByName(...)] *)
Definition targets_of (r : rule) (tr : trace)
  : completion string (list string) * trace :=
  if negb (Nat.eqb (length (ids r)) 0) then (Returned (ids r), tr)
  else findTargetsByName (account_id r) (level r) (str_or (name_contains r) "") tr.

Definition enforceRule (r : rule) (now : Z) (tr : trace)
  : completion string unit * trace :=
  let desiredActive := inActiveWindow r now in
  let st := if desiredActive then ACTIVE else PAUSED in
  match targets_of r tr with
  | (Threw e, tr1) => (Threw e, tr1)
  | (Returned oids, tr1) =>
      (Returned tt, snd (setStatusOnObjects (level r) oids st tr1))
  end.

(** The callbacks of the two edge triggers [scheduleRule] creates: resolve
    the targets, then set them to a fixed status. *)
Definition edge_callback (r : rule) (st : status) (tr : trace)
  : completion string unit * trace :=
  match targets_of r tr with
  | (Threw e, tr1) => (Threw e, tr1)
  | (Returned oids, tr1) =>
      (Returned tt, snd (setStatusOnObjects (level r) oids st tr1))
  end.

(** [Math.max(1, Math.min(60, parseInt(rule.enforce_every || '5', 10)))]:
    [rule.enforce_every] is a number, which [parseInt] prints and reads
    back; [0] and [NaN] are falsy and give way to ['5']. *)
Definition every (r : rule) : jsnum :=
  Js.max (Num 1)
    (Js.min (Num 60)
       (if Js.truthy (enforce_every r) then Js.parseInt sci_head (enforce_every r)
        else Num 5)).

Definition triggers_of (r : rule) : list cron_task :=
  let zone := str_or (tz r) ACCOUNT_TIMEZONE_DEFAULT in
  let s1 := cronForTime (stop r) zone in
  let s2 := cronForTime (start r) zone in
  [ {| expr := fst s1; task_tz := zone; run := RunEdge r PAUSED |};
    {| expr := fst s2; task_tz := zone; run := RunEdge r ACTIVE |};
    {| expr := EveryMinutes (every r); task_tz := zone; run := RunEnforceRule r |} ].

(** The registry with one more task running, under the next handle. *)
Definition started (tk : cron_task) (s : scheduler) : scheduler :=
  {| schedulers := schedulers s;
     tasks := <[next_task s := tk]> (tasks s);
     next_task := S (next_task s) |}.

(** [cron.schedule(expr, fn, { timezone })]: [None] when it throws, no
    task being created then. *)
Definition cron_schedule (tk : cron_task) (s : scheduler) : option (nat * scheduler) :=
  if accepts (expr tk) (task_tz tk) then Some (next_task s, started tk s) else None.

(** [scheduleRule] has no [try]: when one of its [cron.schedule] calls
    throws, the old set is cancelled already, the tasks created before it
    run on, and [schedulers.set] is not reached.  [Threw tt] stands for
    the error of [cron.schedule]. *)
Definition scheduleRule (r : rule) (s : scheduler) : completion unit unit * scheduler :=
  let s0 := unschedule (id r) s in
  let zone := str_or (tz r) ACCOUNT_TIMEZONE_DEFAULT in
  let s1 := cronForTime (stop r) zone in
  let s2 := cronForTime (start r) zone in
  match cron_schedule {| expr := fst s1; task_tz := zone; run := RunEdge r PAUSED |} s0
  with
  | None => (Threw tt, s0)
  | Some (job1, st1) =>
      match cron_schedule {| expr := fst s2; task_tz := zone; run := RunEdge r ACTIVE |}
              st1
      with
      | None => (Threw tt, st1)
      | Some (job2, st2) =>
          let every := every r in
          match cron_schedule {| expr := EveryMinutes every; task_tz := zone;
                                 run := RunEnforceRule r |} st2
          with
          | None => (Threw tt, st2)
          | Some (job3, st3) =>
              (Returned tt,
               {| schedulers := <[id r := [job1; job2; job3]]> (schedulers st3);
                  tasks := tasks st3;
                  next_task := next_task st3 |})
          end
      end
  end.

(** The registry after a request, whether or not [scheduleRule] threw. *)
Definition apply_op (s : scheduler) (o : op) : scheduler :=
  match o with
  | Schedule r => snd (scheduleRule r s)
  | Unschedule rid => unschedule rid s
  end.

(** The registry after a sequence of requests on a fresh process. *)
Definition replay (ops : list op) : scheduler := foldl apply_op init ops.

(** Whether the call a request makes returns. *)
Definition returns (s : scheduler) (o : op) : bool :=
  match o with
  | Schedule r =>
      match fst (scheduleRule r s) with Returned _ => true | Threw _ => false end
  | Unschedule _ => true
  end.

(** No [scheduleRule] of the requests [ops], made one after the other from
    the registry [s], throws. *)
Fixpoint all_return (s : scheduler) (ops : list op) : bool :=
  match ops with
  | [] => true
  | o :: ops' => returns s o && all_return (apply_op s o) ops'
  end.

(** [node-cron] accepts the three triggers of the rule. *)
Definition accepted (r : rule) : bool :=
  forallb (fun tk => accepts (expr tk) (task_tz tk)) (triggers_of r).

(** The rules that have a registry entry after a sequence of requests,
    each with the configuration it was last scheduled with.  A rule of this
    server has no [enabled] field: [scheduleRule] sets the entry of every
    rule whose triggers [node-cron] accepts, and leaves the id without an
    entry otherwise. *)
Definition installed_step (m : gmap string rule) (o : op) : gmap string rule :=
  match o with
  | Schedule r => if accepted r then <[id r := r]> m else delete (id r) m
  | Unschedule rid => delete rid m
  end.

Definition installed (ops : list op) : gmap string rule :=
  foldl installed_step ∅ ops.

(** The registry [s] holds the triggers of the rules [m]: an entry for
    each of them and for no other id, its three tasks running with the
    rule's configuration, and no handle shared.  Every running task is a
    trigger [scheduleRule] made for some rule, and its handle is spent. *)
Record registry_inv (m : gmap string rule) (s : scheduler) : Prop := {
  inv_dom : forall rid, schedulers s !! rid = None <-> m !! rid = None;
  inv_tasks : forall rid r set,
    m !! rid = Some r -> schedulers s !! rid = Some set ->
    (fun h => tasks s !! h) <$> set = Some <$> triggers_of r;
  inv_made : forall h tk,
    tasks s !! h = Some tk -> exists r, tk ∈ triggers_of r;
  inv_bound : forall h, is_Some (tasks s !! h) -> (h < next_task s)%nat;
  inv_fresh : forall rid set h,
    schedulers s !! rid = Some set -> h ∈ set -> (h < next_task s)%nat;
  inv_disjoint : forall rid1 rid2 set1 set2 h,
    schedulers s !! rid1 = Some set1 -> schedulers s !! rid2 = Some set2 ->
    h ∈ set1 -> h ∈ set2 -> rid1 = rid2;
  inv_nodup : forall rid set, schedulers s !! rid = Some set -> NoDup set
}.

(** No task runs outside the registry: every running task is one of the
    three of an entry. *)
Definition no_stray (s : scheduler) : Prop :=
  forall h, is_Some (tasks s !! h) ->
    exists rid set, schedulers s !! rid = Some set /\ h ∈ set.

(** A task's callback: one of the two edge callbacks, or
    [async () => { await enforceRule(rule); }]. *)
Definition start_action (a : action) (now : Z) : pc :=
  match a with
  | RunEdge r st => begin_apply r st
  | RunEnforceRule r =>
      begin_apply r (if inActiveWindow r now then ACTIVE else PAUSED)
  end.

(** *** One invocation on its own *)

Definition awaited (p : pc) : list event :=
  match p with
  | AwaitPost st oid _ => [EvPost oid st]
  | _ => []
  end.

Definition answer (r : rule) (p : pc) (n : nat) : option settlement :=
  match p with
  | AwaitTargets _ =>
      Some (Targets (fst (findTargetsByName (account_id r) (level r)
                            (str_or (name_contains r) "") [])))
  | AwaitPost _ _ _ => Some (PostSettled (post_reply n))
  | AwaitSlack _ _ => Some SlackDone
  | Done => None
  end.

(** The status POSTs an invocation sends when nothing else runs between
    its steps, over at most [fuel] steps. *)
Fixpoint run_alone (fuel : nat) (a : action) (p : pc) (n : nat) : list event :=
  match fuel with
  | O => []
  | S fuel' =>
      match answer (rule_of a) p n with
      | None => []
      | Some x =>
          awaited p ++
          match resume a p x with
          | Some p' =>
              run_alone fuel' a p' (match posting p with Some _ => S n | None => n end)
          | None => []
          end
      end
  end.

End Server.

End Part001.

(** * Concrete inputs used by the examples below *)

Module Scenario.

(** A zone database with two zones that never change their offset. *)
Definition zones (name : string) (now : Z) : option Z :=
  if bool_decide (name = "UTC") then Some 0
  else if bool_decide (name = "Asia/Tokyo") then Some 540
  else None.

(** A [node-cron] that accepts the minutes 0 to 59, the hours 0 to 23,
    the steps from 1 on, and the two zones above. *)
Definition in_range (lo hi : Z) (x : jsnum) : bool :=
  match x with
  | Num z => (lo <=? z) && (z <=? hi)
  | NaN => false
  end.

Definition known_zone (name : string) : bool :=
  bool_decide (name = "UTC") || bool_decide (name = "Asia/Tokyo").

Definition node_cron000 (e : Part000.cron_expr) (zone : string) : bool :=
  match e with
  | Part000.Daily m h => in_range 0 59 m && in_range 0 23 h
  | Part000.EveryMinutes n => 1 <=? n
  end && known_zone zone.

Definition node_cron001 (e : Part001.cron_expr) (zone : string) : bool :=
  match e with
  | Part001.Daily m h => in_range 0 59 m && in_range 0 23 h
  | Part001.EveryMinutes n => in_range 1 (10 ^ 21) n
  end && known_zone zone.

(** The first digit of a number, for [Js.parseInt]. *)
Fixpoint first_digit (fuel : nat) (z : Z) : Z :=
  match fuel with
  | O => z
  | S fuel' => if Z.abs z <? 10 then z else first_digit fuel' (Z.quot z 10)
  end.

Definition sci_head (z : Z) : Z := first_digit 400 z.

(** Monday 1970-01-05, 23:00 UTC, and the Tuesday after it. *)
Definition monday_2300 : Z := 4 * 1440 + 23 * 60.
Definition tuesday_2300 : Z := 5 * 1440 + 23 * 60.
Definition tuesday_1200 : Z := 5 * 1440 + 12 * 60.

(** [toLowerCase] on unaccented Latin letters. *)
Definition lower_char (c : Ascii.ascii) : Ascii.ascii :=
  let n := Ascii.nat_of_ascii c in
  if (Nat.leb 65 n && Nat.leb n 90)%bool then Ascii.ascii_of_nat (n + 32) else c.

Fixpoint lower_ascii (s : string) : string :=
  match s with
  | EmptyString => EmptyString
  | String c s' => String (lower_char c) (lower_ascii s')
  end.

(** A night rule of the SQLite server: paused from 22:00 to 06:00, on
    Mondays, for the objects [a] and [b]. *)
Definition night000 : Part000.rule :=
  {| Part000.id := 1;
     Part000.account_id := "42";
     Part000.level := "campaign";
     Part000.target_ids := ["a"; "b"];
     Part000.name_filter := None;
     Part000.stop_time := (Num 22, Num 0);
     Part000.start_time := (Num 6, Num 0);
     Part000.timezone := "UTC";
     Part000.enforce_window_minutes := 30;
     Part000.days_of_week := ["Mon"];
     Part000.enabled := true;
     Part000.cred_index := 0 |}.

(** The same rule in the JSON-file server, for the zone of Tokyo. *)
Definition night001 : Part001.rule :=
  {| Part001.id := "r_1";
     Part001.account_id := "42";
     Part001.level := "campaign";
     Part001.ids := ["a"; "b"];
     Part001.name_contains := "";
     Part001.stop := (Num 22, Num 0);
     Part001.start := (Num 6, Num 0);
     Part001.tz := "Asia/Tokyo";
     Part001.days := [Num 1];
     Part001.enforce_every := Num 5 |}.

(** A rule whose two boundaries coincide and which names no days. *)
Definition degenerate001 : Part001.rule :=
  {| Part001.id := "r_2";
     Part001.account_id := "42";
     Part001.level := "campaign";
     Part001.ids := ["a"];
     Part001.name_contains := "";
     Part001.stop := (Num 10, Num 0);
     Part001.start := (Num 10, Num 0);
     Part001.tz := "UTC";
     Part001.days := [];
     Part001.enforce_every := Num 5 |}.

(** A rule for every day of the week, for the zone of Tokyo. *)
Definition tokyo001 : Part001.rule :=
  {| Part001.id := "r_3";
     Part001.account_id := "42";
     Part001.level := "campaign";
     Part001.ids := ["a"];
     Part001.name_contains := "";
     Part001.stop := (Num 22, Num 0);
     Part001.start := (Num 6, Num 0);
     Part001.tz := "Asia/Tokyo";
     Part001.days := [Num 0; Num 1; Num 2; Num 3; Num 4; Num 5; Num 6];
     Part001.enforce_every := Num 5 |}.

(** The rule [r] with another zone. *)
Definition with_tz (zone : string) (r : Part001.rule) : Part001.rule :=
  {| Part001.id := Part001.id r;
     Part001.account_id := Part001.account_id r;
     Part001.level := Part001.level r;
     Part001.ids := Part001.ids r;
     Part001.name_contains := Part001.name_contains r;
     Part001.stop := Part001.stop r;
     Part001.start := Part001.start r;
     Part001.tz := zone;
     Part001.days := Part001.days r;
     Part001.enforce_every := Part001.enforce_every r |}.

(** A provider that accepts every status POST, and one that has no
    listing to show. *)
Definition accepts_all (n : nat) : Part001.post_result := Part001.PostOk "{}".
Definition no_listing (u : Part001.url) : Part001.page_result := Part001.PageOk [] None.

(** A provider that answers the first two status POSTs with the transient
    code 4 (rate limit) and accepts the third. *)
Definition rate_limited : Part000.provider_error :=
  {| Part000.code := Some 4; Part000.payload := "rate limit reached" |}.

Definition flaky000 (n : nat) : option Part000.provider_error :=
  if Nat.ltb n 2 then Some rate_limited else None.

Definition flaky001 (n : nat) : Part001.post_result :=
  if Nat.ltb n 2 then Part001.PostNotOk "{error:{code:4}}" else Part001.PostOk "{}".

(** A rule of the JSON-file server that names neither objects nor a
    filter, and a listing of two campaigns on a single page. *)
Definition unselective001 : Part001.rule :=
  {| Part001.id := "r_4";
     Part001.account_id := "42";
     Part001.level := "campaign";
     Part001.ids := [];
     Part001.name_contains := "";
     Part001.stop := (Num 22, Num 0);
     Part001.start := (Num 6, Num 0);
     Part001.tz := "UTC";
     Part001.days := [];
     Part001.enforce_every := Num 5 |}.

Definition two_campaigns (u : Part001.url) : Part001.page_result :=
  Part001.PageOk
    [ {| Part001.item_id := "c1"; Part001.item_name := Some "Summer Sale" |};
      {| Part001.item_id := "c2"; Part001.item_name := Some "Winter" |} ]
    None.

(** A rule of the SQLite server that selects by the filter [summer], and a
    first page that holds the campaign [Summer Sale]. *)
Definition summer000 : Part000.rule :=
  {| Part000.id := 2;
     Part000.account_id := "42";
     Part000.level := "campaign";
     Part000.target_ids := [];
     Part000.name_filter := Some "summer";
     Part000.stop_time := (Num 22, Num 0);
     Part000.start_time := (Num 6, Num 0);
     Part000.timezone := "UTC";
     Part000.enforce_window_minutes := 30;
     Part000.days_of_week := ["Mon"];
     Part000.enabled := true;
     Part000.cred_index := 0 |}.

Definition summer_page (account node : string)
  : completion Part000.provider_error (list Part000.item) :=
  Returned [ {| Part000.item_id := "c1"; Part000.item_name := Some "Summer Sale" |} ].

(** A rule of the SQLite server that names neither objects nor a filter. *)
Definition unselective000 : Part000.rule :=
  {| Part000.id := 3;
     Part000.account_id := "42";
     Part000.level := "campaign";
     Part000.target_ids := [];
     Part000.name_filter := None;
     Part000.stop_time := (Num 22, Num 0);
     Part000.start_time := (Num 6, Num 0);
     Part000.timezone := "UTC";
     Part000.enforce_window_minutes := 30;
     Part000.days_of_week := ["Mon"];
     Part000.enabled := true;
     Part000.cred_index := 0 |}.

(** A rule of the JSON-file server that selects by the filter [summer]. *)
Definition summer001 : Part001.rule :=
  {| Part001.id := "r_5";
     Part001.account_id := "42";
     Part001.level := "campaign";
     Part001.ids := [];
     Part001.name_contains := "summer";
     Part001.stop := (Num 22, Num 0);
     Part001.start := (Num 6, Num 0);
     Part001.tz := "UTC";
     Part001.days := [];
     Part001.enforce_every := Num 5 |}.

(** The rule [r] of the SQLite server with another reconciliation
    interval. *)
Definition with_window (n : Z) (r : Part000.rule) : Part000.rule :=
  {| Part000.id := Part000.id r;
     Part000.account_id := Part000.account_id r;
     Part000.level := Part000.level r;
     Part000.target_ids := Part000.target_ids r;
     Part000.name_filter := Part000.name_filter r;
     Part000.stop_time := Part000.stop_time r;
     Part000.start_time := Part000.start_time r;
     Part000.timezone := Part000.timezone r;
     Part000.enforce_window_minutes := n;
     Part000.days_of_week := Part000.days_of_week r;
     Part000.enabled := Part000.enabled r;
     Part000.cred_index := Part000.cred_index r |}.

(** The rule [r] of the SQLite server with another start time. *)
Definition with_start (tm : jsnum * jsnum) (r : Part000.rule) : Part000.rule :=
  {| Part000.id := Part000.id r;
     Part000.account_id := Part000.account_id r;
     Part000.level := Part000.level r;
     Part000.target_ids := Part000.target_ids r;
     Part000.name_filter := Part000.name_filter r;
     Part000.stop_time := Part000.stop_time r;
     Part000.start_time := tm;
     Part000.timezone := Part000.timezone r;
     Part000.enforce_window_minutes := Part000.enforce_window_minutes r;
     Part000.days_of_week := Part000.days_of_week r;
     Part000.enabled := Part000.enabled r;
     Part000.cred_index := Part000.cred_index r |}.

(** Requests: two rules are created, the first is updated, the second is
    deleted. *)
Definition requests000 : list Part000.op :=
  [ Part000.Schedule night000;
    Part000.Schedule summer000;
    Part000.Schedule (with_window 10 night000);
    Part000.Unschedule 2 ].

Definition requests001 : list Part001.op :=
  [ Part001.Schedule night001;
    Part001.Schedule summer001;
    Part001.Schedule (with_tz "UTC" night001);
    Part001.Unschedule "r_5" ].

(** Monday 1970-01-05, 22:00 UTC: the minute at which both the stop
    trigger and the half-hourly reconciliation trigger of [night000] fire. *)
Definition monday_2200 : Z := 4 * 1440 + 22 * 60.

(** The two triggers fire, and each invocation goes on to its first POST. *)
Definition overlap000
  : list (EventLoop.label (A := Part000.action) (X := Part000.settlement)) :=
  [ EventLoop.Fire (Part000.RunEnforce night000 PAUSED) monday_2200;
    EventLoop.Fire (Part000.RunPeriodic night000) monday_2200;
    EventLoop.Settle 0 Part000.Continue;
    EventLoop.Settle 1 Part000.Continue ].

(** The stop trigger fires alone and its invocation runs to the end; the
    reconciliation trigger fires after that. *)
Definition calm000
  : list (EventLoop.label (A := Part000.action) (X := Part000.settlement)) :=
  [ EventLoop.Fire (Part000.RunEnforce night000 PAUSED) monday_2200;
    EventLoop.Settle 0 Part000.Continue;
    EventLoop.Settle 0 (Part000.PostReply None);
    EventLoop.Settle 0 (Part000.PostReply None);
    EventLoop.Fire (Part000.RunPeriodic night000) monday_2300;
    EventLoop.Settle 1 Part000.Continue ].

Definition calm001
  : list (EventLoop.label (A := Part001.action) (X := Part001.settlement)) :=
  [ EventLoop.Fire (Part001.RunEdge night001 PAUSED) monday_2200;
    EventLoop.Settle 0 (Part001.PostSettled (Part001.PostOk "{}"));
    EventLoop.Settle 0 (Part001.PostSettled (Part001.PostOk "{}"));
    EventLoop.Fire (Part001.RunEnforceRule night001) monday_2300 ].

(** Monday 1970-01-05 at 05:59 and at 06:00 UTC. *)
Definition monday_0559 : Z := 4 * 1440 + 5 * 60 + 59.
Definition monday_0600 : Z := 4 * 1440 + 6 * 60.

(** The rule [r] of the JSON-file server with another reconciliation
    interval. *)
Definition with_every (n : jsnum) (r : Part001.rule) : Part001.rule :=
  {| Part001.id := Part001.id r;
     Part001.account_id := Part001.account_id r;
     Part001.level := Part001.level r;
     Part001.ids := Part001.ids r;
     Part001.name_contains := Part001.name_contains r;
     Part001.stop := Part001.stop r;
     Part001.start := Part001.start r;
     Part001.tz := Part001.tz r;
     Part001.days := Part001.days r;
     Part001.enforce_every := n |}.

End Scenario.

(** * What a run shows

    Readings of a trace: the events of one kind, the objects alerted for. *)

Module Trace000.

(** The objects an alert was raised for, oldest first. *)
Definition alerted (tr : Part000.trace) : list string :=
  flat_map (fun e => match e with
                     | Part000.EvAlert _ _ oid _ _ => [oid]
                     | _ => []
                     end) tr.

(** The events of the loop over the targets: status POSTs, sleeps between
    attempts and alerts. *)
Definition is_apply (e : Part000.event) : bool :=
  match e with
  | Part000.EvPost _ _ | Part000.EvSleep _ | Part000.EvAlert _ _ _ _ _ => true
  | _ => false
  end.

(** [k] status POSTs to each target in turn, [k] taken from [ks]. *)
Definition bursts (desired : status) (targets : list string) (ks : list nat)
  : list Part000.event :=
  concat (zip_with (fun oid k => replicate k (Part000.EvPost oid desired)) targets ks).

(** The listing requests of a trace. *)
Definition is_get (e : Part000.event) : bool :=
  match e with Part000.EvGet _ _ => true | _ => false end.

(** The [last_run] updates of a trace. *)
Definition is_last_run (e : Part000.event) : bool :=
  match e with Part000.EvLastRun _ => true | _ => false end.

End Trace000.

Module Trace001.

(** The object a result of [setStatusOnObjects] is about, and whether it
    records a failure. *)
Definition result_id (x : Part001.result) : string :=
  match x with
  | Part001.ResOk oid _ => oid
  | Part001.ResFail oid _ => oid
  end.

Definition is_failure (x : Part001.result) : bool :=
  match x with Part001.ResFail _ _ => true | Part001.ResOk _ _ => false end.

(** The alerts of a trace. *)
Definition is_slack (e : Part001.event) : bool :=
  match e with Part001.EvSlack _ => true | _ => false end.

(** The entry [setStatusOnObjects] records for an object from the answer to
    its status POST. *)
Definition result_of (oid : string) (x : Part001.post_result) : Part001.result :=
  match x with
  | Part001.PostOk json => Part001.ResOk oid json
  | Part001.PostNotOk json => Part001.ResFail oid json
  | Part001.PostThrew msg => Part001.ResFail oid msg
  end.

End Trace001.

(** * The request handlers of the SQLite server

    The handlers of [/api/rules] and the start-up function [init], on the
    [rules] table as SQLite keeps it and on the registry of [Part000].
    The handlers are synchronous: one that throws is answered by Express
    with a 500, and what it wrote before it threw stays written. *)

Module Api000.

(** The [rules] table: its rows in rowid order, and the largest rowid the
    table ever held, which [AUTOINCREMENT] keeps in [sqlite_sequence]. *)
Record table : Type := {
  rows : list Part000.rule;
  seq : Z
}.

(** The state the handlers work on: the database file and the process's
    [jobs] map with the tasks [node-cron] runs.  [init] runs while the
    module is loaded, before [app.listen]: when it throws the process ends,
    and [up] is false until a later start succeeds. *)
Record server : Type := {
  db : table;
  registry : Part000.scheduler;
  up : bool
}.

(** A request body, for a client that sends each field it sends with the
    type of its column: [None] is a field left out.  [name_filter] may be
    sent as [null]; [enabled] is read for its truthiness only; the two
    times are kept as the pair [split(':').map(Number)] makes of them, as
    in [Part000.rule]. *)
Record body : Type := {
  b_account_id : option string;
  b_level : option string;
  b_target_ids : option (list string);
  b_name_filter : option (option string);
  b_stop_time : option (jsnum * jsnum);
  b_start_time : option (jsnum * jsnum);
  b_timezone : option string;
  b_enforce_window_minutes : option Z;
  b_days_of_week : option (list string);
  b_enabled : option bool;
  b_cred_index : option Z
}.

(** What a handler answers: [{ id }], [{ ok: true }], the 404 of PATCH,
    or the 500 Express sends when the handler throws. *)
Inductive response : Type :=
| Created (rid : Z)
| Done
| NotFound
| ServerError.

(** [CHECK(level IN ('campaign','adset'))] *)
Definition level_ok (lvl : string) : bool :=
  bool_decide (lvl = "campaign") || bool_decide (lvl = "adset").

(** [SELECT * FROM rules WHERE id = ?] *)
Definition select (rid : Z) (t : table) : option Part000.rule :=
  List.find (fun r => Part000.id r =? rid) (rows t).

(** [UPDATE rules SET ... WHERE id = @id], the row given as it is after
    the update. *)
Definition update (row : Part000.rule) (t : table) : table :=
  {| rows := map (fun r => if Part000.id r =? Part000.id row then row else r) (rows t);
     seq := seq t |}.

(** [DELETE FROM rules WHERE id = ?] *)
Definition delete_from (rid : Z) (t : table) : table :=
  {| rows := List.filter (fun r => negb (Part000.id r =? rid)) (rows t);
     seq := seq t |}.

Definition all_days : list string :=
  ["Mon"; "Tue"; "Wed"; "Thu"; "Fri"; "Sat"; "Sun"].

(** [r.name_filter || null] *)
Definition or_null (x : option (option string)) : option string :=
  match x with
  | Some (Some f) => if bool_decide (f = "") then None else Some f
  | _ => None
  end.

(** What happens to the server: a request comes in, or the process is
    started again on the database file it left. *)
Inductive request : Type :=
| Post (b : body)
| Patch (param : jsnum) (b : body)
| Delete (param : jsnum)
| Restart.

(** The ids the POST handler answered with. *)
Definition created (rs : list (option response)) : list Z :=
  omap (fun x => match x with Some (Created rid) => Some rid | _ => None end) rs.

Section Handlers.

Variable accepts : Part000.cron_expr -> string -> bool.
Variable DEFAULT_TZ : string.

(** [app.post('/api/rules', ...)].  The INSERT throws when a [NOT NULL]
    column gets no value or the [CHECK] on [level] fails; nothing is
    written or scheduled then.  When [scheduleRule] throws, the row is in
    the table already. *)
Definition post_rules (b : body) (sv : server) : response * server :=
  match b_account_id b, b_level b, b_stop_time b, b_start_time b with
  | Some account, Some lvl, Some stop, Some start =>
      if level_ok lvl then
        let rid := seq (db sv) + 1 in
        let row :=
          {| Part000.id := rid;
             Part000.account_id := account;
             Part000.level := lvl;
             Part000.target_ids := default [] (b_target_ids b);
             Part000.name_filter := or_null (b_name_filter b);
             Part000.stop_time := stop;
             Part000.start_time := start;
             Part000.timezone :=
               Part000.str_or (default "" (b_timezone b)) DEFAULT_TZ;
             Part000.enforce_window_minutes :=
               (let w := default 0 (b_enforce_window_minutes b) in
                if w =? 0 then 30 else w);
             Part000.days_of_week := default all_days (b_days_of_week b);
             Part000.enabled := default false (b_enabled b);
             Part000.cred_index := default 0 (b_cred_index b) |} in
        let t := {| rows := rows (db sv) ++ [row]; seq := rid |} in
        match Part000.scheduleRule accepts DEFAULT_TZ row (registry sv) with
        | (Returned _, s) => (Created rid, {| db := t; registry := s; up := up sv |})
        | (Threw _, s) => (ServerError, {| db := t; registry := s; up := up sv |})
        end
      else (ServerError, sv)
  | _, _, _, _ => (ServerError, sv)
  end.

(** [app.patch('/api/rules/:id', ...)]; [param] is [Number(req.params.id)],
    [NaN] standing for every value that is not an integer: no row has such
    an id.  The UPDATE throws when the [CHECK] on [level] fails; when
    [scheduleRule] throws, the row is updated already. *)
Definition patch_rule (param : jsnum) (b : body) (sv : server) : response * server :=
  match param with
  | NaN => (NotFound, sv)
  | Num rid =>
      match select rid (db sv) with
      | None => (NotFound, sv)
      | Some row =>
          let lvl := default (Part000.level row) (b_level b) in
          if level_ok lvl then
            let updated :=
              {| Part000.id := rid;
                 Part000.account_id := Part000.account_id row;
                 Part000.level := lvl;
                 Part000.target_ids :=
                   default (Part000.target_ids row) (b_target_ids b);
                 Part000.name_filter :=
                   default (Part000.name_filter row) (b_name_filter b);
                 Part000.stop_time := default (Part000.stop_time row) (b_stop_time b);
                 Part000.start_time :=
                   default (Part000.start_time row) (b_start_time b);
                 Part000.timezone := default (Part000.timezone row) (b_timezone b);
                 Part000.enforce_window_minutes :=
                   default (Part000.enforce_window_minutes row)
                     (b_enforce_window_minutes b);
                 Part000.days_of_week :=
                   default (Part000.days_of_week row) (b_days_of_week b);
                 Part000.enabled := default (Part000.enabled row) (b_enabled b);
                 Part000.cred_index :=
                   default (Part000.cred_index row) (b_cred_index b) |} in
            let t := update updated (db sv) in
            match Part000.scheduleRule accepts DEFAULT_TZ updated (registry sv) with
            | (Returned _, s) => (Done, {| db := t; registry := s; up := up sv |})
            | (Threw _, s) => (ServerError, {| db := t; registry := s; up := up sv |})
            end
          else (ServerError, sv)
      end
  end.

(** [app.delete('/api/rules/:id', ...)] *)
Definition delete_rule (param : jsnum) (sv : server) : response * server :=
  match param with
  | NaN => (Done, sv)
  | Num rid =>
      (Done,
       {| db := delete_from rid (db sv);
          registry := Part000.unscheduleRule rid (registry sv);
          up := up sv |})
  end.

(** The loop of [init]: [scheduleRule] for each row in turn, up to the
    first call that throws. *)
Fixpoint schedule_rows (l : list Part000.rule) (s : Part000.scheduler)
  : completion Part000.error unit * Part000.scheduler :=
  match l with
  | [] => (Returned tt, s)
  | r :: rest =>
      match Part000.scheduleRule accepts DEFAULT_TZ r s with
      | (Returned _, s1) => schedule_rows rest s1
      | (Threw e, s1) => (Threw e, s1)
      end
  end.

(** The start-up function [init], on a process that finds the table [t].
    When a [scheduleRule] throws, the process ends before it listens: no
    task runs and no request is served. *)
Definition init (t : table) : server :=
  match schedule_rows (List.filter Part000.enabled (rows t)) Part000.init with
  | (Returned _, s) => {| db := t; registry := s; up := true |}
  | (Threw _, _) => {| db := t; registry := Part000.init; up := false |}
  end.

Definition answered (out : response * server) : option response * server :=
  (Some (fst out), snd out).

(** A request to a process that is not running gets no answer. *)
Definition handle (q : request) (sv : server) : option response * server :=
  match q with
  | Post b => if up sv then answered (post_rules b sv) else (None, sv)
  | Patch param b => if up sv then answered (patch_rule param b sv) else (None, sv)
  | Delete param => if up sv then answered (delete_rule param sv) else (None, sv)
  | Restart => (None, init (db sv))
  end.

(** The process started on a database file that does not exist yet. *)
Definition fresh : server := init {| rows := []; seq := 0 |}.

(** Requests handled one after the other. *)
Definition serve (sv : server) (qs : list request) : server :=
  foldl (fun sv q => snd (handle q sv)) sv qs.

Fixpoint responses (sv : server) (qs : list request) : list (option response) :=
  match qs with
  | [] => []
  | q :: qs' => fst (handle q sv) :: responses (snd (handle q sv)) qs'
  end.

(** No request of the run is answered with a 500. *)
Definition no_error (rs : list (option response)) : Prop :=
  Forall (fun x => x <> Some ServerError) rs.

(** Whether a request is about the rule of id [rid]; a restart is about
    every rule. *)
Definition touches (q : request) (sv : server) (rid : Z) : bool :=
  match q with
  | Post _ => rid =? seq (db sv) + 1
  | Patch (Num k) _ | Delete (Num k) => rid =? k
  | Patch NaN _ | Delete NaN => false
  | Restart => true
  end.

End Handlers.

End Api000.

(** The map [m] holds the rows of the table that are enabled and whose
    triggers [node-cron] accepts, each under its id. *)
Definition mirrors000 (accepts : Part000.cron_expr -> string -> bool)
    (DEFAULT_TZ : string) (rows : list Part000.rule) (m : gmap Z Part000.rule) : Prop :=
  forall k r,
    m !! k = Some r
    <-> (r ∈ rows /\ Part000.id r = k /\ Part000.enabled r = true
         /\ Part000.accepted accepts DEFAULT_TZ r = true).

(** [id] is the primary key, and no row has an id above the sequence. *)
Definition table_ok (t : Api000.table) : Prop :=
  NoDup (map Part000.id (Api000.rows t))
  /\ Forall (fun r => Part000.id r <= Api000.seq t) (Api000.rows t).

(** What holds of the server between two requests: the registry of a
    running process has an entry for the rows that are enabled and accepted,
    and a process that could not start has no registry. *)
Definition served000 (accepts : Part000.cron_expr -> string -> bool)
    (DEFAULT_TZ : string) (sv : Api000.server) : Prop :=
  table_ok (Api000.db sv)
  /\ exists m,
       Part000.registry_inv DEFAULT_TZ m (Api000.registry sv)
       /\ if Api000.up sv
          then mirrors000 accepts DEFAULT_TZ (Api000.rows (Api000.db sv)) m
          else m = ∅ /\ Api000.registry sv = Part000.init.

(** * Credentials and ad accounts of the SQLite server *)

Module Accounts000.

(** An entry of [META_CREDENTIALS_JSON]; [timezone] is empty when the
    entry has none. *)
Record cred : Type := {
  business_id : string;
  access_token : string;
  timezone : string
}.

(** An ad account as the provider lists it; [o_timezone_name] is empty
    when the provider gives none. *)
Record owned : Type := {
  o_account_id : string;
  o_name : string;
  o_timezone_name : string;
  o_account_status : Z
}.

(** An element of the array [GET /api/accounts] answers with. *)
Record account : Type := {
  id : string;
  name : string;
  tz : string;
  status : Z;
  act_id : string;
  cred_index : Z;
  a_business_id : string
}.

Inductive event : Type :=
| EvOwned (business token : string)
| EvAlert (e : Part000.provider_error).

(** [res.json(all)], or the 500 of the [catch] block. *)
Inductive response : Type :=
| Json (all : list account)
| Failed.

Section Server.

Variable CREDS : list cred.
Variable DEFAULT_TZ : string.
Variable SLACK_WEBHOOK : bool.
(** The provider: the accounts a business owns, asked with a token. *)
Variable owned_reply :
  string -> string -> completion Part000.provider_error (list owned).

(** [CREDS[i]?.access_token] with [i = Number(rule.cred_index || 0)];
    [None] is [undefined]. *)
Definition getTokenForRule (r : Part000.rule) : option string :=
  let i := Part000.cred_index r in
  if i <? 0 then None else access_token <$> CREDS !! Z.to_nat i.

(** The object pushed for account [a], listed under the credential [c]
    of index [i]. *)
Definition listed (i : Z) (c : cred) (a : owned) : account :=
  {| id := o_account_id a;
     name := o_name a;
     tz := Part000.str_or (o_timezone_name a) (Part000.str_or (timezone c) DEFAULT_TZ);
     status := o_account_status a;
     act_id := "act_" +:+ o_account_id a;
     cred_index := i;
     a_business_id := business_id c |}.

(** The [for (let i = 0; i < CREDS.length; i++)] loop from index [i] on,
    [creds] being the entries from that index. *)
Fixpoint accounts_loop (i : Z) (creds : list cred) (all : list account)
    (tr : list event) : completion Part000.provider_error (list account) * list event :=
  match creds with
  | [] => (Returned all, tr)
  | c :: rest =>
      let tr1 := tr ++ [EvOwned (business_id c) (access_token c)] in
      match owned_reply (business_id c) (access_token c) with
      | Threw e => (Threw e, tr1)
      | Returned data => accounts_loop (i + 1) rest (all ++ map (listed i c) data) tr1
      end
  end.

(** [app.get('/api/accounts', ...)] *)
Definition get_accounts (tr : list event) : response * list event :=
  match accounts_loop 0 CREDS [] tr with
  | (Returned all, tr1) => (Json all, tr1)
  | (Threw e, tr1) => (Failed, if SLACK_WEBHOOK then tr1 ++ [EvAlert e] else tr1)
  end.

End Server.

(** The listing asked with the credential [c] fails. *)
Definition fails
    (owned_reply : string -> string -> completion Part000.provider_error (list owned))
    (c : cred) : Prop :=
  exists e, owned_reply (business_id c) (access_token c) = Threw e.

End Accounts000.

(** * The request handlers of the JSON-file server

    The handlers of [/api/rules] and [bootstrapSchedules], on the [rules]
    array of [rules.json] and on the registry of [Part001].  The handlers
    are [async]; the model handles one request after the other and does not
    interleave two of them at their [await]s.  When [scheduleRule] throws
    in a handler, the handler's promise is rejected: Express sends no
    answer, what the handler wrote stays written, and the process is taken
    to go on, as Node does when it only warns of a rejection nobody
    handles. *)

Module Api001.

(** The state the handlers work on: the [rules] array of [rules.json] and
    the process's [schedulers] map with the tasks [node-cron] runs. *)
Record server : Type := {
  file : list Part001.rule;
  registry : Part001.scheduler
}.

(** A request body, for a client that sends each field it sends with the
    type the front end gives it: [None] is a field left out (or, for the
    two times, empty).  The two times are kept as the pair
    [split(':').map(x => parseInt(x, 10))] makes of them, as in
    [Part001.rule]; [days] as the array after [parseInt] on its
    elements. *)
Record body : Type := {
  b_account_id : option string;
  b_level : option string;
  b_ids : option (list string);
  b_name_contains : option string;
  b_stop : option (jsnum * jsnum);
  b_start : option (jsnum * jsnum);
  b_tz : option string;
  b_days : option (list jsnum);
  b_enforce_every : option jsnum
}.

(** What a handler answers: the rule stored, [{ ok: true, removed }], or
    the 404 of DELETE. *)
Inductive response : Type :=
| Stored (r : Part001.rule)
| Removed (r : Part001.rule)
| NotFound.

(** [`r_${Date.now()}`], the clock read in milliseconds. *)
Definition rule_id (now : Z) : string := "r_" +:+ pretty now.

(** [data.rules.findIndex(r => r.id === rid)] followed by
    [data.rules.splice(idx, 1)]: the first rule of that id, and the array
    without it. *)
Fixpoint splice_first (rid : string) (l : list Part001.rule)
  : option (Part001.rule * list Part001.rule) :=
  match l with
  | [] => None
  | r :: l' =>
      if bool_decide (Part001.id r = rid) then Some (r, l')
      else match splice_first rid l' with
           | Some (x, rest) => Some (x, r :: rest)
           | None => None
           end
  end.

(** What happens to the server: a request comes in ([now] is what
    [Date.now()] gives the POST handler), or the process is started again
    on the file it left. *)
Inductive request : Type :=
| Post (b : body) (now : Z)
| Delete (rid : string)
| Restart.

(** The rule of id [rid] that comes last in the array. *)
Definition newest (rid : string) (rules : list Part001.rule) : option Part001.rule :=
  last (List.filter (fun r => bool_decide (Part001.id r = rid)) rules).

(** The instants at which the POST requests of a run read the clock. *)
Definition post_times (qs : list request) : list Z :=
  omap (fun q => match q with Post _ now => Some now | _ => None end) qs.

Section Handlers.

Variable accepts : Part001.cron_expr -> string -> bool.
Variable sci_head : Z -> Z.
Variable ACCOUNT_TIMEZONE_DEFAULT : string.

(** The [rule] object the POST handler builds from the body. *)
Definition rule_of_body (b : body) (now : Z) : Part001.rule :=
  {| Part001.id := rule_id now;
     Part001.account_id := default "" (b_account_id b);
     Part001.level :=
       if bool_decide (b_level b = Some "adset") then "adset" else "campaign";
     Part001.ids := default [] (b_ids b);
     Part001.name_contains := default "" (b_name_contains b);
     Part001.stop := default (Num 23, Num 0) (b_stop b);
     Part001.start := default (Num 0, Num 1) (b_start b);
     Part001.tz := Part001.str_or (default "" (b_tz b)) ACCOUNT_TIMEZONE_DEFAULT;
     Part001.days :=
       default [Num 0; Num 1; Num 2; Num 3; Num 4; Num 5; Num 6] (b_days b);
     Part001.enforce_every :=
       (let e := default NaN (b_enforce_every b) in
        if Js.truthy e then Js.parseInt sci_head e else Num 5) |}.

(** [app.post('/api/rules', ...)]: no answer when [scheduleRule] throws,
    the rule being in the file already. *)
Definition post_rules (b : body) (now : Z) (sv : server) : option response * server :=
  let rule := rule_of_body b now in
  let rules := file sv ++ [rule] in
  match Part001.scheduleRule accepts sci_head ACCOUNT_TIMEZONE_DEFAULT rule (registry sv)
  with
  | (Returned _, s) => (Some (Stored rule), {| file := rules; registry := s |})
  | (Threw _, s) => (None, {| file := rules; registry := s |})
  end.

(** [app.delete('/api/rules/:id', ...)] *)
Definition delete_rule (rid : string) (sv : server) : response * server :=
  match splice_first rid (file sv) with
  | Some (r, rest) =>
      (Removed r, {| file := rest; registry := Part001.unschedule rid (registry sv) |})
  | None => (NotFound, sv)
  end.

(** The loop of [bootstrapSchedules]: [scheduleRule] for each rule in
    turn, up to the first call that throws. *)
Fixpoint schedule_rules (l : list Part001.rule) (s : Part001.scheduler)
  : completion unit unit * Part001.scheduler :=
  match l with
  | [] => (Returned tt, s)
  | r :: rest =>
      match Part001.scheduleRule accepts sci_head ACCOUNT_TIMEZONE_DEFAULT r s with
      | (Returned _, s1) => schedule_rules rest s1
      | (Threw e, s1) => (Threw e, s1)
      end
  end.

(** [bootstrapSchedules], on a process that finds the rules [rules]. *)
Definition bootstrapSchedules (rules : list Part001.rule)
  : completion unit unit * server :=
  let out := schedule_rules rules Part001.init in
  (fst out, {| file := rules; registry := snd out |}).

Definition handle (q : request) (sv : server) : option response * server :=
  match q with
  | Post b now => post_rules b now sv
  | Delete rid => (Some (fst (delete_rule rid sv)), snd (delete_rule rid sv))
  | Restart => (None, snd (bootstrapSchedules (file sv)))
  end.

(** Whether a request is handled without a [scheduleRule] that throws. *)
Definition settles (q : request) (sv : server) : bool :=
  match q with
  | Post b now => bool_decide (is_Some (fst (post_rules b now sv)))
  | Delete _ => true
  | Restart =>
      match fst (bootstrapSchedules (file sv)) with
      | Returned _ => true
      | Threw _ => false
      end
  end.

(** The process started where [rules.json] does not exist yet. *)
Definition fresh : server := snd (bootstrapSchedules []).

(** Requests handled one after the other, none arriving while another is
    at an [await]. *)
Definition serve (sv : server) (qs : list request) : server :=
  foldl (fun sv q => snd (handle q sv)) sv qs.

(** Whether a restart finds rules that [bootstrapSchedules] schedules to
    the last. *)
Definition boots (q : request) (sv : server) : bool :=
  match q with
  | Restart => settles Restart sv
  | _ => true
  end.

(** [p] holds of every request of the run [qs], in the state the request
    finds. *)
Fixpoint along (p : request -> server -> bool) (sv : server) (qs : list request)
  : bool :=
  match qs with
  | [] => true
  | q :: qs' => p q sv && along p (snd (handle q sv)) qs'
  end.

(** Every [bootstrapSchedules] of the run came to its end. *)
Definition all_boot (sv : server) (qs : list request) : bool := along boots sv qs.

(** No [scheduleRule] of the run threw. *)
Definition all_settle (sv : server) (qs : list request) : bool := along settles sv qs.

End Handlers.

End Api001.

(** Every rule of the map [m] is a stored rule of its id, and [node-cron]
    accepts its triggers. *)
Definition stored001 (accepts : Part001.cron_expr -> string -> bool)
    (sci_head : Z -> Z) (zone : string)
    (rules : list Part001.rule) (m : gmap string Part001.rule) : Prop :=
  forall k r, m !! k = Some r ->
    r ∈ rules /\ Part001.id r = k /\ Part001.accepted accepts sci_head zone r = true.

(** Every rule of the map [m] is the newest stored rule of its id. *)
Definition follows001 (rules : list Part001.rule) (m : gmap string Part001.rule) : Prop :=
  forall k r, m !! k = Some r -> Api001.newest k rules = Some r.

(** Every stored rule whose triggers [node-cron] accepts is in the map
    [m]. *)
Definition covers001 (accepts : Part001.cron_expr -> string -> bool)
    (sci_head : Z -> Z) (zone : string)
    (rules : list Part001.rule) (m : gmap string Part001.rule) : Prop :=
  forall r, r ∈ rules -> Part001.accepted accepts sci_head zone r = true ->
    m !! Part001.id r = Some r.

(** Every stored rule has the id of a clock reading of the run. *)
Definition from_times001 (qs : list Api001.request) (rules : list Part001.rule) : Prop :=
  forall r, r ∈ rules ->
    exists now, now ∈ Api001.post_times qs /\ Part001.id r = Api001.rule_id now.

(** What holds of the server [sv] that a fresh process has become through
    the requests [qs]; [m] maps the ids of the registry to the rules their
    triggers were made from. *)
Record served001 (accepts : Part001.cron_expr -> string -> bool)
    (sci_head : Z -> Z) (zone : string)
    (qs : list Api001.request) (sv : Api001.server)
    (m : gmap string Part001.rule) : Prop := {
  run_stored : stored001 accepts sci_head zone (Api001.file sv) m;
  run_inv : Part001.registry_inv sci_head zone m (Api001.registry sv);
  run_follows :
    Api001.all_boot accepts sci_head zone (Api001.fresh accepts sci_head zone) qs = true ->
    follows001 (Api001.file sv) m;
  run_stray :
    Api001.all_settle accepts sci_head zone (Api001.fresh accepts sci_head zone) qs = true ->
    Part001.no_stray (Api001.registry sv);
  run_ids : NoDup (Api001.post_times qs) -> NoDup (map Part001.id (Api001.file sv));
  run_times : from_times001 qs (Api001.file sv);
  run_covers :
    NoDup (Api001.post_times qs) ->
    Api001.all_boot accepts sci_head zone (Api001.fresh accepts sci_head zone) qs = true ->
    covers001 accepts sci_head zone (Api001.file sv) m
}.

(** * Further inputs *)

Module Cases.

(** The rule [r] of the SQLite server with another zone. *)
Definition with_timezone (zone : string) (r : Part000.rule) : Part000.rule :=
  {| Part000.id := Part000.id r;
     Part000.account_id := Part000.account_id r;
     Part000.level := Part000.level r;
     Part000.target_ids := Part000.target_ids r;
     Part000.name_filter := Part000.name_filter r;
     Part000.stop_time := Part000.stop_time r;
     Part000.start_time := Part000.start_time r;
     Part000.timezone := zone;
     Part000.enforce_window_minutes := Part000.enforce_window_minutes r;
     Part000.days_of_week := Part000.days_of_week r;
     Part000.enabled := Part000.enabled r;
     Part000.cred_index := Part000.cred_index r |}.

(** The body the front end sends for a night rule on two campaigns, and
    the same body without [enabled]. *)
Definition night_body : Api000.body :=
  {| Api000.b_account_id := Some "42";
     Api000.b_level := Some "campaign";
     Api000.b_target_ids := Some ["a"; "b"];
     Api000.b_name_filter := None;
     Api000.b_stop_time := Some (Num 22, Num 0);
     Api000.b_start_time := Some (Num 6, Num 0);
     Api000.b_timezone := Some "UTC";
     Api000.b_enforce_window_minutes := Some 5;
     Api000.b_days_of_week := None;
     Api000.b_enabled := Some true;
     Api000.b_cred_index := Some 0 |}.

Definition draft_body : Api000.body :=
  {| Api000.b_account_id := Some "42";
     Api000.b_level := Some "adset";
     Api000.b_target_ids := None;
     Api000.b_name_filter := Some (Some "summer");
     Api000.b_stop_time := Some (Num 23, Num 30);
     Api000.b_start_time := Some (Num 7, Num 0);
     Api000.b_timezone := None;
     Api000.b_enforce_window_minutes := None;
     Api000.b_days_of_week := None;
     Api000.b_enabled := None;
     Api000.b_cred_index := None |}.

(** A body that sets the start time to 25:00 and nothing else. *)
Definition late_patch : Api000.body :=
  {| Api000.b_account_id := None;
     Api000.b_level := None;
     Api000.b_target_ids := None;
     Api000.b_name_filter := None;
     Api000.b_stop_time := None;
     Api000.b_start_time := Some (Num 25, Num 0);
     Api000.b_timezone := None;
     Api000.b_enforce_window_minutes := None;
     Api000.b_days_of_week := None;
     Api000.b_enabled := None;
     Api000.b_cred_index := None |}.

(** Two rules are created and the process is started again. *)
Definition requests000 : list Api000.request :=
  [ Api000.Post night_body; Api000.Post draft_body; Api000.Restart ].

(** A body of the JSON-file server's front end. *)
Definition night_body001 : Api001.body :=
  {| Api001.b_account_id := Some "42";
     Api001.b_level := Some "campaign";
     Api001.b_ids := Some ["a"; "b"];
     Api001.b_name_contains := None;
     Api001.b_stop := Some (Num 22, Num 0);
     Api001.b_start := Some (Num 6, Num 0);
     Api001.b_tz := None;
     Api001.b_days := Some [Num 1];
     Api001.b_enforce_every := Some (Num 10) |}.

(** The same body with the start time 25:00. *)
Definition late_body001 : Api001.body :=
  {| Api001.b_account_id := Some "42";
     Api001.b_level := Some "campaign";
     Api001.b_ids := Some ["a"; "b"];
     Api001.b_name_contains := None;
     Api001.b_stop := Some (Num 22, Num 0);
     Api001.b_start := Some (Num 25, Num 0);
     Api001.b_tz := None;
     Api001.b_days := Some [Num 1];
     Api001.b_enforce_every := Some (Num 10) |}.

(** Two rules are created a millisecond apart and the first is deleted. *)
Definition requests001 : list Api001.request :=
  [ Api001.Post night_body001 1000;
    Api001.Post night_body001 1001;
    Api001.Delete "r_1000" ].

End Cases.

(** * Theorems *)

(** ** Wall clocks *)

Lemma minutes_since_midnight_mod lm :
  Clock.minutes_since_midnight lm = lm mod 1440.
Proof.
  unfold Clock.minutes_since_midnight, Clock.hour, Clock.minute.
  pose proof (Z.div_mod lm 60 ltac:(lia)) as H60.
  pose proof (Z.div_mod (lm / 60) 24 ltac:(lia)) as H24.
  pose proof (Z.mod_pos_bound lm 60 ltac:(lia)).
  pose proof (Z.mod_pos_bound (lm / 60) 24 ltac:(lia)).
  apply Z.mod_unique_pos with (q := lm / 60 / 24); lia.
Qed.

Lemma minutes_since_midnight_range lm :
  0 <= Clock.minutes_since_midnight lm < 1440.
Proof. rewrite minutes_since_midnight_mod. apply Z.mod_pos_bound. lia. Qed.

Example monday_is_monday :
  Clock.weekday_short (Clock.weekday Scenario.monday_2300) = "Mon"
  /\ Clock.minutes_since_midnight Scenario.monday_2300 = 1380.
Proof. split; reflexivity. Qed.

(** ** The time window *)

Lemma desired_at_claimed cur stop_m start_m :
  Part000.desired_at cur (Num stop_m) (Num start_m) = claimed_state stop_m start_m cur.
Proof.
  unfold Part000.desired_at, claimed_state; simpl.
  destruct (Z.eqb_spec stop_m start_m) as [->|Hne].
  - rewrite Z.ltb_irrefl.
    destruct (Z.leb_spec start_m cur), (Z.ltb_spec cur start_m); simpl; auto; lia.
  - destruct (stop_m <? start_m); reflexivity.
Qed.

Lemma inActiveWindow_on_listed_day host_offset r now stop_m start_m :
  Js.includes_num (Part001.days r)
    (Num (Clock.weekday (Clock.local (host_offset now) now))) = true ->
  Js.hm_minutes (Part001.stop r) = Num stop_m ->
  Js.hm_minutes (Part001.start r) = Num start_m ->
  Part001.inActiveWindow host_offset r now
  = bool_decide (claimed_state stop_m start_m
                   (Clock.minutes_since_midnight (Clock.local (host_offset now) now))
                 = ACTIVE).
Proof.
  intros Hday Hstop Hstart.
  unfold Part001.inActiveWindow, Part001.t.
  rewrite Hday, Hstop, Hstart.
  destruct (Part001.days r) as [|d ds] eqn:Hdays; [discriminate Hday|].
  cbn [length Nat.eqb negb].
  unfold claimed_state, Clock.minutes_since_midnight; simpl.
  set (m := Clock.hour _ * 60 + Clock.minute _).
  rewrite (Z.eqb_sym start_m stop_m).
  destruct (Z.eqb_spec stop_m start_m) as [->|Hne]; [reflexivity|].
  destruct (Z.ltb_spec start_m stop_m), (Z.ltb_spec stop_m start_m); try lia;
    destruct (Z.leb_spec start_m m), (Z.ltb_spec m stop_m),
             (Z.leb_spec stop_m m), (Z.ltb_spec m start_m);
    simpl; try reflexivity; lia.
Qed.

(** C1 (as amended).  The SQLite server's [periodicEnforce] computes, for
    every rule and instant whose zone is known, exactly the state the
    specification describes from the minutes since midnight in the zone
    [rule.timezone || DEFAULT_TZ].  The JSON-file server's [inActiveWindow]
    looks at the rule's [days] first: a rule that lists no days is active
    at every instant, and on a weekday a rule does not list it is paused.
    On the weekdays the rule lists it computes the state the specification
    describes, from the minutes since midnight in the zone
    [rule.tz || ACCOUNT_TIMEZONE_DEFAULT], at the instants at which the
    host's clock shows the time of that zone. *)
Theorem desired_state_follows_window :
  (forall utc_offset DEFAULT_TZ r now off stop_m start_m,
      utc_offset (Part000.str_or (Part000.timezone r) DEFAULT_TZ) now = Some off ->
      Js.hm_minutes (Part000.stop_time r) = Num stop_m ->
      Js.hm_minutes (Part000.start_time r) = Num start_m ->
      Part000.periodic_desired utc_offset DEFAULT_TZ r now
      = Some (claimed_state stop_m start_m
                (Clock.minutes_since_midnight (Clock.local off now))))
  /\ (forall (utc_offset : string -> Z -> option Z) ACCOUNT_TIMEZONE_DEFAULT
             host_offset r now off,
      utc_offset (Part001.str_or (Part001.tz r) ACCOUNT_TIMEZONE_DEFAULT) now = Some off ->
      host_offset now = off ->
      let m := Clock.minutes_since_midnight (Clock.local off now) in
      let listed :=
        Js.includes_num (Part001.days r) (Num (Clock.weekday (Clock.local off now))) in
      (Part001.days r = [] -> Part001.inActiveWindow host_offset r now = true)
      /\ (Part001.days r <> [] -> listed = false ->
          Part001.inActiveWindow host_offset r now = false)
      /\ (forall stop_m start_m,
            listed = true ->
            Js.hm_minutes (Part001.stop r) = Num stop_m ->
            Js.hm_minutes (Part001.start r) = Num start_m ->
            Part001.inActiveWindow host_offset r now
            = bool_decide (claimed_state stop_m start_m m = ACTIVE))).
Proof.
  split.
  - intros utc_offset DEFAULT_TZ r now off stop_m start_m Hoff Hstop Hstart.
    unfold Part000.periodic_desired, Part000.local_minutes.
    rewrite Hoff; simpl. rewrite Hstop, Hstart.
    f_equal. apply desired_at_claimed.
  - intros utc_offset zone host_offset r now off _ Hhost m listed. subst m listed off.
    split; [|split].
    + intros Hdays. unfold Part001.inActiveWindow. rewrite Hdays. reflexivity.
    + intros Hdays Hday. unfold Part001.inActiveWindow. rewrite Hday.
      destruct (Part001.days r); [contradiction|reflexivity].
    + intros stop_m start_m. apply inActiveWindow_on_listed_day.
Qed.

Lemma desired_state_follows_window_witness :
  Part000.periodic_desired Scenario.zones "UTC" Scenario.night000 Scenario.monday_2300
  = Some PAUSED
  /\ Part001.inActiveWindow (fun _ => 540) Scenario.night001 Scenario.monday_0559 = true.
Proof.
  destruct desired_state_follows_window as [H0 H1]. split.
  - apply (H0 Scenario.zones "UTC" Scenario.night000 Scenario.monday_2300 0 1320 360);
      reflexivity.
  - destruct (H1 Scenario.zones "UTC" (fun _ => 540) Scenario.night001
                Scenario.monday_0559 540 eq_refl eq_refl) as (_ & _ & H).
    apply (H 1320 360); reflexivity.
Defined.

(** C1, as stated, fails on the JSON-file server, also where the host's
    clock shows the time of the rule's zone.  A rule that lists no days is
    in its active window at every instant, also when its two boundaries
    coincide and the state should be [PAUSED]; and on a day a rule does not
    list it is outside its active window at every instant, also at noon,
    when a pause from 22:00 to 06:00 should leave it [ACTIVE]. *)
Lemma window_claim_fails_in_json_server :
  (Scenario.zones (Part001.tz Scenario.degenerate001) Scenario.monday_2300 = Some 0
   /\ Js.hm_minutes (Part001.stop Scenario.degenerate001) = Num 600
   /\ Js.hm_minutes (Part001.start Scenario.degenerate001) = Num 600
   /\ Part001.inActiveWindow (fun _ => 0) Scenario.degenerate001 Scenario.monday_2300
      = true
   /\ claimed_state 600 600
        (Clock.minutes_since_midnight (Clock.local 0 Scenario.monday_2300)) = PAUSED)
  /\ (let r := Scenario.with_tz "UTC" Scenario.night001 in
      Scenario.zones (Part001.tz r) Scenario.tuesday_1200 = Some 0
      /\ Js.hm_minutes (Part001.stop r) = Num 1320
      /\ Js.hm_minutes (Part001.start r) = Num 360
      /\ Part001.inActiveWindow (fun _ => 0) r Scenario.tuesday_1200 = false
      /\ claimed_state 1320 360
           (Clock.minutes_since_midnight (Clock.local 0 Scenario.tuesday_1200)) = ACTIVE).
Proof. repeat split. Qed.

(** The night rule of the specification's scenario, on the SQLite server:
    paused at Monday 23:00 and 05:59, active at Monday 06:00, and left
    alone on Tuesday.  The Monday run pauses both objects and then ends
    with the error of the [last_run] statement. *)
Example night_rule_scenario :
  Part000.periodic_desired Scenario.zones "UTC" Scenario.night000 Scenario.monday_2300
  = Some PAUSED
  /\ Part000.periodic_desired Scenario.zones "UTC" Scenario.night000 Scenario.monday_0559
     = Some PAUSED
  /\ Part000.periodic_desired Scenario.zones "UTC" Scenario.night000 Scenario.monday_0600
     = Some ACTIVE
  /\ Part000.periodicEnforce Scenario.zones "UTC" false (fun _ => None)
       (fun _ _ => Returned []) Scenario.night000 Scenario.tuesday_2300
       Scenario.tuesday_2300 []
     = (Returned tt, [])
  /\ Part000.periodicEnforce Scenario.zones "UTC" false (fun _ => None)
       (fun _ _ => Returned []) Scenario.night000 Scenario.monday_2300
       Scenario.monday_2300 []
     = (Threw Part000.SqliteError,
        [Part000.EvPost "a" PAUSED; Part000.EvPost "b" PAUSED]).
Proof. repeat split. Qed.

(** ** Days outside the rule's set *)




Example off_day_trace :
  snd (Part001.enforceRule (fun _ => 0) false Scenario.lower_ascii Scenario.accepts_all
         Scenario.no_listing Scenario.night001 Scenario.tuesday_2300 [])
  = [Part001.EvPost "a" PAUSED; Part001.EvPost "b" PAUSED].
Proof. reflexivity. Qed.

(** ** The zone of the evaluation *)

Lemma inActiveWindow_ignores_tz host_offset r zone now :
  Part001.inActiveWindow host_offset (Scenario.with_tz zone r) now
  = Part001.inActiveWindow host_offset r now.
Proof. reflexivity. Qed.

(** C3, at a failing input.  On a host whose clock is UTC, at Monday 23:00
    UTC, the JSON-file server finds a Tokyo rule (paused 22:00 to 06:00)
    outside its active window, although it is 08:00 in Tokyo, where the same
    test answers that the rule is active; the rule's zone has no part in the
    answer at all. *)
Theorem inActiveWindow_reads_host_clock :
  Part001.inActiveWindow (fun _ => 0) Scenario.tokyo001 Scenario.monday_2300 = false
  /\ Scenario.zones (Part001.tz Scenario.tokyo001) Scenario.monday_2300 = Some 540
  /\ Part001.inActiveWindow (fun _ => 540) Scenario.tokyo001 Scenario.monday_2300 = true
  /\ (forall host_offset r zone now,
        Part001.inActiveWindow host_offset (Scenario.with_tz zone r) now
        = Part001.inActiveWindow host_offset r now).
Proof.
  repeat split.
Qed.

(** ** Applying a state to one object *)

Lemma posts_made_post tr oid st :
  Part000.posts_made (tr ++ [Part000.EvPost oid st]) = S (Part000.posts_made tr).
Proof.
  unfold Part000.posts_made. rewrite List.filter_app, length_app. simpl. lia.
Qed.

Lemma posts_made_sleep tr ms :
  Part000.posts_made (tr ++ [Part000.EvSleep ms]) = Part000.posts_made tr.
Proof.
  unfold Part000.posts_made. rewrite List.filter_app, length_app. simpl. lia.
Qed.

Lemma posts_made_post001 tr oid st :
  Part001.posts_made (tr ++ [Part001.EvPost oid st]) = S (Part001.posts_made tr).
Proof.
  unfold Part001.posts_made. rewrite List.filter_app, length_app. simpl. lia.
Qed.

Lemma posts_made_postSlack flag text tr :
  Part001.posts_made (Part001.postSlack flag text tr) = Part001.posts_made tr.
Proof.
  unfold Part001.postSlack, Part001.posts_made. destruct flag; [|reflexivity].
  rewrite List.filter_app, length_app. simpl. lia.
Qed.

Lemma setStatus_one_posts flag post_reply lvl st acc oid :
  Part001.posts_made (snd (Part001.setStatus_one flag post_reply lvl st acc oid))
  = S (Part001.posts_made (snd acc))
  /\ length (fst (Part001.setStatus_one flag post_reply lvl st acc oid))
     = S (length (fst acc)).
Proof.
  destruct acc as [results tr]. unfold Part001.setStatus_one.
  destruct (post_reply _); simpl;
    rewrite ?posts_made_postSlack, posts_made_post001, length_app; simpl; lia.
Qed.

Lemma setStatusOnObjects_posts flag post_reply lvl st oids : forall acc,
  Part001.posts_made (snd (foldl (Part001.setStatus_one flag post_reply lvl st) acc oids))
  = (Part001.posts_made (snd acc) + length oids)%nat
  /\ length (fst (foldl (Part001.setStatus_one flag post_reply lvl st) acc oids))
     = (length (fst acc) + length oids)%nat.
Proof.
  induction oids as [|oid oids IH]; intros acc; simpl; [lia|].
  destruct (IH (Part001.setStatus_one flag post_reply lvl st acc oid)) as [IH1 IH2].
  destruct (setStatus_one_posts flag post_reply lvl st acc oid) as [H1 H2].
  rewrite IH1, IH2, H1, H2. lia.
Qed.

Section Fold001.

Variable SLACK_WEBHOOK_URL : bool.
Variable post_reply : nat -> Part001.post_result.

Lemma setStatusOnObjects_fold lvl st oids : forall results tr,
  let out := foldl (Part001.setStatus_one SLACK_WEBHOOK_URL post_reply lvl st)
               (results, tr) oids in
  let new := imap (fun i oid =>
                     Trace001.result_of oid (post_reply (Part001.posts_made tr + i)%nat))
               oids in
  fst out = results ++ new
  /\ List.filter Part001.is_post (snd out)
     = List.filter Part001.is_post tr ++ map (fun oid => Part001.EvPost oid st) oids
  /\ length (List.filter Trace001.is_slack (snd out))
     = (length (List.filter Trace001.is_slack tr)
        + if SLACK_WEBHOOK_URL then length (List.filter Trace001.is_failure new) else 0)%nat
  /\ Part001.fetches (snd out) = Part001.fetches tr.
Proof.
  induction oids as [|oid rest IH]; intros results tr; cbn zeta.
  - cbn [foldl fst snd imap map]. rewrite !app_nil_r.
    repeat split. destruct SLACK_WEBHOOK_URL; cbn; lia.
  - cbn [foldl imap map]. rewrite Nat.add_0_r.
    assert (Hshift :
      imap ((fun i oid0 =>
               Trace001.result_of oid0 (post_reply (Part001.posts_made tr + i)%nat)) ∘ S) rest
      = imap (fun i oid0 =>
                Trace001.result_of oid0 (post_reply (S (Part001.posts_made tr) + i)%nat))
          rest).
    { apply imap_ext. intros i x _. cbn. do 2 f_equal. lia. }
    rewrite Hshift. clear Hshift.
    set (reply := post_reply (Part001.posts_made tr)).
    pose (tr' := match reply return Part001.trace with
                 | Part001.PostOk _ => tr ++ [Part001.EvPost oid st]
                 | Part001.PostNotOk json =>
                     Part001.postSlack SLACK_WEBHOOK_URL
                       ("Meta API status update failed for " +:+ lvl +:+ " " +:+ oid
                        +:+ ": " +:+ json)
                       (tr ++ [Part001.EvPost oid st])
                 | Part001.PostThrew msg =>
                     Part001.postSlack SLACK_WEBHOOK_URL
                       ("Meta API request failed for " +:+ lvl +:+ " " +:+ oid
                        +:+ ": " +:+ msg)
                       (tr ++ [Part001.EvPost oid st])
                 end).
    assert (Hone : Part001.setStatus_one SLACK_WEBHOOK_URL post_reply lvl st
                     (results, tr) oid
                   = (results ++ [Trace001.result_of oid reply], tr')).
    { unfold Part001.setStatus_one, tr'. fold reply. destruct reply; reflexivity. }
    rewrite Hone.
    destruct (IH (results ++ [Trace001.result_of oid reply]) tr') as (IH1 & IH2 & IH3 & IH4).
    assert (Hposts : Part001.posts_made tr' = S (Part001.posts_made tr)).
    { unfold tr'. destruct reply;
        rewrite ?posts_made_postSlack, posts_made_post001; reflexivity. }
    rewrite Hposts in IH1, IH3.
    rewrite IH1, IH2, IH3, IH4. clear IH1 IH2 IH3 IH4.
    split; [rewrite <- app_assoc; reflexivity|].
    split.
    { unfold tr', Part001.postSlack. destruct reply, SLACK_WEBHOOK_URL;
        rewrite ?List.filter_app; cbn; rewrite ?app_nil_r, <- ?app_assoc; reflexivity. }
    split.
    { unfold tr', Part001.postSlack. destruct reply, SLACK_WEBHOOK_URL;
        rewrite ?List.filter_app, ?length_app; cbn; lia. }
    unfold tr', Part001.postSlack, Part001.fetches.
    destruct reply, SLACK_WEBHOOK_URL; rewrite ?List.filter_app, ?length_app; cbn; lia.
Qed.

Lemma result_id_imap oids : forall n,
  map Trace001.result_id
    (imap (fun i oid => Trace001.result_of oid (post_reply (n + i)%nat)) oids)
  = oids.
Proof.
  induction oids as [|oid rest IH]; intros n; [reflexivity|].
  cbn [imap map]. f_equal.
  - destruct (post_reply _); reflexivity.
  - rewrite <- (IH (S n)) at 2. f_equal. apply imap_ext. intros i x _. cbn.
    do 2 f_equal. lia.
Qed.

End Fold001.

(** C4 (as amended).  In the SQLite server [setStatus] sends at most three
    status POSTs for one object.  A failure with a code of the transient
    list at attempt 1 or 2 is followed by a sleep of 500 ms times the
    attempt number and a further attempt; a failure with any other code, or
    at attempt 3, is thrown to the caller as it was received; two transient
    failures and a success make a success after exactly three POSTs.  The
    JSON-file server's [setStatusOnObjects] sends exactly one POST per
    object, to that object and with the status asked for, in the order of
    the objects; its result for an object is made from the answer to that
    object's POST, so that an answer that is not [ok] or a failed request is
    recorded as a failure of that object, and no further attempt is made. *)
Theorem setStatus_bounded_retry :
  (forall post_reply oid desired r tr,
      let n := Part000.posts_made tr in
      let P := Part000.EvPost oid desired in
      let out := Part000.setStatus post_reply oid desired r tr in
      (Part000.posts_made (snd out) <= n + 3)%nat
      /\ (post_reply n = None -> out = (Returned tt, tr ++ [P]))
      /\ (forall e1, post_reply n = Some e1 ->
            Part000.transient (Part000.code e1) = false ->
            out = (Threw (Part000.AxiosError e1), tr ++ [P]))
      /\ (forall e1, post_reply n = Some e1 ->
            Part000.transient (Part000.code e1) = true ->
            (post_reply (S n) = None ->
               out = (Returned tt, tr ++ [P; Part000.EvSleep 500; P]))
            /\ (forall e2, post_reply (S n) = Some e2 ->
                  Part000.transient (Part000.code e2) = false ->
                  out = (Threw (Part000.AxiosError e2),
                         tr ++ [P; Part000.EvSleep 500; P]))
            /\ (forall e2, post_reply (S n) = Some e2 ->
                  Part000.transient (Part000.code e2) = true ->
                  (post_reply (S (S n)) = None ->
                     out = (Returned tt,
                            tr ++ [P; Part000.EvSleep 500; P; Part000.EvSleep 1000; P]))
                  /\ (forall e3, post_reply (S (S n)) = Some e3 ->
                        out = (Threw (Part000.AxiosError e3),
                               tr ++ [P; Part000.EvSleep 500; P;
                                      Part000.EvSleep 1000; P])))))
  /\ (forall SLACK_WEBHOOK_URL post_reply lvl oids st tr,
      let out := Part001.setStatusOnObjects SLACK_WEBHOOK_URL post_reply lvl oids st tr in
      let n := Part001.posts_made tr in
      Part001.posts_made (snd out) = (n + length oids)%nat
      /\ length (fst out) = length oids
      /\ List.filter Part001.is_post (snd out)
         = List.filter Part001.is_post tr ++ map (fun oid => Part001.EvPost oid st) oids
      /\ fst out
         = imap (fun i oid => Trace001.result_of oid (post_reply (n + i)%nat)) oids
      /\ (forall i oid,
            oids !! i = Some oid ->
            forall detail,
              (post_reply (n + i)%nat = Part001.PostNotOk detail
               \/ post_reply (n + i)%nat = Part001.PostThrew detail) ->
              fst out !! i = Some (Part001.ResFail oid detail))).
Proof.
  split.
  - intros post_reply oid desired r tr n P out.
    assert (Hbody : forall tr1 a fuel,
               (Part000.posts_made
                  (snd (Part000.setStatus_loop post_reply fuel a oid desired tr1))
                <= Part000.posts_made tr1 + fuel)%nat).
    { intros tr1 a fuel. revert tr1 a.
      induction fuel as [|fuel IH]; intros tr1 a; simpl; [lia|].
      destruct (a <=? 3); simpl; [|lia].
      destruct (post_reply _) as [e|]; simpl.
      - destruct ((a <? 3) && _); simpl.
        + specialize (IH ((tr1 ++ [Part000.EvPost oid desired])
                            ++ [Part000.EvSleep (500 * a)]) (a + 1)).
          rewrite posts_made_sleep, posts_made_post in IH. lia.
        + rewrite posts_made_post. lia.
      - rewrite posts_made_post. lia. }
    split; [apply Hbody|].
    subst out n P. unfold Part000.setStatus. cbn [Part000.setStatus_loop].
    change (1 <=? 3) with true. change (1 <? 3) with true.
    cbn [negb andb].
    split; [intros ->; reflexivity|].
    split; [intros e1 -> ->; reflexivity|].
    intros e1 -> ->.
    rewrite posts_made_sleep, posts_made_post.
    change (1 + 1 <=? 3) with true. change (1 + 1 <? 3) with true.
    cbn [negb andb]. change (500 * 1) with 500.
    split; [intros ->; rewrite <- !app_assoc; reflexivity|].
    split; [intros e2 -> ->; rewrite <- !app_assoc; reflexivity|].
    intros e2 -> ->.
    rewrite posts_made_sleep, posts_made_post, posts_made_sleep, posts_made_post.
    change (1 + 1 + 1 <=? 3) with true. change (1 + 1 + 1 <? 3) with false.
    cbn [negb andb]. change (500 * (1 + 1)) with 1000.
    split; [intros ->; rewrite <- !app_assoc; reflexivity|].
    intros e3 ->. rewrite <- !app_assoc; reflexivity.
  - intros flag post_reply lvl oids st tr out n. subst out n.
    unfold Part001.setStatusOnObjects.
    destruct (setStatusOnObjects_posts flag post_reply lvl st oids ([], tr)) as [Hn Hlen].
    destruct (setStatusOnObjects_fold flag post_reply lvl st oids [] tr)
      as (Hres & Hposts & _ & _).
    cbn [app] in Hres.
    split; [exact Hn|]. split; [exact Hlen|]. split; [exact Hposts|].
    split; [exact Hres|].
    intros i oid Hoid detail Hreply. rewrite Hres, list_lookup_imap, Hoid.
    cbn [fmap option_fmap option_map].
    destruct Hreply as [-> | ->]; reflexivity.
Qed.

Lemma setStatus_bounded_retry_witness :
  Part000.setStatus Scenario.flaky000 "a" PAUSED Scenario.night000 []
  = (Returned tt,
     [Part000.EvPost "a" PAUSED; Part000.EvSleep 500; Part000.EvPost "a" PAUSED;
      Part000.EvSleep 1000; Part000.EvPost "a" PAUSED]).
Proof.
  destruct setStatus_bounded_retry as [H _].
  destruct (H Scenario.flaky000 "a" PAUSED Scenario.night000 []) as (_ & _ & _ & H1).
  destruct (H1 Scenario.rate_limited eq_refl eq_refl) as (_ & _ & H2).
  destruct (H2 Scenario.rate_limited eq_refl eq_refl) as [H3 _].
  exact (H3 eq_refl).
Defined.

(** C4, as stated, fails on the JSON-file server: when the provider answers
    the first status POST with a transient code, the object is reported as
    failed after that one POST, though a third POST would have succeeded. *)
Lemma no_retry_in_json_server :
  Part001.setStatusOnObjects false Scenario.flaky001 "campaign" ["a"] PAUSED []
  = ([Part001.ResFail "a" "{error:{code:4}}"], [Part001.EvPost "a" PAUSED]).
Proof. reflexivity. Qed.

(** ** Resolving the targets *)

Lemma filter_all_true {A} (f : A -> bool) (l : list A) :
  (forall x, f x = true) -> List.filter f l = l.
Proof.
  intros Hf. induction l as [|x l IH]; simpl; [reflexivity|].
  rewrite Hf, IH. reflexivity.
Qed.

Lemma empty_filter_matches_all toLowerCase it :
  Part001.name_matches toLowerCase "" it = true.
Proof. reflexivity. Qed.

Lemma pages_loop_trace_grows flag toLowerCase page_reply node f fuel :
  forall i u out tr,
  exists rest,
    snd (Part001.pages_loop flag toLowerCase page_reply node fuel i u f out tr) = tr ++ rest.
Proof.
  induction fuel as [|fuel IH]; intros i u out tr; simpl.
  - exists []. symmetry. apply app_nil_r.
  - destruct u as [addr|]; [|exists []; symmetry; apply app_nil_r].
    destruct (negb (i <? 10)); [exists []; symmetry; apply app_nil_r|].
    destruct (page_reply addr) as [data next|json|msg]; simpl.
    + destruct (IH (i + 1) (Part001.next_url next)
                  (out ++ map Part001.item_id
                            (List.filter (Part001.name_matches toLowerCase f) data))
                  (tr ++ [Part001.EvFetch addr])) as [rest Hrest].
      exists (Part001.EvFetch addr :: rest).
      rewrite Hrest, <- app_assoc. reflexivity.
    + unfold Part001.postSlack. destruct flag.
      * eexists [Part001.EvFetch addr; Part001.EvSlack _].
        rewrite <- app_assoc. reflexivity.
      * exists [Part001.EvFetch addr]. reflexivity.
    + exists [Part001.EvFetch addr]. reflexivity.
Qed.

Lemma pages_loop_first_fetch flag toLowerCase page_reply node f fuel addr out tr :
  exists rest,
    snd (Part001.pages_loop flag toLowerCase page_reply node (S fuel) 0 (Some addr) f out tr)
    = tr ++ Part001.EvFetch addr :: rest.
Proof.
  cbn [Part001.pages_loop]. change (0 <? 10) with true. cbn [negb].
  destruct (page_reply addr) as [data next|json|msg].
  - destruct (pages_loop_trace_grows flag toLowerCase page_reply node f fuel (0 + 1)
                (Part001.next_url next)
                (out ++ map Part001.item_id
                          (List.filter (Part001.name_matches toLowerCase f) data))
                (tr ++ [Part001.EvFetch addr])) as [rest Hrest].
    exists rest. rewrite Hrest, <- app_assoc. reflexivity.
  - unfold Part001.postSlack. destruct flag; simpl.
    + eexists [Part001.EvSlack _]. rewrite <- app_assoc. reflexivity.
    + exists []. reflexivity.
  - exists []. reflexivity.
Qed.

Lemma pages_loop_single_page flag toLowerCase page_reply node f fuel addr out tr data :
  page_reply addr = Part001.PageOk data None ->
  Part001.pages_loop flag toLowerCase page_reply node (S fuel) 0 (Some addr) f out tr
  = (Returned (out ++ map Part001.item_id
                        (List.filter (Part001.name_matches toLowerCase f) data)),
     tr ++ [Part001.EvFetch addr]).
Proof.
  intros Hpage. cbn [Part001.pages_loop]. change (0 <? 10) with true. cbn [negb].
  rewrite Hpage. cbn [Part001.next_url]. destruct fuel; reflexivity.
Qed.

Lemma name_matches_contains_ci toLowerCase f it :
  f <> "" -> Part001.name_matches toLowerCase f it = Part001.contains_ci toLowerCase f it.
Proof.
  intros Hf. unfold Part001.name_matches, Part001.contains_ci.
  rewrite bool_decide_eq_false_2 by exact Hf. reflexivity.
Qed.

Lemma filter_ext_eq {A} (f g : A -> bool) (l : list A) :
  (forall x, f x = g x) -> List.filter f l = List.filter g l.
Proof.
  intros H. induction l as [|x l IH]; simpl; [reflexivity|].
  rewrite H, IH. reflexivity.
Qed.

Lemma fetches_app tr1 tr2 :
  Part001.fetches (tr1 ++ tr2) = (Part001.fetches tr1 + Part001.fetches tr2)%nat.
Proof. unfold Part001.fetches. rewrite List.filter_app, length_app. reflexivity. Qed.

Lemma fetches_postSlack flag text tr :
  Part001.fetches (Part001.postSlack flag text tr) = Part001.fetches tr.
Proof.
  unfold Part001.postSlack. destruct flag; [|reflexivity].
  unfold Part001.fetches. rewrite List.filter_app, length_app. simpl. lia.
Qed.

Lemma pages_loop_walk flag toLowerCase page_reply node f fuel :
  forall i u out tr,
  i = 10 - Z.of_nat fuel ->
  fst (Part001.pages_loop flag toLowerCase page_reply node fuel i u f out tr)
  = match Part001.listing_walked page_reply fuel u with
    | Returned items =>
        Returned (out ++ map Part001.item_id
                           (List.filter (Part001.name_matches toLowerCase f) items))
    | Threw msg => Threw msg
    end
  /\ (Part001.fetches
        (snd (Part001.pages_loop flag toLowerCase page_reply node fuel i u f out tr))
      <= Part001.fetches tr + fuel)%nat.
Proof.
  induction fuel as [|fuel IH]; intros i u out tr Hi.
  - simpl. rewrite app_nil_r. split; [reflexivity|lia].
  - cbn [Part001.pages_loop Part001.listing_walked].
    destruct u as [addr|]; [|simpl; rewrite app_nil_r; split; [reflexivity|lia]].
    replace (i <? 10) with true by (symmetry; apply Z.ltb_lt; lia).
    cbn [negb].
    destruct (page_reply addr) as [data next|json|msg]; simpl.
    + destruct (IH (i + 1) (Part001.next_url next)
                  (out ++ map Part001.item_id
                            (List.filter (Part001.name_matches toLowerCase f) data))
                  (tr ++ [Part001.EvFetch addr]) ltac:(lia)) as [IH1 IH2].
      rewrite IH1. rewrite fetches_app in IH2. simpl in IH2.
      split; [|unfold Part001.fetches in *; simpl in *; lia].
      destruct (Part001.listing_walked page_reply fuel (Part001.next_url next));
        [|reflexivity].
      rewrite List.filter_app, map_app, app_assoc. reflexivity.
    + rewrite app_nil_r, fetches_postSlack, fetches_app. simpl.
      split; [reflexivity|]. unfold Part001.fetches; simpl; lia.
    + rewrite fetches_app. split; [reflexivity|]. unfold Part001.fetches; simpl; lia.
Qed.

(** C7 (as amended).  In the SQLite server a rule with no explicit ids and
    no name filter resolves to no target without any request, and [enforce]
    then ends with nothing sent, logged or stored.  In the JSON-file server
    such a rule is resolved through the listing with an empty filter, which
    every listed object passes: the first page is always requested, and
    every object on the pages walked is returned. *)
Theorem unselective_rule_targets :
  (forall utc_offset SLACK_WEBHOOK post_reply list_reply r tr,
      Part000.target_ids r = [] ->
      default "" (Part000.name_filter r) = "" ->
      Part000.getTargets list_reply r tr = (Returned [], tr)
      /\ (forall desired now,
            snd (Part000.enforce utc_offset SLACK_WEBHOOK post_reply list_reply
                   r desired now tr) = tr)
      /\ (forall desired now dow,
            Part000.local_weekday utc_offset (Part000.timezone r) now = Some dow ->
            Part000.enforce utc_offset SLACK_WEBHOOK post_reply list_reply
              r desired now tr = (Returned tt, tr)))
  /\ (forall SLACK_WEBHOOK_URL toLowerCase page_reply r tr,
      Part001.ids r = [] ->
      Part001.name_contains r = "" ->
      let first := Part001.ListUrl (Part001.account_id r)
                     (Part001.node_of (Part001.level r)) in
      Part001.targets_of SLACK_WEBHOOK_URL toLowerCase page_reply r tr
      = Part001.findTargetsByName SLACK_WEBHOOK_URL toLowerCase page_reply
          (Part001.account_id r) (Part001.level r) "" tr
      /\ (exists rest,
            snd (Part001.targets_of SLACK_WEBHOOK_URL toLowerCase page_reply r tr)
            = tr ++ Part001.EvFetch first :: rest)
      /\ fst (Part001.targets_of SLACK_WEBHOOK_URL toLowerCase page_reply r tr)
         = match Part001.listing_walked page_reply 10 (Some first) with
           | Returned items => Returned (map Part001.item_id items)
           | Threw msg => Threw msg
           end
      /\ (forall data,
            page_reply first = Part001.PageOk data None ->
            Part001.targets_of SLACK_WEBHOOK_URL toLowerCase page_reply r tr
            = (Returned (map Part001.item_id data), tr ++ [Part001.EvFetch first]))).
Proof.
  split.
  - intros * Hids Hfilter.
    assert (Hget : Part000.getTargets list_reply r tr = (Returned [], tr)).
    { unfold Part000.getTargets. rewrite Hids, Hfilter. reflexivity. }
    split; [exact Hget|]. split.
    + intros desired now. unfold Part000.enforce.
      destruct (Part000.local_weekday _ _ _); [|reflexivity].
      destruct (negb _); [reflexivity|]. rewrite Hget. reflexivity.
    + intros desired now dow Hdow. unfold Part000.enforce. rewrite Hdow.
      destruct (negb _); [reflexivity|]. rewrite Hget. reflexivity.
  - intros flag toLowerCase page_reply r tr Hids Hname first.
    assert (Hres : Part001.targets_of flag toLowerCase page_reply r tr
                   = Part001.findTargetsByName flag toLowerCase page_reply
                       (Part001.account_id r) (Part001.level r) "" tr).
    { unfold Part001.targets_of. rewrite Hids, Hname. reflexivity. }
    split; [exact Hres|]. rewrite Hres.
    unfold Part001.findTargetsByName. cbn zeta. fold first.
    split; [apply pages_loop_first_fetch|].
    split.
    { destruct (pages_loop_walk flag toLowerCase page_reply
                  (Part001.node_of (Part001.level r)) "" 10 0 (Some first) [] tr
                  eq_refl) as [Hwalk _].
      rewrite Hwalk.
      destruct (Part001.listing_walked page_reply 10 (Some first)); [|reflexivity].
      rewrite (filter_all_true _ _ (empty_filter_matches_all toLowerCase)).
      reflexivity. }
    intros data Hpage.
    rewrite (pages_loop_single_page flag toLowerCase page_reply
               (Part001.node_of (Part001.level r)) "" 9 first [] tr data Hpage).
    rewrite (filter_all_true _ data (empty_filter_matches_all toLowerCase)).
    reflexivity.
Qed.

Lemma unselective_rule_targets_witness :
  Part000.getTargets Scenario.summer_page Scenario.unselective000 [] = (Returned [], [])
  /\ Part001.targets_of false Scenario.lower_ascii Scenario.two_campaigns
       Scenario.unselective001 []
     = (Returned ["c1"; "c2"], [Part001.EvFetch (Part001.ListUrl "42" "campaigns")]).
Proof.
  destruct unselective_rule_targets as [H0 H1]. split.
  - apply (H0 Scenario.zones false (fun _ => None) Scenario.summer_page
              Scenario.unselective000 [] eq_refl eq_refl).
  - destruct (H1 false Scenario.lower_ascii Scenario.two_campaigns
                 Scenario.unselective001 [] eq_refl eq_refl) as (_ & _ & _ & H2).
    apply (H2 _ eq_refl).
Defined.

(** C7, as stated, fails on the JSON-file server: a rule that names neither
    objects nor a filter requests the listing and sets the status of every
    campaign on it. *)
Lemma unselective_rule_hits_every_object :
  Part001.enforceRule (fun _ => 0) false Scenario.lower_ascii Scenario.accepts_all
    Scenario.two_campaigns Scenario.unselective001 Scenario.monday_2300 []
  = (Returned tt,
     [Part001.EvFetch (Part001.ListUrl "42" "campaigns");
      Part001.EvPost "c1" ACTIVE; Part001.EvPost "c2" ACTIVE]).
Proof. reflexivity. Qed.

(** *** Selection by name *)

(** C8 (as amended).  For a rule with no explicit ids and a name filter,
    the JSON-file server requests the listing of the rule's level under its
    account, follows the next links over at most ten requests (stopping at
    the first response that is not [ok]) and returns exactly the ids of the
    objects read whose name contains the filter, letter case set aside.  The
    SQLite server sends one request, reads the first page only, and keeps
    the objects whose name contains the filter as it is written. *)
Theorem name_filter_selection :
  (forall SLACK_WEBHOOK_URL toLowerCase page_reply r tr,
      Part001.ids r = [] ->
      Part001.name_contains r <> "" ->
      let first := Part001.ListUrl (Part001.account_id r)
                     (Part001.node_of (Part001.level r)) in
      let out := Part001.targets_of SLACK_WEBHOOK_URL toLowerCase page_reply r tr in
      fst out
      = match Part001.listing_walked page_reply 10 (Some first) with
        | Returned items =>
            Returned (map Part001.item_id
                        (List.filter
                           (Part001.contains_ci toLowerCase (Part001.name_contains r))
                           items))
        | Threw msg => Threw msg
        end
      /\ (Part001.fetches (snd out) <= Part001.fetches tr + 10)%nat)
  /\ (forall list_reply r tr f,
      Part000.target_ids r = [] ->
      Part000.name_filter r = Some f ->
      f <> "" ->
      Part000.getTargets list_reply r tr
      = (match list_reply (Part000.account_id r) (Part000.node_of (Part000.level r)) with
         | Returned data =>
             Returned (map Part000.item_id
                         (List.filter
                            (fun x => includes (default "" (Part000.item_name x)) f)
                            data))
         | Threw e => Threw (Part000.AxiosError e)
         end,
         tr ++ [Part000.EvGet (Part000.account_id r)
                  (Part000.node_of (Part000.level r))])).
Proof.
  split.
  - intros flag toLowerCase page_reply r tr Hids Hname first out. subst out.
    unfold Part001.targets_of. rewrite Hids. cbn [length Nat.eqb negb].
    unfold Part001.str_or. rewrite bool_decide_eq_false_2 by exact Hname.
    unfold Part001.findTargetsByName. cbn zeta. fold first.
    destruct (pages_loop_walk flag toLowerCase page_reply
                (Part001.node_of (Part001.level r)) (Part001.name_contains r)
                10 0 (Some first) [] tr eq_refl) as [Hres Hfetch].
    split; [|exact Hfetch].
    rewrite Hres.
    destruct (Part001.listing_walked page_reply 10 (Some first)); [|reflexivity].
    cbn [app]. f_equal. f_equal. apply filter_ext_eq.
    intros it. apply name_matches_contains_ci. exact Hname.
  - intros list_reply r tr f Hids Hfilter Hf.
    unfold Part000.getTargets, Part000.fetchByNameFilter.
    rewrite Hids, Hfilter. cbn [length Nat.eqb negb default].
    rewrite bool_decide_eq_false_2 by exact Hf.
    destruct (list_reply _ _); reflexivity.
Qed.

Lemma name_filter_selection_witness :
  fst (Part001.targets_of false Scenario.lower_ascii Scenario.two_campaigns
         Scenario.summer001 []) = Returned ["c1"]
  /\ Part000.getTargets Scenario.summer_page Scenario.summer000 []
     = (Returned [], [Part000.EvGet "42" "campaigns"]).
Proof.
  destruct name_filter_selection as [H1 H0]. split.
  - destruct (H1 false Scenario.lower_ascii Scenario.two_campaigns Scenario.summer001 []
                 eq_refl ltac:(discriminate)) as [H _].
    exact H.
  - apply (H0 Scenario.summer_page Scenario.summer000 [] "summer" eq_refl eq_refl).
    discriminate.
Defined.

(** C8, as stated, fails on the SQLite server: the filter [summer] does not
    select the campaign [Summer Sale], whose name contains it once letter
    case is set aside. *)
Lemma case_sensitive_filter_misses :
  Part000.getTargets Scenario.summer_page Scenario.summer000 []
  = (Returned [], [Part000.EvGet "42" "campaigns"])
  /\ includes (Scenario.lower_ascii "Summer Sale") (Scenario.lower_ascii "summer") = true.
Proof. split; reflexivity. Qed.

(** ** The trigger registry *)

Lemma jobs_task_stop000 l : forall s,
  Part000.jobs (foldl Part000.task_stop s l) = Part000.jobs s
  /\ Part000.next_task (foldl Part000.task_stop s l) = Part000.next_task s.
Proof.
  induction l as [|h l IH]; intros s; simpl; [split; reflexivity|].
  destruct (IH (Part000.task_stop s h)) as [-> ->]. split; reflexivity.
Qed.

Lemma tasks_task_stop000 l : forall s h,
  Part000.tasks (foldl Part000.task_stop s l) !! h
  = if bool_decide (h ∈ l) then None else Part000.tasks s !! h.
Proof.
  induction l as [|h0 l IH]; intros s h; simpl; [reflexivity|].
  rewrite IH. simpl.
  destruct (decide (h = h0)) as [->|Hne].
  - rewrite lookup_delete_eq.
    rewrite (bool_decide_eq_true_2 (h0 ∈ h0 :: l)) by (apply elem_of_cons; auto).
    destruct (bool_decide (h0 ∈ l)); reflexivity.
  - rewrite lookup_delete_ne by congruence.
    destruct (decide (h ∈ l)) as [Hin|Hnin].
    + rewrite (bool_decide_eq_true_2 _ Hin).
      rewrite bool_decide_eq_true_2 by (apply elem_of_cons; auto). reflexivity.
    + rewrite (bool_decide_eq_false_2 _ Hnin).
      rewrite bool_decide_eq_false_2; [reflexivity|].
      rewrite elem_of_cons. tauto.
Qed.

Lemma jobs_task_stop001 l : forall s,
  Part001.schedulers (foldl Part001.task_stop s l) = Part001.schedulers s
  /\ Part001.next_task (foldl Part001.task_stop s l) = Part001.next_task s.
Proof.
  induction l as [|h l IH]; intros s; simpl; [split; reflexivity|].
  destruct (IH (Part001.task_stop s h)) as [-> ->]. split; reflexivity.
Qed.

Lemma tasks_task_stop001 l : forall s h,
  Part001.tasks (foldl Part001.task_stop s l) !! h
  = if bool_decide (h ∈ l) then None else Part001.tasks s !! h.
Proof.
  induction l as [|h0 l IH]; intros s h; simpl; [reflexivity|].
  rewrite IH. simpl.
  destruct (decide (h = h0)) as [->|Hne].
  - rewrite lookup_delete_eq.
    rewrite (bool_decide_eq_true_2 (h0 ∈ h0 :: l)) by (apply elem_of_cons; auto).
    destruct (bool_decide (h0 ∈ l)); reflexivity.
  - rewrite lookup_delete_ne by congruence.
    destruct (decide (h ∈ l)) as [Hin|Hnin].
    + rewrite (bool_decide_eq_true_2 _ Hin).
      rewrite bool_decide_eq_true_2 by (apply elem_of_cons; auto). reflexivity.
    + rewrite (bool_decide_eq_false_2 _ Hnin).
      rewrite bool_decide_eq_false_2; [reflexivity|].
      rewrite elem_of_cons. tauto.
Qed.

Lemma unscheduleRule_absent rid s :
  Part000.jobs s !! rid = None -> Part000.unscheduleRule rid s = s.
Proof. intros H. unfold Part000.unscheduleRule. rewrite H. reflexivity. Qed.

Lemma unscheduleRule_removes rid s :
  Part000.jobs (Part000.unscheduleRule rid s) !! rid = None.
Proof.
  unfold Part000.unscheduleRule.
  destruct (Part000.jobs s !! rid) as [j|] eqn:Hj; [|exact Hj].
  simpl. apply lookup_delete_eq.
Qed.

Lemma unschedule_absent rid s :
  Part001.schedulers s !! rid = None -> Part001.unschedule rid s = s.
Proof. intros H. unfold Part001.unschedule. rewrite H. reflexivity. Qed.

Lemma unschedule_removes rid s :
  Part001.schedulers (Part001.unschedule rid s) !! rid = None.
Proof.
  unfold Part001.unschedule.
  destruct (Part001.schedulers s !! rid) as [j|] eqn:Hj; [|exact Hj].
  simpl. apply lookup_delete_eq.
Qed.

(** C10.  In both servers, unscheduling a rule id that has no entry in the
    registry returns with the registry and the running tasks unchanged, and
    unscheduling twice is the same as unscheduling once. *)
Theorem unschedule_unregistered_noop :
  (forall rid s, Part000.jobs s !! rid = None -> Part000.unscheduleRule rid s = s)
  /\ (forall rid s,
        Part000.unscheduleRule rid (Part000.unscheduleRule rid s)
        = Part000.unscheduleRule rid s)
  /\ (forall rid s, Part001.schedulers s !! rid = None -> Part001.unschedule rid s = s)
  /\ (forall rid s,
        Part001.unschedule rid (Part001.unschedule rid s) = Part001.unschedule rid s).
Proof.
  repeat split.
  - apply unscheduleRule_absent.
  - intros rid s. apply unscheduleRule_absent, unscheduleRule_removes.
  - apply unschedule_absent.
  - intros rid s. apply unschedule_absent, unschedule_removes.
Qed.

Lemma unschedule_unregistered_noop_witness :
  Part000.unscheduleRule 7 Part000.init = Part000.init
  /\ Part001.unschedule "r_7" Part001.init = Part001.init.
Proof.
  destruct unschedule_unregistered_noop as (H0 & _ & H1 & _). split.
  - apply (H0 7 Part000.init). reflexivity.
  - apply (H1 "r_7" Part001.init). reflexivity.
Defined.

(** *** What [scheduleRule] leaves

    [scheduleRule] ends in one of five ways: the rule is disabled and only
    the old set is cancelled; the first, the second or the third
    [cron.schedule] throws, with none, one or two tasks started and no
    entry; or all three tasks run and the entry is set. *)

Lemma scheduleRule_cases000 accepts zone r s :
  let s0 := Part000.unscheduleRule (Part000.id r) s in
  let n := Part000.next_task s0 in
  let ok tk := accepts (Part000.expr tk) (Part000.task_tz tk) in
  exists t1 t2 t3,
    Part000.triggers_of zone r = [t1; t2; t3]
    /\ Part000.scheduleRule accepts zone r s
       = if negb (Part000.enabled r) then (Returned tt, s0)
         else if negb (ok t1) then (Threw Part000.CronError, s0)
         else if negb (ok t2) then (Threw Part000.CronError, Part000.started t1 s0)
         else if negb (ok t3)
              then (Threw Part000.CronError,
                    Part000.started t2 (Part000.started t1 s0))
              else (Returned tt,
                    {| Part000.jobs :=
                         <[Part000.id r := {| Part000.job_stop := n;
                                              Part000.job_start := S n;
                                              Part000.job_enforce := S (S n) |}]>
                           (Part000.jobs s0);
                       Part000.tasks :=
                         <[S (S n) := t3]> (<[S n := t2]> (<[n := t1]> (Part000.tasks s0)));
                       Part000.next_task := S (S (S n)) |}).
Proof.
  intros s0 n ok. unfold Part000.triggers_of, Part000.scheduleRule. fold s0.
  destruct (Part000.stop_time r) as [stopH stopM].
  destruct (Part000.start_time r) as [startH startM].
  do 3 eexists. split; [reflexivity|].
  destruct (Part000.enabled r); cbn [negb]; [|reflexivity].
  unfold Part000.cron_schedule. subst ok. cbn [Part000.expr Part000.task_tz].
  destruct (accepts (Part000.Daily stopM stopH) _); cbn [negb]; [|reflexivity].
  destruct (accepts (Part000.Daily startM startH) _); cbn [negb]; [|reflexivity].
  destruct (accepts (Part000.EveryMinutes _) _); cbn [negb]; reflexivity.
Qed.

Lemma scheduleRule_cases001 accepts sci_head zone r s :
  let s0 := Part001.unschedule (Part001.id r) s in
  let n := Part001.next_task s0 in
  let ok tk := accepts (Part001.expr tk) (Part001.task_tz tk) in
  exists t1 t2 t3,
    Part001.triggers_of sci_head zone r = [t1; t2; t3]
    /\ Part001.scheduleRule accepts sci_head zone r s
       = if negb (ok t1) then (Threw tt, s0)
         else if negb (ok t2) then (Threw tt, Part001.started t1 s0)
         else if negb (ok t3)
              then (Threw tt, Part001.started t2 (Part001.started t1 s0))
              else (Returned tt,
                    {| Part001.schedulers :=
                         <[Part001.id r := [n; S n; S (S n)]]> (Part001.schedulers s0);
                       Part001.tasks :=
                         <[S (S n) := t3]> (<[S n := t2]> (<[n := t1]> (Part001.tasks s0)));
                       Part001.next_task := S (S (S n)) |}).
Proof.
  intros s0 n ok. unfold Part001.triggers_of, Part001.scheduleRule. fold s0.
  do 3 eexists. split; [reflexivity|].
  unfold Part001.cron_schedule. subst ok. cbn [Part001.expr Part001.task_tz].
  destruct (accepts (fst (Part001.cronForTime (Part001.stop r) _)) _); cbn [negb];
    [|reflexivity].
  destruct (accepts (fst (Part001.cronForTime (Part001.start r) _)) _); cbn [negb];
    [|reflexivity].
  destruct (accepts (Part001.EveryMinutes _) _); cbn [negb]; reflexivity.
Qed.

(** [scheduleRule] returns exactly for a disabled rule and for a rule
    whose triggers [node-cron] accepts. *)
Lemma scheduleRule_returns000 accepts zone r s :
  fst (Part000.scheduleRule accepts zone r s) = Returned tt
  <-> negb (Part000.enabled r) || Part000.accepted accepts zone r = true.
Proof.
  destruct (scheduleRule_cases000 accepts zone r s) as (t1 & t2 & t3 & Htr & ->).
  unfold Part000.accepted. rewrite Htr. cbn [forallb].
  destruct (Part000.enabled r); cbn [negb orb]; [|tauto].
  destruct (accepts (Part000.expr t1) _); cbn [negb andb fst]; [|split; discriminate].
  destruct (accepts (Part000.expr t2) _); cbn [negb andb fst]; [|split; discriminate].
  destruct (accepts (Part000.expr t3) _); cbn [negb andb fst]; [tauto|split; discriminate].
Qed.

Lemma scheduleRule_returns001 accepts sci_head zone r s :
  fst (Part001.scheduleRule accepts sci_head zone r s) = Returned tt
  <-> Part001.accepted accepts sci_head zone r = true.
Proof.
  destruct (scheduleRule_cases001 accepts sci_head zone r s) as (t1 & t2 & t3 & Htr & ->).
  unfold Part001.accepted. rewrite Htr. cbn [forallb].
  destruct (accepts (Part001.expr t1) _); cbn [negb andb fst]; [|split; discriminate].
  destruct (accepts (Part001.expr t2) _); cbn [negb andb fst]; [|split; discriminate].
  destruct (accepts (Part001.expr t3) _); cbn [negb andb fst]; [tauto|split; discriminate].
Qed.

(** *** The registry invariant *)

Ltac open_handles :=
  unfold Part000.handles;
  cbn [Part000.job_stop Part000.job_start Part000.job_enforce].

Ltac open_handles_in H :=
  unfold Part000.handles in H;
  cbn [Part000.job_stop Part000.job_start Part000.job_enforce] in H.

Lemma inv_init000 zone : Part000.registry_inv zone ∅ Part000.init.
Proof.
  split; simpl.
  - intros rid. rewrite !lookup_empty. tauto.
  - intros rid r j H. rewrite lookup_empty in H. discriminate.
  - intros h tk H. rewrite lookup_empty in H. discriminate.
  - intros h [tk H]. rewrite lookup_empty in H. discriminate.
  - intros rid j h H. rewrite lookup_empty in H. discriminate.
  - intros rid1 rid2 j1 j2 h H. rewrite lookup_empty in H. discriminate.
  - intros rid j H. rewrite lookup_empty in H. discriminate.
Qed.

Lemma inv_unschedule000 zone m s rid :
  Part000.registry_inv zone m s ->
  Part000.registry_inv zone (delete rid m) (Part000.unscheduleRule rid s).
Proof.
  intros [Hdom Htasks Hmade Hbound Hfresh Hdisj Hnodup].
  unfold Part000.unscheduleRule.
  destruct (Part000.jobs s !! rid) as [j|] eqn:Hj.
  - destruct (jobs_task_stop000 (Part000.handles j) s) as [Hjobs Hnext].
    split; cbn [Part000.jobs Part000.tasks Part000.next_task]; rewrite ?Hjobs, ?Hnext.
    + intros rid'. rewrite !lookup_delete. case_decide; [tauto|apply Hdom].
    + intros rid' r j'. rewrite !lookup_delete. case_decide; [discriminate|].
      intros Hm Hj'. rewrite <- (Htasks rid' r j' Hm Hj').
      apply list_fmap_ext. intros i h Hh.
      rewrite tasks_task_stop000.
      rewrite bool_decide_eq_false_2; [reflexivity|].
      intros Hin. apply H. symmetry.
      apply (Hdisj rid' rid j' j h Hj' Hj); [|exact Hin].
      apply list_elem_of_lookup. eauto.
    + intros h tk Hh. rewrite tasks_task_stop000 in Hh.
      case_bool_decide as Hin; [discriminate|]. exact (Hmade h tk Hh).
    + intros h [tk Hh]. rewrite tasks_task_stop000 in Hh.
      case_bool_decide as Hin; [discriminate|]. apply Hbound. eauto.
    + intros rid' j' h. rewrite lookup_delete. case_decide; [discriminate|].
      apply Hfresh.
    + intros rid1 rid2 j1 j2 h. rewrite !lookup_delete.
      repeat case_decide; try discriminate. apply Hdisj.
    + intros rid' j'. rewrite lookup_delete. case_decide; [discriminate|].
      apply Hnodup.
  - assert (Hm : m !! rid = None) by (apply Hdom; exact Hj).
    rewrite (delete_id m rid Hm). split; assumption.
Qed.

(** A task started under the next handle disturbs no entry. *)
Lemma inv_started000 zone m s tk r :
  Part000.registry_inv zone m s ->
  tk ∈ Part000.triggers_of zone r ->
  Part000.registry_inv zone m (Part000.started tk s).
Proof.
  intros [Hdom Htasks Hmade Hbound Hfresh Hdisj Hnodup] Htk.
  unfold Part000.started.
  split; cbn [Part000.jobs Part000.tasks Part000.next_task].
  - exact Hdom.
  - intros rid r' j Hm Hj. rewrite <- (Htasks rid r' j Hm Hj).
    apply list_fmap_ext. intros i h Hh.
    assert (h < Part000.next_task s)%nat.
    { apply (Hfresh rid j h Hj). apply list_elem_of_lookup. eauto. }
    rewrite lookup_insert_ne by lia. reflexivity.
  - intros h tk'. rewrite lookup_insert. case_decide; [|apply Hmade].
    intros [= <-]. eauto.
  - intros h Hh. destruct (decide (h = Part000.next_task s)) as [->|Hne]; [lia|].
    rewrite lookup_insert_ne in Hh by congruence. specialize (Hbound h Hh). lia.
  - intros rid j h Hj Hin. specialize (Hfresh rid j h Hj Hin). lia.
  - exact Hdisj.
  - exact Hnodup.
Qed.

(** The entry set over three tasks started under the next three handles. *)
Lemma inv_entry000 zone m s r t1 t2 t3 :
  Part000.registry_inv zone m s ->
  Part000.jobs s !! Part000.id r = None ->
  Part000.triggers_of zone r = [t1; t2; t3] ->
  let n := Part000.next_task s in
  Part000.registry_inv zone (<[Part000.id r := r]> m)
    {| Part000.jobs :=
         <[Part000.id r := {| Part000.job_stop := n; Part000.job_start := S n;
                              Part000.job_enforce := S (S n) |}]> (Part000.jobs s);
       Part000.tasks :=
         <[S (S n) := t3]> (<[S n := t2]> (<[n := t1]> (Part000.tasks s)));
       Part000.next_task := S (S (S n)) |}.
Proof.
  intros [Hdom Htasks Hmade Hbound Hfresh Hdisj Hnodup] Hnone Htr n.
  assert (Hdead : forall h, (n <= h)%nat -> Part000.tasks s !! h = None).
  { intros h Hle. destruct (Part000.tasks s !! h) eqn:E; [|reflexivity].
    specialize (Hbound h (ex_intro _ _ E)). lia. }
  split; cbn [Part000.jobs Part000.tasks Part000.next_task].
  - intros rid. rewrite !lookup_insert. case_decide; [split; discriminate|apply Hdom].
  - intros rid r' j. rewrite !lookup_insert. case_decide as Heq.
    + intros [= <-] [= <-]. rewrite Htr.
      unfold Part000.handles.
      cbn [Part000.job_stop Part000.job_start Part000.job_enforce fmap list_fmap].
      rewrite lookup_insert_ne by lia. rewrite lookup_insert_ne by lia.
      rewrite lookup_insert_eq.
      rewrite lookup_insert_ne by lia. rewrite lookup_insert_eq.
      rewrite lookup_insert_eq. reflexivity.
    + intros Hm Hj. rewrite <- (Htasks rid r' j Hm Hj).
      apply list_fmap_ext. intros i h Hh.
      assert (h < n)%nat.
      { apply (Hfresh rid j h Hj). apply list_elem_of_lookup. eauto. }
      rewrite !lookup_insert_ne by lia. reflexivity.
  - intros h tk. rewrite !lookup_insert.
    repeat case_decide; [| | |apply Hmade];
      intros [= <-]; exists r; rewrite Htr, !elem_of_cons; auto.
  - intros h Hh.
    destruct (decide (h < n)%nat) as [Hlt|Hge]; [lia|].
    destruct (decide (h = n)) as [->|]; [lia|].
    destruct (decide (h = S n)) as [->|]; [lia|].
    destruct (decide (h = S (S n))) as [->|]; [lia|].
    rewrite !lookup_insert_ne in Hh by lia.
    rewrite Hdead in Hh by lia. destruct Hh as [? Hh]. discriminate.
  - intros rid j h. rewrite lookup_insert. case_decide as Heq.
    + intros [= <-].
      open_handles.
      rewrite !elem_of_cons, elem_of_nil. lia.
    + intros Hj Hin. specialize (Hfresh rid j h Hj Hin). lia.
  - intros rid1 rid2 j1 j2 h. rewrite !lookup_insert.
    case_decide as E1; case_decide as E2.
    + congruence.
    + intros [= <-] Hj2 Hin1 Hin2. specialize (Hfresh rid2 j2 h Hj2 Hin2).
      open_handles_in Hin1.
      rewrite !elem_of_cons, elem_of_nil in Hin1. lia.
    + intros Hj1 [= <-] Hin1 Hin2. specialize (Hfresh rid1 j1 h Hj1 Hin1).
      open_handles_in Hin2.
      rewrite !elem_of_cons, elem_of_nil in Hin2. lia.
    + apply Hdisj.
  - intros rid j. rewrite lookup_insert. case_decide as Heq.
    + intros [= <-].
      open_handles.
      repeat (apply NoDup_cons; split; [rewrite ?elem_of_cons, ?elem_of_nil; lia|]).
      apply NoDup_nil_2.
    + apply Hnodup.
Qed.

Lemma inv_schedule000 accepts zone m s r :
  Part000.registry_inv zone m s ->
  Part000.registry_inv zone
    (Part000.installed_step accepts zone m (Part000.Schedule r))
    (snd (Part000.scheduleRule accepts zone r s)).
Proof.
  intros Hinv.
  pose proof (inv_unschedule000 zone m s (Part000.id r) Hinv) as H0.
  pose proof (unscheduleRule_removes (Part000.id r) s) as Hnone.
  destruct (scheduleRule_cases000 accepts zone r s) as (t1 & t2 & t3 & Htr & ->).
  unfold Part000.installed_step, Part000.accepted. rewrite Htr. cbn [forallb].
  assert (H1 : t1 ∈ Part000.triggers_of zone r) by (rewrite Htr, !elem_of_cons; auto).
  assert (H2 : t2 ∈ Part000.triggers_of zone r) by (rewrite Htr, !elem_of_cons; auto).
  destruct (Part000.enabled r); cbn [negb andb snd]; [|exact H0].
  destruct (accepts (Part000.expr t1) _); cbn [negb andb snd]; [|exact H0].
  destruct (accepts (Part000.expr t2) _); cbn [negb andb snd];
    [|apply (inv_started000 zone _ _ t1 r); assumption].
  destruct (accepts (Part000.expr t3) _); cbn [negb andb snd].
  - rewrite <- (insert_delete_eq m). apply inv_entry000; assumption.
  - apply (inv_started000 zone _ _ t2 r); [|exact H2].
    apply (inv_started000 zone _ _ t1 r); assumption.
Qed.

Lemma inv_replay_from000 accepts zone ops : forall m s,
  Part000.registry_inv zone m s ->
  Part000.registry_inv zone (foldl (Part000.installed_step accepts zone) m ops)
    (foldl (Part000.apply_op accepts zone) s ops).
Proof.
  induction ops as [|o ops IH]; intros m s Hinv; [exact Hinv|].
  simpl. apply IH. destruct o as [r|rid].
  - apply inv_schedule000. exact Hinv.
  - apply inv_unschedule000. exact Hinv.
Qed.

Lemma inv_replay000 accepts zone ops :
  Part000.registry_inv zone (Part000.installed accepts zone ops)
    (Part000.replay accepts zone ops).
Proof. apply inv_replay_from000, inv_init000. Qed.

Lemma next_task_unschedule000 rid s :
  Part000.next_task (Part000.unscheduleRule rid s) = Part000.next_task s.
Proof.
  unfold Part000.unscheduleRule. destruct (Part000.jobs s !! rid); [|reflexivity].
  cbn [Part000.next_task]. apply jobs_task_stop000.
Qed.

(** The tasks [scheduleRule] leaves: those [unscheduleRule] left, and
    tasks under handles that were not spent before. *)
Lemma scheduleRule_old_tasks000 accepts zone r s h :
  (h < Part000.next_task s)%nat ->
  Part000.tasks (snd (Part000.scheduleRule accepts zone r s)) !! h
  = Part000.tasks (Part000.unscheduleRule (Part000.id r) s) !! h.
Proof.
  intros Hlt. rewrite <- (next_task_unschedule000 (Part000.id r) s) in Hlt.
  destruct (scheduleRule_cases000 accepts zone r s) as (t1 & t2 & t3 & _ & ->).
  destruct (negb (Part000.enabled r)); [reflexivity|].
  destruct (negb _); [reflexivity|].
  destruct (negb _);
    [cbn [snd Part000.started Part000.tasks]; rewrite lookup_insert_ne by lia;
     reflexivity|].
  destruct (negb _);
    cbn [snd Part000.started Part000.tasks Part000.next_task];
    rewrite !lookup_insert_ne by lia; reflexivity.
Qed.

Lemma scheduleRule_cancels000 accepts zone m s r j h :
  Part000.registry_inv zone m s ->
  Part000.jobs s !! Part000.id r = Some j ->
  h ∈ Part000.handles j ->
  Part000.tasks (snd (Part000.scheduleRule accepts zone r s)) !! h = None.
Proof.
  intros Hinv Hj Hin.
  pose proof (Part000.inv_fresh zone m s Hinv _ _ _ Hj Hin) as Hlt.
  rewrite scheduleRule_old_tasks000 by exact Hlt.
  unfold Part000.unscheduleRule. rewrite Hj. cbn [Part000.tasks].
  rewrite tasks_task_stop000, bool_decide_eq_true_2 by exact Hin. reflexivity.
Qed.

Lemma inv_init001 sci_head zone : Part001.registry_inv sci_head zone ∅ Part001.init.
Proof.
  split; simpl.
  - intros rid. rewrite !lookup_empty. tauto.
  - intros rid r j H. rewrite lookup_empty in H. discriminate.
  - intros h tk H. rewrite lookup_empty in H. discriminate.
  - intros h [tk H]. rewrite lookup_empty in H. discriminate.
  - intros rid j h H. rewrite lookup_empty in H. discriminate.
  - intros rid1 rid2 j1 j2 h H. rewrite lookup_empty in H. discriminate.
  - intros rid j H. rewrite lookup_empty in H. discriminate.
Qed.

Lemma inv_unschedule001 sci_head zone m s rid :
  Part001.registry_inv sci_head zone m s ->
  Part001.registry_inv sci_head zone (delete rid m) (Part001.unschedule rid s).
Proof.
  intros [Hdom Htasks Hmade Hbound Hfresh Hdisj Hnodup].
  unfold Part001.unschedule.
  destruct (Part001.schedulers s !! rid) as [j|] eqn:Hj.
  - destruct (jobs_task_stop001 j s) as [Hjobs Hnext].
    split; cbn [Part001.schedulers Part001.tasks Part001.next_task];
      rewrite ?Hjobs, ?Hnext.
    + intros rid'. rewrite !lookup_delete. case_decide; [tauto|apply Hdom].
    + intros rid' r j'. rewrite !lookup_delete. case_decide; [discriminate|].
      intros Hm Hj'. rewrite <- (Htasks rid' r j' Hm Hj').
      apply list_fmap_ext. intros i h Hh.
      rewrite tasks_task_stop001.
      rewrite bool_decide_eq_false_2; [reflexivity|].
      intros Hin. apply H. symmetry.
      apply (Hdisj rid' rid j' j h Hj' Hj); [|exact Hin].
      apply list_elem_of_lookup. eauto.
    + intros h tk Hh. rewrite tasks_task_stop001 in Hh.
      case_bool_decide as Hin; [discriminate|]. exact (Hmade h tk Hh).
    + intros h [tk Hh]. rewrite tasks_task_stop001 in Hh.
      case_bool_decide as Hin; [discriminate|]. apply Hbound. eauto.
    + intros rid' j' h. rewrite lookup_delete. case_decide; [discriminate|].
      apply Hfresh.
    + intros rid1 rid2 j1 j2 h. rewrite !lookup_delete.
      repeat case_decide; try discriminate. apply Hdisj.
    + intros rid' j'. rewrite lookup_delete. case_decide; [discriminate|].
      apply Hnodup.
  - assert (Hm : m !! rid = None) by (apply Hdom; exact Hj).
    rewrite (delete_id m rid Hm). split; assumption.
Qed.

Lemma inv_started001 sci_head zone m s tk r :
  Part001.registry_inv sci_head zone m s ->
  tk ∈ Part001.triggers_of sci_head zone r ->
  Part001.registry_inv sci_head zone m (Part001.started tk s).
Proof.
  intros [Hdom Htasks Hmade Hbound Hfresh Hdisj Hnodup] Htk.
  unfold Part001.started.
  split; cbn [Part001.schedulers Part001.tasks Part001.next_task].
  - exact Hdom.
  - intros rid r' j Hm Hj. rewrite <- (Htasks rid r' j Hm Hj).
    apply list_fmap_ext. intros i h Hh.
    assert (h < Part001.next_task s)%nat.
    { apply (Hfresh rid j h Hj). apply list_elem_of_lookup. eauto. }
    rewrite lookup_insert_ne by lia. reflexivity.
  - intros h tk'. rewrite lookup_insert. case_decide; [|apply Hmade].
    intros [= <-]. eauto.
  - intros h Hh. destruct (decide (h = Part001.next_task s)) as [->|Hne]; [lia|].
    rewrite lookup_insert_ne in Hh by congruence. specialize (Hbound h Hh). lia.
  - intros rid j h Hj Hin. specialize (Hfresh rid j h Hj Hin). lia.
  - exact Hdisj.
  - exact Hnodup.
Qed.

Lemma inv_entry001 sci_head zone m s r t1 t2 t3 :
  Part001.registry_inv sci_head zone m s ->
  Part001.schedulers s !! Part001.id r = None ->
  Part001.triggers_of sci_head zone r = [t1; t2; t3] ->
  let n := Part001.next_task s in
  Part001.registry_inv sci_head zone (<[Part001.id r := r]> m)
    {| Part001.schedulers := <[Part001.id r := [n; S n; S (S n)]]> (Part001.schedulers s);
       Part001.tasks :=
         <[S (S n) := t3]> (<[S n := t2]> (<[n := t1]> (Part001.tasks s)));
       Part001.next_task := S (S (S n)) |}.
Proof.
  intros [Hdom Htasks Hmade Hbound Hfresh Hdisj Hnodup] Hnone Htr n.
  assert (Hdead : forall h, (n <= h)%nat -> Part001.tasks s !! h = None).
  { intros h Hle. destruct (Part001.tasks s !! h) eqn:E; [|reflexivity].
    specialize (Hbound h (ex_intro _ _ E)). lia. }
  split; cbn [Part001.schedulers Part001.tasks Part001.next_task].
  - intros rid. rewrite !lookup_insert. case_decide; [split; discriminate|apply Hdom].
  - intros rid r' j. rewrite !lookup_insert. case_decide as Heq.
    + intros [= <-] [= <-]. rewrite Htr.
      cbn [fmap list_fmap].
      rewrite lookup_insert_ne by lia. rewrite lookup_insert_ne by lia.
      rewrite lookup_insert_eq.
      rewrite lookup_insert_ne by lia. rewrite lookup_insert_eq.
      rewrite lookup_insert_eq. reflexivity.
    + intros Hm Hj. rewrite <- (Htasks rid r' j Hm Hj).
      apply list_fmap_ext. intros i h Hh.
      assert (h < n)%nat.
      { apply (Hfresh rid j h Hj). apply list_elem_of_lookup. eauto. }
      rewrite !lookup_insert_ne by lia. reflexivity.
  - intros h tk. rewrite !lookup_insert.
    repeat case_decide; [| | |apply Hmade];
      intros [= <-]; exists r; rewrite Htr, !elem_of_cons; auto.
  - intros h Hh.
    destruct (decide (h < n)%nat) as [Hlt|Hge]; [lia|].
    destruct (decide (h = n)) as [->|]; [lia|].
    destruct (decide (h = S n)) as [->|]; [lia|].
    destruct (decide (h = S (S n))) as [->|]; [lia|].
    rewrite !lookup_insert_ne in Hh by lia.
    rewrite Hdead in Hh by lia. destruct Hh as [? Hh]. discriminate.
  - intros rid j h. rewrite lookup_insert. case_decide as Heq.
    + intros [= <-]. rewrite !elem_of_cons, elem_of_nil. lia.
    + intros Hj Hin. specialize (Hfresh rid j h Hj Hin). lia.
  - intros rid1 rid2 j1 j2 h. rewrite !lookup_insert.
    case_decide as E1; case_decide as E2.
    + congruence.
    + intros [= <-] Hj2 Hin1 Hin2. specialize (Hfresh rid2 j2 h Hj2 Hin2).
      rewrite !elem_of_cons, elem_of_nil in Hin1. lia.
    + intros Hj1 [= <-] Hin1 Hin2. specialize (Hfresh rid1 j1 h Hj1 Hin1).
      rewrite !elem_of_cons, elem_of_nil in Hin2. lia.
    + apply Hdisj.
  - intros rid j. rewrite lookup_insert. case_decide as Heq.
    + intros [= <-].
      repeat (apply NoDup_cons; split; [rewrite ?elem_of_cons, ?elem_of_nil; lia|]).
      apply NoDup_nil_2.
    + apply Hnodup.
Qed.

Lemma inv_schedule001 accepts sci_head zone m s r :
  Part001.registry_inv sci_head zone m s ->
  Part001.registry_inv sci_head zone
    (Part001.installed_step accepts sci_head zone m (Part001.Schedule r))
    (snd (Part001.scheduleRule accepts sci_head zone r s)).
Proof.
  intros Hinv.
  pose proof (inv_unschedule001 sci_head zone m s (Part001.id r) Hinv) as H0.
  pose proof (unschedule_removes (Part001.id r) s) as Hnone.
  destruct (scheduleRule_cases001 accepts sci_head zone r s) as (t1 & t2 & t3 & Htr & ->).
  unfold Part001.installed_step, Part001.accepted. rewrite Htr. cbn [forallb].
  assert (H1 : t1 ∈ Part001.triggers_of sci_head zone r)
    by (rewrite Htr, !elem_of_cons; auto).
  assert (H2 : t2 ∈ Part001.triggers_of sci_head zone r)
    by (rewrite Htr, !elem_of_cons; auto).
  destruct (accepts (Part001.expr t1) _); cbn [negb andb snd]; [|exact H0].
  destruct (accepts (Part001.expr t2) _); cbn [negb andb snd];
    [|apply (inv_started001 sci_head zone _ _ t1 r); assumption].
  destruct (accepts (Part001.expr t3) _); cbn [negb andb snd].
  - rewrite <- (insert_delete_eq m). apply inv_entry001; assumption.
  - apply (inv_started001 sci_head zone _ _ t2 r); [|exact H2].
    apply (inv_started001 sci_head zone _ _ t1 r); assumption.
Qed.

Lemma inv_replay_from001 accepts sci_head zone ops : forall m s,
  Part001.registry_inv sci_head zone m s ->
  Part001.registry_inv sci_head zone
    (foldl (Part001.installed_step accepts sci_head zone) m ops)
    (foldl (Part001.apply_op accepts sci_head zone) s ops).
Proof.
  induction ops as [|o ops IH]; intros m s Hinv; [exact Hinv|].
  simpl. apply IH. destruct o as [r|rid].
  - apply inv_schedule001. exact Hinv.
  - apply inv_unschedule001. exact Hinv.
Qed.

Lemma inv_replay001 accepts sci_head zone ops :
  Part001.registry_inv sci_head zone (Part001.installed accepts sci_head zone ops)
    (Part001.replay accepts sci_head zone ops).
Proof. apply inv_replay_from001, inv_init001. Qed.

Lemma next_task_unschedule001 rid s :
  Part001.next_task (Part001.unschedule rid s) = Part001.next_task s.
Proof.
  unfold Part001.unschedule. destruct (Part001.schedulers s !! rid); [|reflexivity].
  cbn [Part001.next_task]. apply jobs_task_stop001.
Qed.

Lemma scheduleRule_old_tasks001 accepts sci_head zone r s h :
  (h < Part001.next_task s)%nat ->
  Part001.tasks (snd (Part001.scheduleRule accepts sci_head zone r s)) !! h
  = Part001.tasks (Part001.unschedule (Part001.id r) s) !! h.
Proof.
  intros Hlt. rewrite <- (next_task_unschedule001 (Part001.id r) s) in Hlt.
  destruct (scheduleRule_cases001 accepts sci_head zone r s) as (t1 & t2 & t3 & _ & ->).
  destruct (negb _); [reflexivity|].
  destruct (negb _);
    [cbn [snd Part001.started Part001.tasks]; rewrite lookup_insert_ne by lia;
     reflexivity|].
  destruct (negb _);
    cbn [snd Part001.started Part001.tasks Part001.next_task];
    rewrite !lookup_insert_ne by lia; reflexivity.
Qed.

Lemma scheduleRule_cancels001 accepts sci_head zone m s r set h :
  Part001.registry_inv sci_head zone m s ->
  Part001.schedulers s !! Part001.id r = Some set ->
  h ∈ set ->
  Part001.tasks (snd (Part001.scheduleRule accepts sci_head zone r s)) !! h = None.
Proof.
  intros Hinv Hj Hin.
  pose proof (Part001.inv_fresh sci_head zone m s Hinv _ _ _ Hj Hin) as Hlt.
  rewrite scheduleRule_old_tasks001 by exact Hlt.
  unfold Part001.unschedule. rewrite Hj. cbn [Part001.tasks].
  rewrite tasks_task_stop001, bool_decide_eq_true_2 by exact Hin. reflexivity.
Qed.

(** *** The period of the reconciliation trigger *)

Lemma every_range sci_head r :
  exists p, Part001.every sci_head r = Num p /\ 1 <= p <= 60.
Proof.
  unfold Part001.every, Js.parseInt.
  destruct (Part001.enforce_every r) as [|z]; cbn [Js.truthy].
  - exists 5. split; [reflexivity|lia].
  - destruct (negb (z =? 0)); [|exists 5; split; [reflexivity|lia]].
    destruct (Z.abs z <? 10 ^ 21); cbn [Js.min Js.max];
      eexists; (split; [reflexivity|lia]).
Qed.

Lemma has_period_mod (fires : Z -> bool) p :
  0 < p -> (forall lm, fires lm = (lm mod p =? 0)) -> has_period fires p.
Proof.
  intros Hp Hf. split.
  - exists 0. rewrite Hf, Zmod_0_l. reflexivity.
  - intros lm H. rewrite Hf in H. apply Z.eqb_eq in H. split.
    + rewrite Hf. apply Z.eqb_eq.
      rewrite <- (Z.mul_1_l p) at 1. rewrite Z.mod_add by lia. exact H.
    + intros d Hd. rewrite Hf. apply Z.eqb_neq.
      rewrite Z.add_mod, H, Z.add_0_l, Z.mod_mod, Z.mod_small by lia. lia.
Qed.

Lemma step_divides n lm : 0 < n -> (n | 60) -> Clock.minute lm mod n = lm mod n.
Proof.
  intros Hn Hdiv. unfold Clock.minute. apply Z.mod_mod_divide. exact Hdiv.
Qed.

Lemma step_hourly n lm : 60 <= n -> (Clock.minute lm mod n =? 0) = (lm mod 60 =? 0).
Proof.
  intros Hn. unfold Clock.minute.
  pose proof (Z.mod_pos_bound lm 60 ltac:(lia)).
  rewrite (Z.mod_small (lm mod 60) n) by lia. reflexivity.
Qed.

Lemma step_period000 p :
  0 < p ->
  (forall lm, Part000.fires (Part000.EveryMinutes p) lm = (Clock.minute lm mod p =? 0))
  /\ ((p | 60) -> has_period (Part000.fires (Part000.EveryMinutes p)) p)
  /\ (60 <= p -> has_period (Part000.fires (Part000.EveryMinutes p)) 60).
Proof.
  intros Hp.
  assert (Hf : forall lm, Part000.fires (Part000.EveryMinutes p) lm
                          = (Clock.minute lm mod p =? 0)).
  { intros lm. cbn [Part000.fires]. rewrite (proj2 (Z.ltb_lt 0 p) Hp). reflexivity. }
  split; [exact Hf|]. split.
  - intros Hdiv. apply has_period_mod; [exact Hp|].
    intros lm. rewrite Hf, step_divides by assumption. reflexivity.
  - intros Hbig. apply has_period_mod; [lia|].
    intros lm. rewrite Hf. apply step_hourly. exact Hbig.
Qed.

Lemma step_period001 p :
  0 < p ->
  (forall lm, Part001.fires (Part001.EveryMinutes (Num p)) lm
              = (Clock.minute lm mod p =? 0))
  /\ ((p | 60) -> has_period (Part001.fires (Part001.EveryMinutes (Num p))) p)
  /\ (60 <= p -> has_period (Part001.fires (Part001.EveryMinutes (Num p))) 60).
Proof.
  intros Hp.
  assert (Hf : forall lm, Part001.fires (Part001.EveryMinutes (Num p)) lm
                          = (Clock.minute lm mod p =? 0)).
  { intros lm. cbn [Part001.fires]. rewrite (proj2 (Z.ltb_lt 0 p) Hp). reflexivity. }
  split; [exact Hf|]. split.
  - intros Hdiv. apply has_period_mod; [exact Hp|].
    intros lm. rewrite Hf, step_divides by assumption. reflexivity.
  - intros Hbig. apply has_period_mod; [lia|].
    intros lm. rewrite Hf. apply step_hourly. exact Hbig.
Qed.

Lemma scheduleRule_periodic000 accepts DEFAULT_TZ r s :
  Part000.enabled r = true ->
  fst (Part000.scheduleRule accepts DEFAULT_TZ r s) = Returned tt ->
  exists j tk,
    Part000.jobs (snd (Part000.scheduleRule accepts DEFAULT_TZ r s)) !! Part000.id r
    = Some j
    /\ Part000.tasks (snd (Part000.scheduleRule accepts DEFAULT_TZ r s))
         !! Part000.job_enforce j = Some tk
    /\ Part000.expr tk = Part000.EveryMinutes (Part000.everyXMins r)
    /\ Part000.run tk = Part000.RunPeriodic r.
Proof.
  intros Hen.
  destruct (scheduleRule_cases000 accepts DEFAULT_TZ r s) as (t1 & t2 & t3 & Htr & ->).
  rewrite Hen. cbn [negb].
  destruct (negb _); [discriminate|].
  destruct (negb _); [discriminate|].
  destruct (negb _); [discriminate|]. intros _.
  cbn [snd Part000.jobs Part000.tasks].
  eexists. exists t3. rewrite lookup_insert_eq. split; [reflexivity|].
  cbn [Part000.job_enforce]. rewrite lookup_insert_eq. split; [reflexivity|].
  unfold Part000.triggers_of in Htr.
  destruct (Part000.stop_time r) as [stopH stopM].
  destruct (Part000.start_time r) as [startH startM].
  injection Htr as _ _ <-. split; reflexivity.
Qed.

Lemma scheduleRule_periodic001 accepts sci_head ACCOUNT_TIMEZONE_DEFAULT r s :
  fst (Part001.scheduleRule accepts sci_head ACCOUNT_TIMEZONE_DEFAULT r s) = Returned tt ->
  exists h1 h2 h3 tk,
    Part001.schedulers (snd (Part001.scheduleRule accepts sci_head
                               ACCOUNT_TIMEZONE_DEFAULT r s))
      !! Part001.id r = Some [h1; h2; h3]
    /\ Part001.tasks (snd (Part001.scheduleRule accepts sci_head
                             ACCOUNT_TIMEZONE_DEFAULT r s)) !! h3 = Some tk
    /\ Part001.expr tk = Part001.EveryMinutes (Part001.every sci_head r)
    /\ Part001.run tk = Part001.RunEnforceRule r.
Proof.
  destruct (scheduleRule_cases001 accepts sci_head ACCOUNT_TIMEZONE_DEFAULT r s)
    as (t1 & t2 & t3 & Htr & ->).
  destruct (negb _); [discriminate|].
  destruct (negb _); [discriminate|].
  destruct (negb _); [discriminate|]. intros _.
  cbn [snd Part001.schedulers Part001.tasks].
  do 3 eexists. exists t3. rewrite lookup_insert_eq. split; [reflexivity|].
  rewrite lookup_insert_eq. split; [reflexivity|].
  unfold Part001.triggers_of in Htr. injection Htr as _ _ <-. split; reflexivity.
Qed.

(** C9 (as amended).  The periodic trigger [scheduleRule] installs, when
    [node-cron] accepts the rule's triggers, has the minute field [*/p] and
    runs at the minutes of every hour that [p] divides, from minute 0 on:
    when [p] divides 60 it runs every [p] minutes, and when [p] is 60 or
    more it runs once an hour.  In the JSON-file server [p] is
    [enforce_every] clamped to 1..60 for a number other than 0 and below
    1e21, and 5 when [enforce_every] is absent, not a number or 0; [p] is
    always between 1 and 60.  In the SQLite server, for an enabled rule,
    [p] is [max(5, enforce_window_minutes)], with 30 standing in for 0;
    [p] is never below 5. *)
Theorem reconciliation_period :
  (forall accepts sci_head ACCOUNT_TIMEZONE_DEFAULT r s,
      let out := Part001.scheduleRule accepts sci_head ACCOUNT_TIMEZONE_DEFAULT r s in
      exists p,
        Part001.every sci_head r = Num p
        /\ 1 <= p <= 60
        /\ (fst out = Returned tt ->
            exists h1 h2 h3 tk,
              Part001.schedulers (snd out) !! Part001.id r = Some [h1; h2; h3]
              /\ Part001.tasks (snd out) !! h3 = Some tk
              /\ Part001.expr tk = Part001.EveryMinutes (Num p)
              /\ Part001.run tk = Part001.RunEnforceRule r)
        /\ (forall z, Part001.enforce_every r = Num z -> z <> 0 -> Z.abs z < 10 ^ 21 ->
              p = claimed_period z)
        /\ (Js.truthy (Part001.enforce_every r) = false -> p = 5)
        /\ (forall lm, Part001.fires (Part001.EveryMinutes (Num p)) lm
                       = (Clock.minute lm mod p =? 0))
        /\ ((p | 60) -> has_period (Part001.fires (Part001.EveryMinutes (Num p))) p))
  /\ (forall accepts DEFAULT_TZ r s,
      let out := Part000.scheduleRule accepts DEFAULT_TZ r s in
      let p := Part000.everyXMins r in
      (Part000.enabled r = true -> fst out = Returned tt ->
       exists j tk,
         Part000.jobs (snd out) !! Part000.id r = Some j
         /\ Part000.tasks (snd out) !! Part000.job_enforce j = Some tk
         /\ Part000.expr tk = Part000.EveryMinutes p
         /\ Part000.run tk = Part000.RunPeriodic r)
      /\ (Part000.enforce_window_minutes r <> 0 ->
          p = Z.max 5 (Part000.enforce_window_minutes r))
      /\ (Part000.enforce_window_minutes r = 0 -> p = 30)
      /\ 5 <= p
      /\ (forall lm, Part000.fires (Part000.EveryMinutes p) lm
                     = (Clock.minute lm mod p =? 0))
      /\ ((p | 60) -> has_period (Part000.fires (Part000.EveryMinutes p)) p)
      /\ (60 <= p -> has_period (Part000.fires (Part000.EveryMinutes p)) 60)).
Proof.
  split.
  - intros accepts sci_head zone r s out.
    destruct (every_range sci_head r) as (p & Hp & Hrange).
    exists p. split; [exact Hp|]. split; [exact Hrange|].
    destruct (step_period001 p ltac:(lia)) as (Hf & Hdiv & _).
    split; [|split; [|split; [|split; [exact Hf|exact Hdiv]]]].
    + intros Hret. subst out.
      destruct (scheduleRule_periodic001 accepts sci_head zone r s Hret)
        as (h1 & h2 & h3 & tk & H1 & H2 & H3 & H4).
      exists h1, h2, h3, tk. rewrite <- Hp. auto.
    + intros z Hz Hnz Hsmall. unfold Part001.every, Js.parseInt in Hp.
      rewrite Hz in Hp. cbn [Js.truthy] in Hp.
      rewrite (proj2 (Z.eqb_neq z 0) Hnz) in Hp. cbn [negb] in Hp.
      rewrite (proj2 (Z.ltb_lt _ _) Hsmall) in Hp. cbn [Js.min Js.max] in Hp.
      injection Hp as <-. reflexivity.
    + intros Hf0. unfold Part001.every in Hp. rewrite Hf0 in Hp.
      cbn [Js.min Js.max] in Hp. injection Hp as <-. reflexivity.
  - intros accepts zone r s out p.
    assert (Hp5 : 5 <= p) by (subst p; unfold Part000.everyXMins; lia).
    destruct (step_period000 p ltac:(lia)) as (Hf & Hdiv & Hbig).
    split; [intros Hen Hret; apply scheduleRule_periodic000; assumption|].
    split; [|split; [|split; [exact Hp5|split; [exact Hf|split; [exact Hdiv|exact Hbig]]]]].
    + intros Hnz. subst p. unfold Part000.everyXMins.
      rewrite (proj2 (Z.eqb_neq _ 0) Hnz). reflexivity.
    + intros Hz. subst p. unfold Part000.everyXMins. rewrite Hz. reflexivity.
Qed.

Lemma reconciliation_period_witness :
  has_period (Part001.fires (Part001.EveryMinutes (Num 5))) 5
  /\ has_period (Part000.fires (Part000.EveryMinutes 30)) 30
  /\ has_period
       (Part000.fires
          (Part000.EveryMinutes
             (Part000.everyXMins (Scenario.with_window 90 Scenario.night000)))) 60.
Proof.
  destruct reconciliation_period as [H1 H0]. split; [|split].
  - destruct (H1 Scenario.node_cron001 Scenario.sci_head "UTC" Scenario.night001
                Part001.init) as (p & Hp & _ & _ & _ & _ & _ & H).
    injection Hp as <-. apply H. exists 12. reflexivity.
  - destruct (H0 Scenario.node_cron000 "UTC" Scenario.night000 Part000.init)
      as (_ & _ & _ & _ & _ & H & _).
    apply H. exists 2. reflexivity.
  - destruct (H0 Scenario.node_cron000 "UTC" (Scenario.with_window 90 Scenario.night000)
                Part000.init) as (_ & _ & _ & _ & _ & _ & H).
    apply H. vm_compute. discriminate.
Defined.

(** C9, as stated, fails.  In the SQLite server an interval of 2 minutes
    gives a trigger that runs every 5 minutes, not every 2.  In the
    JSON-file server an interval of 0 gives a trigger that runs every 5
    minutes, not every minute; and an interval of 45, which the clamp
    leaves alone, gives a trigger that runs at minute 45 and again at the
    next full hour, 15 minutes later. *)
Lemma period_not_clamped_to_1_60 :
  (let r := Scenario.with_window 2 Scenario.night000 in
   let s := snd (Part000.scheduleRule Scenario.node_cron000 "UTC" r Part000.init) in
   let e := Part000.EveryMinutes 5 in
   Part000.expr <$> Part000.tasks s !! 2%nat = Some e
   /\ claimed_period (Part000.enforce_window_minutes r) = 2
   /\ ~ has_period (Part000.fires e) 2
   /\ has_period (Part000.fires e) 5)
  /\ (let r := Scenario.with_every (Num 0) Scenario.night001 in
      let s := snd (Part001.scheduleRule Scenario.node_cron001 Scenario.sci_head "UTC"
                      r Part001.init) in
      let e := Part001.EveryMinutes (Num 5) in
      Part001.expr <$> Part001.tasks s !! 2%nat = Some e
      /\ claimed_period 0 = 1
      /\ ~ has_period (Part001.fires e) 1
      /\ has_period (Part001.fires e) 5)
  /\ (let r := Scenario.with_every (Num 45) Scenario.night001 in
      let s := snd (Part001.scheduleRule Scenario.node_cron001 Scenario.sci_head "UTC"
                      r Part001.init) in
      let e := Part001.EveryMinutes (Num 45) in
      Part001.expr <$> Part001.tasks s !! 2%nat = Some e
      /\ claimed_period 45 = 45
      /\ ~ has_period (Part001.fires e) 45
      /\ Part001.fires e 45 = true /\ Part001.fires e 60 = true).
Proof.
  split; [|split]; cbn zeta.
  - split; [vm_compute; reflexivity|]. split; [reflexivity|]. split.
    + intros [_ H]. destruct (H 0 eq_refl) as [H2 _]. discriminate H2.
    + apply (step_period000 5); [lia|]. exists 12. reflexivity.
  - split; [vm_compute; reflexivity|]. split; [reflexivity|]. split.
    + intros [_ H]. destruct (H 0 eq_refl) as [H1 _]. discriminate H1.
    + apply (step_period001 5); [lia|]. exists 12. reflexivity.
  - split; [vm_compute; reflexivity|]. split; [reflexivity|]. split.
    + intros [_ H]. destruct (H 45 eq_refl) as [H90 _]. discriminate H90.
    + split; reflexivity.
Qed.

(** *** A rule [node-cron] refuses *)

(** C5 fails on the code.  [scheduleRule] cancels the old set, calls
    [cron.schedule] three times outside any [try] and sets the entry last.
    The night rule is created and runs its three tasks; a PATCH then moves
    its start time to 25:00, an hour [node-cron] refuses.  The PATCH is
    answered 500, yet the row is updated and still enabled, the rule has no
    entry, and the stop task created before the refusal runs outside every
    entry: the objects are paused at 22:00 and nothing sets them active
    again.  A DELETE of the rule does not stop that task, and while the row
    is stored the process does not start again.  In the JSON-file server a
    POST of such a rule is written to the file and gets no entry and no
    answer, and its stop task runs on. *)
Theorem refused_rule_breaks_registry :
  (let accepts := Scenario.node_cron000 in
   let sv := Api000.serve accepts "UTC" (Api000.fresh accepts "UTC")
               [Api000.Post Cases.night_body] in
   let out := Api000.handle accepts "UTC" (Api000.Patch (Num 1) Cases.late_patch) sv in
   let sv' := snd out in
   Part000.jobs (Api000.registry sv) !! 1
   = Some {| Part000.job_stop := 0; Part000.job_start := 1; Part000.job_enforce := 2 |}
   /\ size (Part000.tasks (Api000.registry sv)) = 3%nat
   /\ fst out = Some Api000.ServerError
   /\ (exists row,
         Api000.select 1 (Api000.db sv') = Some row
         /\ Part000.enabled row = true
         /\ Part000.start_time row = (Num 25, Num 0)
         /\ Part000.tasks (Api000.registry sv') !! 3%nat
            = Some {| Part000.expr := Part000.Daily (Num 0) (Num 22);
                      Part000.task_tz := "UTC";
                      Part000.run := Part000.RunEnforce row PAUSED |})
   /\ Part000.jobs (Api000.registry sv') = ∅
   /\ size (Part000.tasks (Api000.registry sv')) = 1%nat
   /\ (let gone := snd (Api000.handle accepts "UTC" (Api000.Delete (Num 1)) sv') in
       Api000.rows (Api000.db gone) = []
       /\ is_Some (Part000.tasks (Api000.registry gone) !! 3%nat))
   /\ Api000.up (snd (Api000.handle accepts "UTC" Api000.Restart sv')) = false)
  /\ (let accepts := Scenario.node_cron001 in
      let out := Api001.handle accepts Scenario.sci_head "UTC"
                   (Api001.Post Cases.late_body001 1000)
                   (Api001.fresh accepts Scenario.sci_head "UTC") in
      let sv' := snd out in
      fst out = None
      /\ Api001.file sv'
         = [Api001.rule_of_body Scenario.sci_head "UTC" Cases.late_body001 1000]
      /\ Part001.schedulers (Api001.registry sv') = ∅
      /\ (exists r,
            Api001.file sv' = [r]
            /\ Part001.tasks (Api001.registry sv') !! 0%nat
               = Some {| Part001.expr := Part001.Daily (Num 0) (Num 22);
                         Part001.task_tz := "UTC";
                         Part001.run := Part001.RunEdge r PAUSED |})
      /\ size (Part001.tasks (Api001.registry sv')) = 1%nat).
Proof.
  split; cbn zeta.
  - split; [vm_compute; reflexivity|]. split; [vm_compute; reflexivity|].
    split; [vm_compute; reflexivity|].
    split; [eexists; repeat split; vm_compute; reflexivity|].
    split; [apply map_eq; intros k; vm_compute; destruct k; reflexivity|].
    split; [vm_compute; reflexivity|].
    split; [split; [vm_compute; reflexivity|eexists; vm_compute; reflexivity]|].
    vm_compute. reflexivity.
  - split; [vm_compute; reflexivity|]. split; [vm_compute; reflexivity|].
    split; [apply map_eq; intros k; vm_compute; reflexivity|].
    split; [eexists; split; vm_compute; reflexivity|].
    vm_compute. reflexivity.
Qed.

Example registry_after_requests :
  let s := Part000.replay Scenario.node_cron000 "UTC" Scenario.requests000 in
  Part000.jobs s !! 1
  = Some {| Part000.job_stop := 6; Part000.job_start := 7; Part000.job_enforce := 8 |}
  /\ Part000.jobs s !! 2 = None
  /\ size (Part000.tasks s) = 3%nat
  /\ Part000.all_return Scenario.node_cron000 "UTC" Part000.init Scenario.requests000
     = true.
Proof. repeat split; vm_compute; reflexivity. Qed.

(** ** Invocations in flight *)

Lemma count_le_impl {T} (f g : T -> bool) (l : list T) :
  (forall x, f x = true -> g x = true) ->
  (length (List.filter f l) <= length (List.filter g l))%nat.
Proof.
  intros Hfg. induction l as [|x l IH]; simpl; [lia|].
  destruct (f x) eqn:Hf.
  - rewrite (Hfg x Hf). simpl. lia.
  - destruct (g x); simpl; lia.
Qed.

Lemma count_insert_le {T} (f : T -> bool) (l : list T) : forall i x y,
  l !! i = Some x ->
  (f y = true -> f x = true) ->
  (length (List.filter f (<[i := y]> l)) <= length (List.filter f l))%nat.
Proof.
  induction l as [|z l IH]; intros i x y Hi Hyx; [discriminate Hi|].
  destruct i as [|i]; simpl in *.
  - injection Hi as ->. destruct (f y) eqn:Hy.
    + rewrite (Hyx eq_refl). simpl. lia.
    + destruct (f x); simpl; lia.
  - specialize (IH i x y Hi Hyx). destruct (f z); simpl; lia.
Qed.

Section LoopFacts.

Context {K A P X : Type} `{EqDecision K}.
Variable key : A -> K.
Variable start : A -> Z -> P.
Variable resume : A -> P -> X -> option P.
Variable posting : P -> option string.
Variable finished : P -> bool.

Hypothesis posting_running : forall p oid, posting p = Some oid -> finished p = false.
Hypothesis finished_stuck : forall a p x, finished p = true -> resume a p x = None.

Lemma posts_le_running k oid (c : list (A * P)) :
  (EventLoop.posts_in_flight key posting k oid c
   <= EventLoop.running key finished k c)%nat.
Proof.
  apply count_le_impl. intros [a p]. unfold EventLoop.is_posting, EventLoop.is_running.
  simpl. intros H. apply andb_true_iff in H as [Hk Hp].
  rewrite Hk. simpl. apply bool_decide_eq_true_1 in Hp.
  rewrite (posting_running p oid Hp). reflexivity.
Qed.

Lemma running_fire k (c : list (A * P)) a now :
  EventLoop.running key finished k (c ++ [(a, start a now)])
  = (EventLoop.running key finished k c
     + (if EventLoop.is_running key finished k (a, start a now) then 1 else 0))%nat.
Proof.
  unfold EventLoop.running. rewrite List.filter_app, length_app. simpl.
  destruct (EventLoop.is_running _ _ _ _); reflexivity.
Qed.

Lemma running_settle k (c c' : list (A * P)) i x :
  EventLoop.step start resume c (EventLoop.Settle i x) = Some c' ->
  (EventLoop.running key finished k c' <= EventLoop.running key finished k c)%nat.
Proof.
  cbn [EventLoop.step]. intros Hstep.
  destruct (c !! i) as [[a p]|] eqn:Hi; [|discriminate Hstep].
  destruct (resume a p x) as [p'|] eqn:Hr; [|discriminate Hstep].
  injection Hstep as <-. apply (count_insert_le _ c i (a, p) (a, p') Hi).
  unfold EventLoop.is_running. simpl. intros H1.
  apply andb_true_iff in H1 as [Hk _]. rewrite Hk. simpl.
  destruct (finished p) eqn:Hf; [|reflexivity].
  rewrite (finished_stuck a p x Hf) in Hr. discriminate.
Qed.

Lemma calm_running k : forall ls (c c' : list (A * P)),
  (EventLoop.running key finished k c <= 1)%nat ->
  EventLoop.steps start resume c ls = Some c' ->
  EventLoop.calm key start resume finished k c ls ->
  (EventLoop.running key finished k c' <= 1)%nat.
Proof.
  induction ls as [|l ls IH]; intros c c' Hc Hrun Hcalm.
  - injection Hrun as <-. exact Hc.
  - cbn [EventLoop.steps] in Hrun. cbn [EventLoop.calm] in Hcalm.
    destruct Hcalm as [Hfire Hrest].
    destruct (EventLoop.step start resume c l) as [c1|] eqn:Hstep; [|discriminate].
    apply (IH c1 c'); [|exact Hrun|exact Hrest].
    destruct l as [a now|i x].
    + injection Hstep as <-. rewrite running_fire.
      unfold EventLoop.is_running. simpl.
      destruct (decide (key a = k)) as [Hk|Hk].
      * rewrite (Hfire Hk). destruct (_ && _); lia.
      * rewrite (bool_decide_eq_false_2 _ Hk). simpl. lia.
    + pose proof (running_settle k c c1 i x Hstep). lia.
Qed.

End LoopFacts.

Lemma posting_running000 p oid :
  Part000.posting p = Some oid -> Part000.finished p = false.
Proof. destruct p; simpl; congruence. Qed.

Lemma finished_stuck000 a p x :
  Part000.finished p = true -> Part000.resume a p x = None.
Proof. destruct p; simpl; try discriminate. reflexivity. Qed.

Lemma posting_running001 p oid :
  Part001.posting p = Some oid -> Part001.finished p = false.
Proof. destruct p; simpl; congruence. Qed.

Lemma finished_stuck001 a p x :
  Part001.finished p = true -> Part001.resume a p x = None.
Proof. destruct p; simpl; try discriminate. reflexivity. Qed.

(** *** One invocation on its own

    Driven by the provider's answers with nothing else running in between,
    an invocation of the event loop sends the requests of the function it
    stands for, in the same order. *)

Section Alone001.

Variable host_offset : Z -> Z.
Variable SLACK_WEBHOOK_URL : bool.
Variable toLowerCase : string -> string.
Variable post_reply : nat -> Part001.post_result.
Variable page_reply : Part001.url -> Part001.page_result.

Lemma posts_postSlack text tr :
  List.filter Part001.is_post (Part001.postSlack SLACK_WEBHOOK_URL text tr)
  = List.filter Part001.is_post tr.
Proof.
  unfold Part001.postSlack. destruct SLACK_WEBHOOK_URL; [|reflexivity].
  rewrite List.filter_app. simpl. apply app_nil_r.
Qed.

Lemma pages_loop_posts node f fuel : forall i u out tr,
  List.filter Part001.is_post
    (snd (Part001.pages_loop SLACK_WEBHOOK_URL toLowerCase page_reply node fuel i u f out tr))
  = List.filter Part001.is_post tr.
Proof.
  induction fuel as [|fuel IH]; intros i u out tr; simpl; [reflexivity|].
  destruct u as [addr|]; [|reflexivity].
  destruct (negb (i <? 10)); [reflexivity|].
  destruct (page_reply addr) as [data next|json|msg]; simpl.
  - rewrite IH, List.filter_app. simpl. apply app_nil_r.
  - rewrite posts_postSlack, List.filter_app. simpl. apply app_nil_r.
  - rewrite List.filter_app. simpl. apply app_nil_r.
Qed.

Lemma pages_loop_result node f fuel : forall i u out tr tr',
  fst (Part001.pages_loop SLACK_WEBHOOK_URL toLowerCase page_reply node fuel i u f out tr)
  = fst (Part001.pages_loop SLACK_WEBHOOK_URL toLowerCase page_reply node fuel i u f out tr').
Proof.
  induction fuel as [|fuel IH]; intros i u out tr tr'; simpl; [reflexivity|].
  destruct u as [addr|]; [|reflexivity].
  destruct (negb (i <? 10)); [reflexivity|].
  destruct (page_reply addr) as [data next|json|msg]; simpl;
    [apply IH|reflexivity|reflexivity].
Qed.

Lemma setStatusOnObjects_alone a lvl st oids : forall acc fuel,
  (2 * length oids <= fuel)%nat ->
  List.filter Part001.is_post
    (snd (foldl (Part001.setStatus_one SLACK_WEBHOOK_URL post_reply lvl st) acc oids))
  = List.filter Part001.is_post (snd acc)
    ++ Part001.run_alone SLACK_WEBHOOK_URL toLowerCase post_reply page_reply fuel a
         (Part001.next_target st oids) (Part001.posts_made (snd acc)).
Proof.
  induction oids as [|oid rest IH]; intros [results tr] fuel Hfuel.
  - simpl. destruct fuel; simpl; rewrite app_nil_r; reflexivity.
  - cbn [length] in Hfuel. destruct fuel as [|fuel]; [lia|].
    cbn [foldl Part001.next_target Part001.run_alone Part001.answer
         Part001.awaited Part001.posting Part001.resume snd].
    destruct (post_reply (Part001.posts_made tr)) as [json|json|msg] eqn:Hreply.
    + rewrite (IH _ fuel ltac:(lia)).
      unfold Part001.setStatus_one. rewrite Hreply. cbn [snd].
      rewrite posts_made_post001, List.filter_app, <- app_assoc. reflexivity.
    + destruct fuel as [|fuel]; [lia|].
      cbn [Part001.run_alone Part001.answer Part001.awaited Part001.posting
           Part001.resume app].
      rewrite (IH _ fuel ltac:(lia)).
      unfold Part001.setStatus_one. rewrite Hreply. cbn [snd].
      rewrite posts_postSlack, posts_made_postSlack, posts_made_post001,
        List.filter_app, <- app_assoc.
      reflexivity.
    + destruct fuel as [|fuel]; [lia|].
      cbn [Part001.run_alone Part001.answer Part001.awaited Part001.posting
           Part001.resume app].
      rewrite (IH _ fuel ltac:(lia)).
      unfold Part001.setStatus_one. rewrite Hreply. cbn [snd].
      rewrite posts_postSlack, posts_made_postSlack, posts_made_post001,
        List.filter_app, <- app_assoc.
      reflexivity.
Qed.

Lemma edge_callback_alone a r st tr :
  Part001.rule_of a = r ->
  exists F, forall fuel, (F <= fuel)%nat ->
    List.filter Part001.is_post
      (snd (Part001.edge_callback SLACK_WEBHOOK_URL toLowerCase post_reply page_reply
              r st tr))
    = List.filter Part001.is_post tr
      ++ Part001.run_alone SLACK_WEBHOOK_URL toLowerCase post_reply page_reply fuel a
           (Part001.begin_apply r st) (Part001.posts_made tr).
Proof.
  intros Ha.
  unfold Part001.edge_callback, Part001.begin_apply, Part001.targets_of.
  destruct (negb (Nat.eqb (length (Part001.ids r)) 0)).
  - exists (2 * length (Part001.ids r))%nat. intros fuel Hfuel. cbn [snd].
    unfold Part001.setStatusOnObjects.
    apply (setStatusOnObjects_alone _ (Part001.level r) st (Part001.ids r) ([], tr)).
    exact Hfuel.
  - unfold Part001.findTargetsByName. cbn zeta.
    set (node := Part001.node_of (Part001.level r)).
    set (first := Some (Part001.ListUrl _ _)).
    set (f := Part001.str_or (Part001.name_contains r) "").
    pose proof (pages_loop_posts node f 10 0 first [] tr) as Hposts.
    pose proof (pages_loop_result node f 10 0 first [] tr []) as Hres.
    destruct (Part001.pages_loop _ _ _ node 10 0 first f [] tr) as [res tr1] eqn:Hloop.
    cbn [fst snd] in Hposts, Hres.
    destruct res as [oids|msg].
    + exists (S (2 * length oids)). intros fuel Hfuel.
      destruct fuel as [|fuel]; [lia|].
      cbn [Part001.run_alone Part001.answer Part001.awaited Part001.posting app].
      rewrite Ha. unfold Part001.findTargetsByName. cbn zeta. fold node first f.
      rewrite <- Hres.
      cbn [Part001.resume snd]. unfold Part001.setStatusOnObjects.
      rewrite (setStatusOnObjects_alone a (Part001.level r)
                 st oids ([], tr1) fuel ltac:(lia)).
      cbn [snd]. unfold Part001.posts_made. rewrite Hposts. reflexivity.
    + exists 1%nat. intros fuel Hfuel. destruct fuel as [|fuel]; [lia|].
      cbn [Part001.run_alone Part001.answer Part001.awaited Part001.posting app].
      rewrite Ha. unfold Part001.findTargetsByName. cbn zeta. fold node first f.
      rewrite <- Hres.
      cbn [Part001.resume snd]. rewrite Hposts.
      destruct fuel; simpl; rewrite app_nil_r; reflexivity.
Qed.

Lemma callback_alone001 a now tr :
  exists F, forall fuel, (F <= fuel)%nat ->
    List.filter Part001.is_post
      (snd (match a with
            | Part001.RunEdge r st =>
                Part001.edge_callback SLACK_WEBHOOK_URL toLowerCase post_reply
                  page_reply r st tr
            | Part001.RunEnforceRule r =>
                Part001.enforceRule host_offset SLACK_WEBHOOK_URL toLowerCase
                  post_reply page_reply r now tr
            end))
    = List.filter Part001.is_post tr
      ++ Part001.run_alone SLACK_WEBHOOK_URL toLowerCase post_reply page_reply fuel a
           (Part001.start_action host_offset a now) (Part001.posts_made tr).
Proof.
  destruct a as [r st|r]; cbn [Part001.start_action].
  - apply edge_callback_alone. reflexivity.
  - apply (edge_callback_alone (Part001.RunEnforceRule r) r
             (if Part001.inActiveWindow host_offset r now then ACTIVE else PAUSED) tr).
    reflexivity.
Qed.

End Alone001.

Section Alone000.

Variable utc_offset : string -> Z -> option Z.
Variable DEFAULT_TZ : string.
Variable SLACK_WEBHOOK : bool.
Variable post_reply : nat -> option Part000.provider_error.
Variable list_reply :
  string -> string -> completion Part000.provider_error (list Part000.item).

Lemma requests_slackNotify alert tr :
  Part000.is_request alert = false ->
  List.filter Part000.is_request (Part000.slackNotify SLACK_WEBHOOK alert tr)
  = List.filter Part000.is_request tr
  /\ Part000.posts_made (Part000.slackNotify SLACK_WEBHOOK alert tr)
     = Part000.posts_made tr.
Proof.
  intros Halert. unfold Part000.slackNotify, Part000.posts_made.
  destruct SLACK_WEBHOOK; [|split; reflexivity].
  rewrite !List.filter_app. simpl. rewrite Halert.
  destruct alert; try discriminate Halert; simpl; rewrite !app_nil_r; split; reflexivity.
Qed.

Lemma setStatus_loop_alone a r desired oid rest :
  forall f3 k tr fuel F,
  k = 4 - Z.of_nat f3 -> (1 <= f3)%nat ->
  (2 * f3 + F <= fuel)%nat ->
  (forall tr' fuel', (F <= fuel')%nat ->
     List.filter Part000.is_request
       (foldl (Part000.enforce_target SLACK_WEBHOOK post_reply r desired) tr' rest)
     = List.filter Part000.is_request tr'
       ++ Part000.run_alone post_reply list_reply fuel' a
            (Part000.next_target desired rest) (Part000.posts_made tr')) ->
  List.filter Part000.is_request
    (foldl (Part000.enforce_target SLACK_WEBHOOK post_reply r desired)
       (match Part000.setStatus_loop post_reply f3 k oid desired tr with
        | (Returned _, tr1) => tr1
        | (Threw e, tr1) =>
            Part000.slackNotify SLACK_WEBHOOK
              (Part000.EvAlert (Part000.id r) (Part000.level r) oid desired e) tr1
        end) rest)
  = List.filter Part000.is_request tr
    ++ Part000.run_alone post_reply list_reply fuel a
         (Part000.AwaitPost desired oid k rest) (Part000.posts_made tr).
Proof.
  induction f3 as [|f3 IH]; intros k tr fuel F Hk Hf3 Hfuel Hrest; [lia|].
  cbn [Part000.setStatus_loop].
  replace (k <=? 3) with true by (symmetry; apply Z.leb_le; lia).
  cbn [negb].
  destruct fuel as [|fuel]; [lia|].
  cbn [Part000.run_alone Part000.answer Part000.awaited Part000.posting Part000.resume].
  destruct (post_reply (Part000.posts_made tr)) as [e|] eqn:Hreply.
  - destruct ((k <? 3) && Part000.transient (Part000.code e)) eqn:Hretry.
    + apply andb_true_iff in Hretry as [Hk3 _]. apply Z.ltb_lt in Hk3.
      destruct fuel as [|fuel]; [lia|].
      cbn [Part000.run_alone Part000.answer Part000.awaited Part000.posting
           Part000.resume].
      rewrite (IH (k + 1) _ fuel F ltac:(lia) ltac:(lia) ltac:(lia) Hrest).
      rewrite posts_made_sleep, posts_made_post, !List.filter_app.
      simpl. rewrite <- !app_assoc. reflexivity.
    + destruct fuel as [|fuel]; [lia|].
      cbn [Part000.run_alone Part000.answer Part000.awaited Part000.posting
           Part000.resume app].
      rewrite (Hrest _ fuel ltac:(lia)).
      destruct (requests_slackNotify
                  (Part000.EvAlert (Part000.id r) (Part000.level r) oid desired
                     (Part000.AxiosError e))
                  (tr ++ [Part000.EvPost oid desired]) eq_refl) as [-> ->].
      rewrite posts_made_post, List.filter_app. simpl.
      rewrite <- app_assoc. reflexivity.
  - rewrite (Hrest _ fuel ltac:(lia)).
    rewrite posts_made_post, List.filter_app. simpl.
    rewrite <- app_assoc. reflexivity.
Qed.

Lemma targets_alone a r desired targets : forall tr fuel,
  (6 * length targets <= fuel)%nat ->
  List.filter Part000.is_request
    (foldl (Part000.enforce_target SLACK_WEBHOOK post_reply r desired) tr targets)
  = List.filter Part000.is_request tr
    ++ Part000.run_alone post_reply list_reply fuel a
         (Part000.next_target desired targets) (Part000.posts_made tr).
Proof.
  induction targets as [|oid rest IH]; intros tr fuel Hfuel.
  - simpl. destruct fuel; simpl; rewrite app_nil_r; reflexivity.
  - cbn [foldl Part000.next_target]. unfold Part000.enforce_target at 2.
    unfold Part000.setStatus. cbn [length] in Hfuel.
    apply (setStatus_loop_alone a r desired oid rest 3 1 tr fuel (6 * length rest));
      [reflexivity|lia|lia|].
    intros tr' fuel' Hfuel'. apply IH. exact Hfuel'.
Qed.

Lemma posts_made_get tr account node :
  Part000.posts_made (tr ++ [Part000.EvGet account node]) = Part000.posts_made tr.
Proof.
  unfold Part000.posts_made. rewrite List.filter_app, length_app. simpl. lia.
Qed.

Lemma enforce_alone a r desired now tr :
  Part000.rule_of a = r ->
  exists F, forall fuel, (F <= fuel)%nat ->
    List.filter Part000.is_request
      (snd (Part000.enforce utc_offset SLACK_WEBHOOK post_reply list_reply
              r desired now tr))
    = List.filter Part000.is_request tr
      ++ Part000.run_alone post_reply list_reply fuel a
           (Part000.begin_enforce utc_offset r desired now) (Part000.posts_made tr).
Proof.
  intros Ha.
  unfold Part000.enforce, Part000.begin_enforce.
  destruct (Part000.local_weekday utc_offset (Part000.timezone r) now) as [dow|].
  2:{ exists 0%nat. intros fuel _. destruct fuel; simpl; rewrite app_nil_r; reflexivity. }
  destruct (negb (Js.includes_str (Part000.days_of_week r) dow)).
  { exists 0%nat. intros fuel _. destruct fuel; simpl; rewrite app_nil_r; reflexivity. }
  unfold Part000.getTargets.
  destruct (Part000.target_ids r) as [|t0 ts] eqn:Hids; cbn [length Nat.eqb negb].
  - destruct (bool_decide (default "" (Part000.name_filter r) = "")).
    + exists 1%nat. intros fuel Hfuel. destruct fuel as [|fuel]; [lia|].
      cbn [snd Part000.run_alone Part000.answer Part000.awaited Part000.posting
           Part000.resume Part000.next_target app].
      destruct fuel; simpl; rewrite app_nil_r; reflexivity.
    + unfold Part000.fetchByNameFilter at 1.
      set (get := Part000.EvGet _ _).
      destruct (list_reply (Part000.account_id r)
                  (Part000.node_of (Part000.level r))) as [data|e] eqn:Hlist.
      * set (targets := map Part000.item_id _).
        exists (S (6 * length targets)). intros fuel Hfuel.
        destruct fuel as [|fuel]; [lia|].
        cbn [Part000.run_alone Part000.answer Part000.awaited Part000.posting].
        rewrite Ha. unfold Part000.fetchByNameFilter. rewrite Hlist. cbn [fst].
        fold targets. fold get. cbn [Part000.resume].
        destruct targets as [|t1 ts1] eqn:Htargets; cbn [length Nat.eqb snd].
        -- rewrite List.filter_app. simpl.
           destruct fuel; simpl; reflexivity.
        -- rewrite (targets_alone a r desired (t1 :: ts1) (tr ++ [get]) fuel
                      ltac:(cbn [length] in *; lia)).
           unfold get at 2. rewrite posts_made_get, List.filter_app.
           simpl. rewrite <- app_assoc. reflexivity.
      * exists 1%nat. intros fuel Hfuel. destruct fuel as [|fuel]; [lia|].
        cbn [snd Part000.run_alone Part000.answer Part000.awaited Part000.posting].
        rewrite Ha. unfold Part000.fetchByNameFilter. rewrite Hlist. cbn [fst].
        fold get. cbn [Part000.resume]. rewrite List.filter_app. simpl.
        destruct fuel; simpl; reflexivity.
  - exists (S (6 * length (t0 :: ts))). intros fuel Hfuel.
    destruct fuel as [|fuel]; [lia|].
    cbn [snd Part000.run_alone Part000.answer Part000.awaited Part000.posting
         Part000.resume app].
    rewrite (targets_alone a r desired (t0 :: ts) tr fuel ltac:(lia)).
    reflexivity.
Qed.

Lemma callback_alone000 a now tr :
  exists F, forall fuel, (F <= fuel)%nat ->
    List.filter Part000.is_request
      (snd (match a with
            | Part000.RunEnforce r desired =>
                Part000.enforce utc_offset SLACK_WEBHOOK post_reply list_reply
                  r desired now tr
            | Part000.RunPeriodic r =>
                Part000.periodicEnforce utc_offset DEFAULT_TZ SLACK_WEBHOOK post_reply
                  list_reply r now now tr
            end))
    = List.filter Part000.is_request tr
      ++ Part000.run_alone post_reply list_reply fuel a
           (Part000.start_action utc_offset DEFAULT_TZ a now) (Part000.posts_made tr).
Proof.
  destruct a as [r desired|r]; cbn [Part000.start_action].
  - apply enforce_alone. reflexivity.
  - unfold Part000.periodicEnforce.
    destruct (Part000.periodic_desired utc_offset DEFAULT_TZ r now) as [desired|].
    + apply enforce_alone. reflexivity.
    + exists 0%nat. intros fuel _. destruct fuel; simpl; rewrite app_nil_r; reflexivity.
Qed.

End Alone000.

(** C6 (as amended).  Neither server holds a trigger back while an earlier
    invocation for the same rule is running: every fire starts an invocation
    at once, whatever is in flight.  What holds in both is that an
    invocation awaits at most one status POST at a time, so the POSTs to an
    object in flight for a rule never outnumber the rule's running
    invocations; and in a run in which no trigger of a rule fires while an
    invocation of that rule is running, at most one invocation of the rule
    runs and at most one POST to any object is in flight for it. *)
Theorem enforcement_overlap :
  (forall utc_offset DEFAULT_TZ,
      let start := Part000.start_action utc_offset DEFAULT_TZ in
      (forall c a now,
          EventLoop.step start Part000.resume c (EventLoop.Fire a now)
          = Some (c ++ [(a, start a now)]))
      /\ (forall ls c rid oid,
            EventLoop.steps start Part000.resume [] ls = Some c ->
            (EventLoop.posts_in_flight Part000.key Part000.posting rid oid c
             <= EventLoop.running Part000.key Part000.finished rid c)%nat
            /\ (EventLoop.calm Part000.key start Part000.resume Part000.finished
                  rid [] ls ->
                (EventLoop.running Part000.key Part000.finished rid c <= 1)%nat
                /\ (EventLoop.posts_in_flight Part000.key Part000.posting rid oid c
                    <= 1)%nat)))
  /\ (forall host_offset,
      let start := Part001.start_action host_offset in
      (forall c a now,
          EventLoop.step start Part001.resume c (EventLoop.Fire a now)
          = Some (c ++ [(a, start a now)]))
      /\ (forall ls c rid oid,
            EventLoop.steps start Part001.resume [] ls = Some c ->
            (EventLoop.posts_in_flight Part001.key Part001.posting rid oid c
             <= EventLoop.running Part001.key Part001.finished rid c)%nat
            /\ (EventLoop.calm Part001.key start Part001.resume Part001.finished
                  rid [] ls ->
                (EventLoop.running Part001.key Part001.finished rid c <= 1)%nat
                /\ (EventLoop.posts_in_flight Part001.key Part001.posting rid oid c
                    <= 1)%nat))).
Proof.
  split.
  - intros utc_offset zone start. split; [reflexivity|].
    intros ls c rid oid Hrun.
    pose proof (posts_le_running Part000.key Part000.posting Part000.finished
                  posting_running000 rid oid c) as Hle.
    split; [exact Hle|]. intros Hcalm.
    pose proof (calm_running Part000.key start Part000.resume Part000.finished
                  finished_stuck000 rid ls [] c
                  ltac:(unfold EventLoop.running; simpl; lia) Hrun Hcalm) as H1.
    split; [exact H1|exact (Nat.le_trans _ _ _ Hle H1)].
  - intros host_offset start. split; [reflexivity|].
    intros ls c rid oid Hrun.
    pose proof (posts_le_running Part001.key Part001.posting Part001.finished
                  posting_running001 rid oid c) as Hle.
    split; [exact Hle|]. intros Hcalm.
    pose proof (calm_running Part001.key start Part001.resume Part001.finished
                  finished_stuck001 rid ls [] c
                  ltac:(unfold EventLoop.running; simpl; lia) Hrun Hcalm) as H1.
    split; [exact H1|exact (Nat.le_trans _ _ _ Hle H1)].
Qed.

Example overlap_state :
  EventLoop.steps (Part000.start_action Scenario.zones "UTC") Part000.resume []
    Scenario.overlap000
  = Some [ (Part000.RunEnforce Scenario.night000 PAUSED,
            Part000.AwaitPost PAUSED "a" 1 ["b"]);
           (Part000.RunPeriodic Scenario.night000,
            Part000.AwaitPost PAUSED "a" 1 ["b"]) ].
Proof. reflexivity. Qed.

(** C6, as stated, fails: when the stop trigger and the reconciliation
    trigger of a rule fire in the same minute, two invocations of the rule
    run together and both await a status POST to the same object. *)
Lemma two_triggers_overlap :
  ~ (forall ls c rid oid,
        EventLoop.steps (Part000.start_action Scenario.zones "UTC") Part000.resume [] ls
        = Some c ->
        (EventLoop.posts_in_flight Part000.key Part000.posting rid oid c <= 1)%nat).
Proof.
  intros H.
  specialize (H Scenario.overlap000 _ 1%Z "a" eq_refl).
  vm_compute in H. lia.
Qed.

Lemma enforcement_overlap_witness :
  (EventLoop.running Part000.key Part000.finished 1%Z
     [ (Part000.RunEnforce Scenario.night000 PAUSED, Part000.Done);
       (Part000.RunPeriodic Scenario.night000,
        Part000.AwaitPost PAUSED "a" 1%Z ["b"]) ]
   <= 1)%nat
  /\ (EventLoop.running Part001.key Part001.finished "r_1"
        [ (Part001.RunEdge Scenario.night001 PAUSED, Part001.Done);
          (Part001.RunEnforceRule Scenario.night001, Part001.AwaitPost PAUSED "a" ["b"]) ]
      <= 1)%nat.
Proof.
  destruct enforcement_overlap as [H0 H1]. split.
  - destruct (H0 Scenario.zones "UTC") as [_ Hrun].
    destruct (Hrun Scenario.calm000 _ 1%Z "a" eq_refl) as [_ H].
    apply H. simpl. repeat split; intros _; vm_compute; reflexivity.
  - destruct (H1 (fun _ => 0)) as [_ Hrun].
    destruct (Hrun Scenario.calm001 _ "r_1" "a" eq_refl) as [_ H].
    apply H. simpl. repeat split; intros _; vm_compute; reflexivity.
Defined.

(** * Further properties: runs, registry and request handlers *)

(** ** Runs of [enforce] *)

Section Run000.

Variable utc_offset : string -> Z -> option Z.
Variable DEFAULT_TZ : string.
Variable SLACK_WEBHOOK : bool.
Variable post_reply : nat -> option Part000.provider_error.

Lemma enforce_target_segment r desired tr oid :
  exists seg k,
    Part000.enforce_target SLACK_WEBHOOK post_reply r desired tr oid = tr ++ seg
    /\ (1 <= k <= 3)%nat
    /\ List.filter Part000.is_post seg = replicate k (Part000.EvPost oid desired)
    /\ (Trace000.alerted seg = [] \/ (SLACK_WEBHOOK = true /\ Trace000.alerted seg = [oid]))
    /\ forallb Trace000.is_apply seg = true.
Proof.
  unfold Part000.enforce_target, Part000.setStatus, Part000.slackNotify.
  cbn [Part000.setStatus_loop].
  change (1 <=? 3) with true. change (1 <? 3) with true.
  change (1 + 1 <=? 3) with true. change (1 + 1 <? 3) with true.
  change (1 + 1 + 1 <=? 3) with true. change (1 + 1 + 1 <? 3) with false.
  cbn [negb andb].
  repeat match goal with
         | |- context [post_reply ?n] => destruct (post_reply n) as [?e|]
         | |- context [Part000.transient ?c] => destruct (Part000.transient c)
         end;
    destruct SLACK_WEBHOOK; rewrite <- ?app_assoc; cbn [app];
    eexists; (first [ exists 1%nat; split; [reflexivity|]; split; [lia|];
                      split; [reflexivity|]; split; [auto|reflexivity]
                    | exists 2%nat; split; [reflexivity|]; split; [lia|];
                      split; [reflexivity|]; split; [auto|reflexivity]
                    | exists 3%nat; split; [reflexivity|]; split; [lia|];
                      split; [reflexivity|]; split; [auto|reflexivity] ]).
Qed.

Lemma enforce_targets_segment r desired targets : forall tr,
  exists tr2 ks,
    foldl (Part000.enforce_target SLACK_WEBHOOK post_reply r desired) tr targets
    = tr ++ tr2
    /\ length ks = length targets
    /\ Forall (fun k => 1 <= k <= 3)%nat ks
    /\ List.filter Part000.is_post tr2 = Trace000.bursts desired targets ks
    /\ Trace000.alerted tr2 `sublist_of` targets
    /\ (SLACK_WEBHOOK = false -> Trace000.alerted tr2 = [])
    /\ forallb Trace000.is_apply tr2 = true.
Proof.
  induction targets as [|oid rest IH]; intros tr.
  - exists [], []. rewrite app_nil_r. repeat split; first [done | constructor].
  - cbn [foldl].
    destruct (enforce_target_segment r desired tr oid)
      as (seg & k & -> & Hk & Hposts & Halert & Happly).
    destruct (IH (tr ++ seg)) as (tr2 & ks & -> & Hlen & Hks & Hp2 & Hsub & Hoff & Ha2).
    exists (seg ++ tr2), (k :: ks).
    rewrite <- app_assoc. split; [reflexivity|].
    split; [cbn [length]; congruence|].
    split; [constructor; assumption|].
    split.
    { rewrite List.filter_app, Hposts, Hp2. reflexivity. }
    unfold Trace000.alerted in *. rewrite flat_map_app.
    split; [|split].
    + destruct Halert as [->|[_ ->]]; cbn [app].
      * apply sublist_cons. exact Hsub.
      * apply sublist_skip. exact Hsub.
    + intros Hflag. rewrite (Hoff Hflag).
      destruct Halert as [->|[Hon _]]; [reflexivity|congruence].
    + rewrite forallb_app, Happly, Ha2. reflexivity.
Qed.

(** The loop over the targets sends no listing request and writes no
    [last_run]. *)
Lemma apply_events seg :
  forallb Trace000.is_apply seg = true ->
  List.filter Trace000.is_get seg = [] /\ List.filter Trace000.is_last_run seg = [].
Proof.
  induction seg as [|e seg IH]; [split; reflexivity|].
  cbn [forallb]. intros [He Hseg]%andb_prop. destruct (IH Hseg) as [IH1 IH2].
  destruct e; try discriminate He; cbn; auto.
Qed.

Lemma bursts_post desired oid rest k ks :
  (1 <= k)%nat ->
  existsb Part000.is_post (Trace000.bursts desired (oid :: rest) (k :: ks)) = true.
Proof.
  intros Hk. unfold Trace000.bursts. cbn [zip_with concat].
  destruct k as [|k]; [lia|]. reflexivity.
Qed.

Lemma existsb_filter {T} (f : T -> bool) l :
  existsb f l = existsb f (List.filter f l).
Proof.
  induction l as [|x l IH]; [reflexivity|]. cbn [existsb List.filter].
  destruct (f x) eqn:E; cbn [existsb]; rewrite ?E; cbn [orb];
    [reflexivity|exact IH].
Qed.

Lemma existsb_filter_nil {T} (f : T -> bool) l :
  List.filter f l = [] -> existsb f l = false.
Proof. intros H. rewrite existsb_filter, H. reflexivity. Qed.

Section Listing.

Variable list_reply :
  string -> string -> completion Part000.provider_error (list Part000.item).

Lemma getTargets_trace r tr :
  snd (Part000.getTargets list_reply r tr) = tr
  \/ snd (Part000.getTargets list_reply r tr)
     = tr ++ [Part000.EvGet (Part000.account_id r) (Part000.node_of (Part000.level r))].
Proof.
  unfold Part000.getTargets, Part000.fetchByNameFilter.
  destruct (negb _); [left; reflexivity|].
  destruct (bool_decide _); [left; reflexivity|].
  destruct (list_reply _ _); right; reflexivity.
Qed.

(** X1.  On a listed day, with a target list that is not empty, [enforce]
    sends, for each target in turn, between one and three status POSTs with
    the desired state, and nothing but POSTs, sleeps and alerts; it alerts
    for some of the targets at most, for none when no webhook is
    configured.  The run then ends by throwing: the statement that would
    write [last_run] is refused, and nothing is written. *)
Theorem enforce_reaches_every_target r desired now tr dow targets tr1 :
  Part000.local_weekday utc_offset (Part000.timezone r) now = Some dow ->
  Js.includes_str (Part000.days_of_week r) dow = true ->
  Part000.getTargets list_reply r tr = (Returned targets, tr1) ->
  targets <> [] ->
  exists tr2 ks,
    Part000.enforce utc_offset SLACK_WEBHOOK post_reply list_reply r desired now tr
    = (Threw Part000.SqliteError, tr1 ++ tr2)
    /\ length ks = length targets
    /\ Forall (fun k => 1 <= k <= 3)%nat ks
    /\ List.filter Part000.is_post tr2 = Trace000.bursts desired targets ks
    /\ Trace000.alerted tr2 `sublist_of` targets
    /\ (SLACK_WEBHOOK = false -> Trace000.alerted tr2 = [])
    /\ forallb Trace000.is_apply tr2 = true.
Proof.
  intros Hdow Hday Hget Hne.
  destruct (enforce_targets_segment r desired targets tr1)
    as (tr2 & ks & Hloop & Hrest).
  exists tr2, ks. split; [|exact Hrest].
  unfold Part000.enforce. rewrite Hdow, Hday, Hget. cbn [negb].
  destruct targets as [|t0 ts]; [contradiction|].
  cbn [length Nat.eqb]. rewrite Hloop. reflexivity.
Qed.

(** X13.  [enforce] only appends to the trace and never writes
    [last_run].  A run ends with the error of the [last_run] statement
    exactly when it sent a status POST; a run that sent none returns, or
    throws what the zone check or the listing threw. *)
Theorem last_run_never_written r desired now tr :
  let out := Part000.enforce utc_offset SLACK_WEBHOOK post_reply list_reply
               r desired now tr in
  exists ext,
    snd out = tr ++ ext
    /\ existsb Trace000.is_last_run ext = false
    /\ (existsb Part000.is_post ext = true <-> fst out = Threw Part000.SqliteError)
    /\ (existsb Part000.is_post ext = false ->
        fst out = Returned tt \/ fst out = Threw Part000.RangeError
        \/ exists e, fst out = Threw (Part000.AxiosError e)).
Proof.
  cbn zeta. unfold Part000.enforce.
  destruct (Part000.local_weekday _ _ _) as [dow|];
    [|exists []; rewrite app_nil_r; cbn [fst snd existsb];
      split; [reflexivity|split; [reflexivity|split; [split; discriminate|auto]]]].
  destruct (negb _);
    [exists []; rewrite app_nil_r; cbn [fst snd existsb];
     split; [reflexivity|split; [reflexivity|split; [split; discriminate|auto]]]|].
  pose proof (getTargets_trace r tr) as Htr.
  assert (Herr : forall e, fst (Part000.getTargets list_reply r tr) = Threw e ->
                           exists x, e = Part000.AxiosError x).
  { unfold Part000.getTargets, Part000.fetchByNameFilter.
    destruct (negb _); [discriminate|]. destruct (bool_decide _); [discriminate|].
    destruct (list_reply _ _); [discriminate|]. intros e0 [= <-]. eauto. }
  destruct (Part000.getTargets list_reply r tr) as [[targets|e] tr1]; cbn [fst snd] in *.
  - destruct targets as [|oid rest]; cbn [length Nat.eqb fst snd].
    + destruct Htr as [->| ->];
        [exists []; rewrite app_nil_r|eexists];
        (split; [reflexivity|]); cbn [existsb Trace000.is_last_run Part000.is_post orb];
        (split; [reflexivity|split; [split; discriminate|auto]]).
    + destruct (enforce_targets_segment r desired (oid :: rest) tr1)
        as (tr2 & ks & -> & Hlen & Hks & Hposts & _ & _ & Happly).
      destruct ks as [|k ks]; [discriminate Hlen|].
      apply Forall_cons in Hks as [Hk _].
      destruct (apply_events tr2 Happly) as [Hget Hlast].
      assert (Hsent : existsb Part000.is_post tr2 = true).
      { rewrite existsb_filter, Hposts. apply bursts_post. lia. }
      assert (Hpre : exists pre, tr1 = tr ++ pre
                                 /\ existsb Trace000.is_last_run pre = false).
      { destruct Htr as [->| ->]; [exists []; rewrite app_nil_r; auto|].
        eexists. split; reflexivity. }
      destruct Hpre as (pre & -> & Hpre1).
      exists (pre ++ tr2).
      rewrite <- !app_assoc. split; [reflexivity|].
      rewrite !existsb_app, Hsent, Hpre1, orb_true_r. cbn [orb].
      split; [apply existsb_filter_nil; exact Hlast|].
      split; [split; reflexivity|discriminate].
  - destruct (Herr e eq_refl) as [x ->].
    destruct Htr as [->| ->];
      [exists []; rewrite app_nil_r|eexists];
      (split; [reflexivity|]); cbn [existsb Trace000.is_last_run Part000.is_post orb];
      (split; [reflexivity|split; [split; discriminate|eauto]]).
Qed.

(** X12.  A rule whose [timezone] is not a zone name is inert: [enforce]
    throws a [RangeError] before any request, and so does
    [periodicEnforce], whatever [DEFAULT_TZ] is, because [enforce] reads
    [rule.timezone] without the fallback. *)
Theorem refused_zone_is_inert r :
  (forall now, utc_offset (Part000.timezone r) now = None) ->
  forall desired now now' tr,
    Part000.enforce utc_offset SLACK_WEBHOOK post_reply list_reply r desired now tr
    = (Threw Part000.RangeError, tr)
    /\ Part000.periodicEnforce utc_offset DEFAULT_TZ SLACK_WEBHOOK post_reply list_reply
         r now now' tr
       = (Threw Part000.RangeError, tr)
    /\ Part000.start_action utc_offset DEFAULT_TZ (Part000.RunEnforce r desired) now
       = Part000.Done.
Proof.
  intros Hzone desired now now' tr.
  assert (Henf : forall d t,
    Part000.enforce utc_offset SLACK_WEBHOOK post_reply list_reply r d t tr
    = (Threw Part000.RangeError, tr)).
  { intros d t. unfold Part000.enforce, Part000.local_weekday.
    rewrite Hzone. reflexivity. }
  split; [apply Henf|]. split.
  - unfold Part000.periodicEnforce.
    destruct (Part000.periodic_desired _ _ _ _); [apply Henf|reflexivity].
  - cbn [Part000.start_action]. unfold Part000.begin_enforce, Part000.local_weekday.
    rewrite Hzone. reflexivity.
Qed.

End Listing.

Lemma explicit_ids_skip_listing000 list_reply list_reply' r desired now tr :
  Part000.target_ids r <> [] ->
  let out := Part000.enforce utc_offset SLACK_WEBHOOK post_reply list_reply
               r desired now tr in
  out = Part000.enforce utc_offset SLACK_WEBHOOK post_reply list_reply' r desired now tr
  /\ List.filter Trace000.is_get (snd out) = List.filter Trace000.is_get tr.
Proof.
  intros Hids out. subst out. unfold Part000.enforce, Part000.getTargets.
  destruct (Part000.target_ids r) as [|oid rest] eqn:E; [contradiction|].
  cbn [length Nat.eqb negb]. split; [reflexivity|].
  destruct (Part000.local_weekday _ _ _); [|reflexivity].
  destruct (negb _); [reflexivity|]. cbn [snd].
  destruct (enforce_targets_segment r desired (oid :: rest) tr)
    as (tr2 & ks & -> & _ & _ & _ & _ & _ & Happly).
  destruct (apply_events tr2 Happly) as [Hget _].
  rewrite !List.filter_app, Hget. rewrite !app_nil_r. reflexivity.
Qed.

End Run000.

Lemma enforce_reaches_every_target_witness :
  exists tr2 ks,
    Part000.enforce Scenario.zones false Scenario.flaky000 Scenario.summer_page
      Scenario.night000 PAUSED Scenario.monday_2200 []
    = (Threw Part000.SqliteError, [] ++ tr2)
    /\ length ks = length ["a"; "b"]
    /\ Forall (fun k => 1 <= k <= 3)%nat ks
    /\ List.filter Part000.is_post tr2 = Trace000.bursts PAUSED ["a"; "b"] ks
    /\ Trace000.alerted tr2 `sublist_of` ["a"; "b"]
    /\ (false = false -> Trace000.alerted tr2 = [])
    /\ forallb Trace000.is_apply tr2 = true.
Proof.
  apply (enforce_reaches_every_target Scenario.zones false Scenario.flaky000
           Scenario.summer_page Scenario.night000 PAUSED Scenario.monday_2200 []
           "Mon" ["a"; "b"] []);
    [reflexivity|reflexivity|reflexivity|discriminate].
Defined.

Lemma refused_zone_is_inert_witness :
  Part000.enforce Scenario.zones false Scenario.flaky000 Scenario.summer_page
    (Cases.with_timezone "" Scenario.night000) PAUSED Scenario.monday_2200 []
  = (Threw Part000.RangeError, [])
  /\ Part000.periodicEnforce Scenario.zones "UTC" false Scenario.flaky000
       Scenario.summer_page (Cases.with_timezone "" Scenario.night000)
       Scenario.monday_2200 Scenario.monday_2200 []
     = (Threw Part000.RangeError, [])
  /\ Part000.start_action Scenario.zones "UTC"
       (Part000.RunEnforce (Cases.with_timezone "" Scenario.night000) PAUSED)
       Scenario.monday_2200
     = Part000.Done.
Proof.
  apply (refused_zone_is_inert Scenario.zones "UTC" false Scenario.flaky000
           Scenario.summer_page (Cases.with_timezone "" Scenario.night000)).
  intros now. reflexivity.
Defined.

(** ** Runs of [setStatusOnObjects] and of the callbacks that call it *)

Section Run001.

Variable SLACK_WEBHOOK_URL : bool.
Variable post_reply : nat -> Part001.post_result.

(** X3.  [setStatusOnObjects] never throws: it returns one result per
    object, in the order of the objects and made from the answer to that
    object's POST; it sends exactly one status POST per object, in order;
    with a webhook it posts one alert per failure, without one none; and it
    sends no listing request. *)
Theorem setStatusOnObjects_one_result_each lvl oids st tr :
  let out := Part001.setStatusOnObjects SLACK_WEBHOOK_URL post_reply lvl oids st tr in
  fst out
  = imap (fun i oid =>
            Trace001.result_of oid (post_reply (Part001.posts_made tr + i)%nat)) oids
  /\ map Trace001.result_id (fst out) = oids
  /\ List.filter Part001.is_post (snd out)
     = List.filter Part001.is_post tr ++ map (fun oid => Part001.EvPost oid st) oids
  /\ length (List.filter Trace001.is_slack (snd out))
     = (length (List.filter Trace001.is_slack tr)
        + if SLACK_WEBHOOK_URL
          then length (List.filter Trace001.is_failure (fst out)) else 0)%nat
  /\ Part001.fetches (snd out) = Part001.fetches tr.
Proof.
  cbn zeta. unfold Part001.setStatusOnObjects.
  destruct (setStatusOnObjects_fold SLACK_WEBHOOK_URL post_reply lvl st oids [] tr)
    as (H1 & H2 & H3 & H4).
  cbn [app] in H1. rewrite H1.
  split; [reflexivity|].
  split; [apply result_id_imap|split; [exact H2|split; [exact H3|exact H4]]].
Qed.

End Run001.

Lemma setStatusOnObjects_trace flag post_reply lvl st oids : forall results tr,
  let out := foldl (Part001.setStatus_one flag post_reply lvl st) (results, tr) oids in
  List.filter Part001.is_post (snd out)
  = List.filter Part001.is_post tr ++ map (fun oid => Part001.EvPost oid st) oids
  /\ Part001.fetches (snd out) = Part001.fetches tr.
Proof.
  induction oids as [|oid rest IH]; intros results tr; cbn zeta.
  - cbn [foldl snd map]. rewrite app_nil_r. split; reflexivity.
  - cbn [foldl map].
    destruct (Part001.setStatus_one flag post_reply lvl st (results, tr) oid)
      as [results' tr'] eqn:Hone.
    assert (Htr' : List.filter Part001.is_post tr'
                   = List.filter Part001.is_post tr ++ [Part001.EvPost oid st]
                   /\ Part001.fetches tr' = Part001.fetches tr).
    { unfold Part001.setStatus_one, Part001.postSlack, Part001.fetches in *.
      destruct (post_reply _), flag; injection Hone as _ <-;
        rewrite ?List.filter_app; cbn; rewrite ?app_nil_r, ?length_app; cbn;
        split; first [reflexivity | lia]. }
    destruct Htr' as [Hp Hf]. destruct (IH results' tr') as [IH1 IH2].
    rewrite IH1, IH2, Hp, Hf, <- app_assoc. split; reflexivity.
Qed.

(** X2.  A rule with explicit ids never asks for the listing.  In the
    SQLite server [enforce] is the same whatever the listing would answer,
    and its trace gains no GET.  In the JSON-file server [enforceRule] and
    the two edge callbacks are the same whatever the listing would answer;
    they return, fetch nothing, and send one status POST per explicit id,
    in order. *)
Theorem explicit_ids_skip_listing :
  (forall utc_offset SLACK_WEBHOOK post_reply list_reply list_reply' r desired now tr,
      Part000.target_ids r <> [] ->
      let out := Part000.enforce utc_offset SLACK_WEBHOOK post_reply list_reply
                   r desired now tr in
      out = Part000.enforce utc_offset SLACK_WEBHOOK post_reply list_reply'
              r desired now tr
      /\ List.filter Trace000.is_get (snd out) = List.filter Trace000.is_get tr)
  /\ (forall host_offset SLACK_WEBHOOK_URL toLowerCase post_reply page_reply page_reply'
        r now tr st,
      Part001.ids r <> [] ->
      let run := Part001.enforceRule host_offset SLACK_WEBHOOK_URL toLowerCase post_reply
                   page_reply r now tr in
      let edge := Part001.edge_callback SLACK_WEBHOOK_URL toLowerCase post_reply
                    page_reply r st tr in
      run = Part001.enforceRule host_offset SLACK_WEBHOOK_URL toLowerCase post_reply
              page_reply' r now tr
      /\ edge = Part001.edge_callback SLACK_WEBHOOK_URL toLowerCase post_reply
                  page_reply' r st tr
      /\ fst run = Returned tt /\ fst edge = Returned tt
      /\ Part001.fetches (snd run) = Part001.fetches tr
      /\ Part001.fetches (snd edge) = Part001.fetches tr
      /\ List.filter Part001.is_post (snd run)
         = List.filter Part001.is_post tr
           ++ map (fun oid =>
                     Part001.EvPost oid
                       (if Part001.inActiveWindow host_offset r now
                        then ACTIVE else PAUSED))
                (Part001.ids r)
      /\ List.filter Part001.is_post (snd edge)
         = List.filter Part001.is_post tr
           ++ map (fun oid => Part001.EvPost oid st) (Part001.ids r)).
Proof.
  split.
  - intros utc_offset flag post_reply list_reply list_reply' r desired now tr Hids.
    apply explicit_ids_skip_listing000. exact Hids.
  - intros host_offset flag toLowerCase post_reply page_reply page_reply' r now tr st
      Hids run edge. subst run edge.
    unfold Part001.enforceRule, Part001.edge_callback, Part001.targets_of.
    destruct (Part001.ids r) as [|oid rest] eqn:E; [contradiction|].
    cbn [length Nat.eqb negb fst]. unfold Part001.setStatusOnObjects.
    destruct (setStatusOnObjects_trace flag post_reply (Part001.level r)
                (if Part001.inActiveWindow host_offset r now then ACTIVE else PAUSED)
                (oid :: rest) [] tr) as [Hp1 Hf1].
    destruct (setStatusOnObjects_trace flag post_reply (Part001.level r) st
                (oid :: rest) [] tr) as [Hp2 Hf2].
    cbn [snd].
    split; [reflexivity|]. split; [reflexivity|]. split; [reflexivity|].
    split; [reflexivity|]. split; [exact Hf1|]. split; [exact Hf2|].
    split; [exact Hp1|exact Hp2].
Qed.

(** ** Substrings *)

Lemma prefix_spec sub : forall s,
  String.prefix sub s = true <-> exists b, s = sub +:+ b.
Proof.
  induction sub as [|c sub IH]; intros s.
  - split; [intros _; exists s; reflexivity|intros _; destruct s; reflexivity].
  - destruct s as [|d s]; simpl.
    + split; [discriminate|intros [b Hb]; discriminate Hb].
    + destruct (Ascii.ascii_dec c d) as [->|Hne].
      * rewrite IH. split.
        -- intros [b ->]. exists b. reflexivity.
        -- intros [b Hb]. exists b. cbn [String.append] in Hb.
           injection Hb as Hb. exact Hb.
      * split; [discriminate|]. intros [b Hb]. cbn [String.append] in Hb.
        injection Hb as Hc _. congruence.
Qed.

Lemma includes_spec sub : forall s,
  includes s sub = true <-> exists a b, s = a +:+ sub +:+ b.
Proof.
  induction s as [|c s IH]; cbn [includes].
  - rewrite orb_false_r, prefix_spec. split.
    + intros [b Hb]. exists "", b. exact Hb.
    + intros (a & b & Hab). destruct a as [|x a]; [exists b; exact Hab|].
      discriminate Hab.
  - rewrite orb_true_iff, prefix_spec, IH. split.
    + intros [[b Hb]|(a & b & Hab)].
      * exists "", b. exact Hb.
      * exists (String c a), b. cbn [String.append]. rewrite Hab. reflexivity.
    + intros (a & b & Hab). destruct a as [|x a]; cbn [String.append] in Hab.
      * left. exists b. exact Hab.
      * right. exists a, b. injection Hab as _ Hab. exact Hab.
Qed.

Lemma filter_sublist {T} (f : T -> bool) (l : list T) : List.filter f l `sublist_of` l.
Proof.
  induction l as [|x l IH]; simpl; [constructor|].
  destruct (f x); [apply sublist_skip|apply sublist_cons]; exact IH.
Qed.

Lemma elem_of_map_filter {T U} (g : T -> U) (f : T -> bool) (l : list T) y :
  y ∈ map g (List.filter f l) <-> exists x, x ∈ l /\ f x = true /\ g x = y.
Proof.
  rewrite list_elem_of_In, in_map_iff. split.
  - intros (x & Hg & Hin). apply filter_In in Hin as [Hin Hf].
    exists x. rewrite list_elem_of_In. auto.
  - intros (x & Hin & Hf & Hg). exists x. split; [exact Hg|].
    apply filter_In. rewrite <- list_elem_of_In. auto.
Qed.

(** X4.  What the name filter selects.  [fetchByNameFilter] returns the
    ids, in listing order, of exactly the objects of the first page whose
    name is [a ++ filter ++ b] for some [a] and [b] (an absent name counts
    as empty).  The test of [findTargetsByName] accepts an object exactly
    when the filter is empty or the lowered name is
    [a ++ lowered filter ++ b]. *)
Theorem name_filter_selects_substrings :
  (forall list_reply r tr f data,
      Part000.name_filter r = Some f ->
      list_reply (Part000.account_id r) (Part000.node_of (Part000.level r))
      = Returned data ->
      exists ids,
        fst (Part000.fetchByNameFilter list_reply r tr) = Returned ids
        /\ ids `sublist_of` map Part000.item_id data
        /\ (forall x, x ∈ ids <->
              exists it a b,
                it ∈ data /\ Part000.item_id it = x
                /\ default "" (Part000.item_name it) = a +:+ f +:+ b))
  /\ (forall toLowerCase f it,
      Part001.name_matches toLowerCase f it = true <->
      f = "" \/ exists a b,
                 toLowerCase (default "" (Part001.item_name it))
                 = a +:+ toLowerCase f +:+ b).
Proof.
  split.
  - intros list_reply r tr f data Hf Hlist.
    unfold Part000.fetchByNameFilter. rewrite Hlist, Hf. cbn [fst default].
    eexists. split; [reflexivity|]. split.
    + apply (fmap_sublist Part000.item_id). apply filter_sublist.
    + intros x. rewrite elem_of_map_filter. split.
      * intros (it & Hin & Hinc & Hid). apply includes_spec in Hinc as (a & b & Hab).
        exists it, a, b. auto.
      * intros (it & a & b & Hin & Hid & Hab). exists it.
        split; [exact Hin|]. split; [|exact Hid].
        apply includes_spec. exists a, b. exact Hab.
  - intros toLowerCase f it. unfold Part001.name_matches.
    rewrite orb_true_iff, bool_decide_eq_true, includes_spec. reflexivity.
Qed.

(** ** Boundaries that do not parse *)

Lemma hm_minutes_NaN h m : Js.hm_minutes (h, m) = NaN <-> h = NaN \/ m = NaN.
Proof.
  unfold Js.hm_minutes. destruct h, m; simpl; split; intros H; auto;
    try discriminate; destruct H; discriminate.
Qed.

(** X5.  A boundary that does not parse.  In the JSON-file server, on a
    listed day, [inActiveWindow] is true as soon as one boundary is [NaN].
    In the SQLite server [periodicEnforce] decides ACTIVE when both are
    [NaN]; with only the stop boundary [NaN] it decides PAUSED exactly
    before the start minute; with only the start boundary [NaN], exactly
    from the stop minute on. *)
Theorem unparsable_boundaries :
  (forall host_offset r now,
      Js.includes_num (Part001.days r)
        (Num (Clock.weekday (Clock.local (host_offset now) now))) = true ->
      Js.hm_minutes (Part001.stop r) = NaN \/ Js.hm_minutes (Part001.start r) = NaN ->
      Part001.inActiveWindow host_offset r now = true)
  /\ (forall utc_offset DEFAULT_TZ r now off,
      utc_offset (Part000.str_or (Part000.timezone r) DEFAULT_TZ) now = Some off ->
      let cur := Clock.minutes_since_midnight (Clock.local off now) in
      (Js.hm_minutes (Part000.stop_time r) = NaN ->
       Js.hm_minutes (Part000.start_time r) = NaN ->
       Part000.periodic_desired utc_offset DEFAULT_TZ r now = Some ACTIVE)
      /\ (forall b,
            Js.hm_minutes (Part000.stop_time r) = NaN ->
            Js.hm_minutes (Part000.start_time r) = Num b ->
            Part000.periodic_desired utc_offset DEFAULT_TZ r now
            = Some (if cur <? b then PAUSED else ACTIVE))
      /\ (forall a,
            Js.hm_minutes (Part000.stop_time r) = Num a ->
            Js.hm_minutes (Part000.start_time r) = NaN ->
            Part000.periodic_desired utc_offset DEFAULT_TZ r now
            = Some (if a <=? cur then PAUSED else ACTIVE))).
Proof.
  split.
  - intros host_offset r now Hday Hnan.
    unfold Part001.inActiveWindow, Part001.t. rewrite Hday.
    destruct (Part001.days r); [discriminate Hday|]. cbn [length Nat.eqb negb].
    destruct Hnan as [-> | ->].
    + destruct (Js.hm_minutes (Part001.start r));
        cbn [Js.strict_eq Js.lt Js.ge]; rewrite ?andb_false_r; reflexivity.
    + destruct (Js.hm_minutes (Part001.stop r));
        cbn [Js.strict_eq Js.lt Js.ge]; rewrite ?andb_false_r; reflexivity.
  - intros utc_offset zone r now off Hoff cur.
    unfold Part000.periodic_desired, Part000.local_minutes. rewrite Hoff.
    cbn [mbind option_bind]. fold cur. unfold Part000.desired_at.
    repeat split.
    + intros -> ->. reflexivity.
    + intros b -> ->. cbn. destruct (cur <? b); reflexivity.
    + intros a -> ->. cbn. rewrite orb_false_r. destruct (a <=? cur); reflexivity.
Qed.

(** ** The two servers side by side *)

(** X6.  The two servers decide the same state: when the host clock of
    the JSON-file server has the offset of the rule's zone, the boundaries
    are the same numbers and the day is listed, [periodicEnforce] hands to
    [enforce] the state [enforceRule] applies. *)
Theorem servers_agree_on_listed_days :
  forall utc_offset DEFAULT_TZ host_offset r0 r1 now off stop_m start_m,
    utc_offset (Part000.str_or (Part000.timezone r0) DEFAULT_TZ) now = Some off ->
    host_offset now = off ->
    Js.hm_minutes (Part000.stop_time r0) = Num stop_m ->
    Js.hm_minutes (Part001.stop r1) = Num stop_m ->
    Js.hm_minutes (Part000.start_time r0) = Num start_m ->
    Js.hm_minutes (Part001.start r1) = Num start_m ->
    Js.includes_num (Part001.days r1)
      (Num (Clock.weekday (Clock.local off now))) = true ->
    Part000.periodic_desired utc_offset DEFAULT_TZ r0 now
    = Some (if Part001.inActiveWindow host_offset r1 now then ACTIVE else PAUSED).
Proof.
  intros utc_offset zone host_offset r0 r1 now off a b Hoff Hhost Ha0 Ha1 Hb0 Hb1 Hday.
  subst off.
  rewrite (inActiveWindow_on_listed_day host_offset r1 now a b Hday Ha1 Hb1).
  unfold Part000.periodic_desired, Part000.local_minutes. rewrite Hoff.
  cbn [mbind option_bind]. rewrite Ha0, Hb0, desired_at_claimed.
  destruct (claimed_state a b _); reflexivity.
Qed.

Lemma servers_agree_on_listed_days_witness :
  Part000.periodic_desired Scenario.zones "UTC" Scenario.night000 Scenario.monday_2300
  = Some (if Part001.inActiveWindow (fun _ => 0)
               (Scenario.with_tz "UTC" Scenario.night001) Scenario.monday_2300
          then ACTIVE else PAUSED).
Proof.
  apply (servers_agree_on_listed_days Scenario.zones "UTC" (fun _ => 0)
           Scenario.night000 (Scenario.with_tz "UTC" Scenario.night001)
           Scenario.monday_2300 0 1320 360);
    reflexivity.
Defined.

(** ** A day later, a week later *)

Lemma clock_day_later lm k :
  Clock.hour (lm + 1440 * k) = Clock.hour lm
  /\ Clock.minute (lm + 1440 * k) = Clock.minute lm
  /\ Clock.weekday (lm + 1440 * (7 * k)) = Clock.weekday lm.
Proof.
  unfold Clock.hour, Clock.minute, Clock.weekday. repeat split.
  - replace (lm + 1440 * k) with (lm + (24 * k) * 60) by lia.
    rewrite Z.div_add by lia. replace (lm / 60 + 24 * k) with (lm / 60 + k * 24) by lia.
    apply Z.mod_add. lia.
  - replace (lm + 1440 * k) with (lm + (24 * k) * 60) by lia.
    apply Z.mod_add. lia.
  - replace (lm + 1440 * (7 * k)) with (lm + (7 * k) * 1440) by lia.
    rewrite Z.div_add by lia.
    replace (lm / 1440 + 7 * k + 4) with (lm / 1440 + 4 + k * 7) by lia.
    apply Z.mod_add. lia.
Qed.

(** X7.  Evaluation repeats.  While the offset of the zone stays the same,
    the state [periodicEnforce] decides is the same any number of days
    later, and the weekday [enforce] reads is the same any number of weeks
    later; while the host offset stays the same, [inActiveWindow] is the
    same any number of weeks later. *)
Theorem evaluation_repeats :
  (forall utc_offset DEFAULT_TZ r now k off,
      utc_offset (Part000.str_or (Part000.timezone r) DEFAULT_TZ) now = Some off ->
      utc_offset (Part000.str_or (Part000.timezone r) DEFAULT_TZ) (now + 1440 * k)
      = Some off ->
      Part000.periodic_desired utc_offset DEFAULT_TZ r (now + 1440 * k)
      = Part000.periodic_desired utc_offset DEFAULT_TZ r now)
  /\ (forall utc_offset zone now k off,
      utc_offset zone now = Some off ->
      utc_offset zone (now + 10080 * k) = Some off ->
      Part000.local_weekday utc_offset zone (now + 10080 * k)
      = Part000.local_weekday utc_offset zone now)
  /\ (forall host_offset r now k,
      host_offset (now + 10080 * k) = host_offset now ->
      Part001.inActiveWindow host_offset r (now + 10080 * k)
      = Part001.inActiveWindow host_offset r now).
Proof.
  repeat split.
  - intros utc_offset zone r now k off H0 H1.
    unfold Part000.periodic_desired, Part000.local_minutes. rewrite H0, H1.
    cbn [mbind option_bind]. unfold Clock.minutes_since_midnight, Clock.local.
    replace (now + 1440 * k + off) with (now + off + 1440 * k) by lia.
    destruct (clock_day_later (now + off) k) as (-> & -> & _). reflexivity.
  - intros utc_offset zone now k off H0 H1.
    unfold Part000.local_weekday. rewrite H0, H1. cbn [mbind option_bind].
    unfold Clock.local.
    replace (now + 10080 * k + off) with (now + off + 1440 * (7 * k)) by lia.
    destruct (clock_day_later (now + off) k) as (_ & _ & ->). reflexivity.
  - intros host_offset r now k Hoff.
    unfold Part001.inActiveWindow. rewrite Hoff. unfold Clock.local.
    replace (now + 10080 * k + host_offset now)
      with (now + host_offset now + 1440 * (7 * k)) by lia.
    destruct (clock_day_later (now + host_offset now) k) as (_ & _ & ->).
    destruct (clock_day_later (now + host_offset now) (7 * k)) as (-> & -> & _).
    reflexivity.
Qed.

(** ** The tasks of the registry *)

Lemma cronForTime_numeric tm zone :
  exists m h, fst (Part001.cronForTime tm zone) = Part001.Daily (Num m) (Num h).
Proof.
  destruct tm as [[|h] [|m]]; cbn; eauto.
Qed.

Lemma str_or_nonempty x d : d <> "" -> Part001.str_or x d <> "".
Proof.
  intros Hd. unfold Part001.str_or. case_bool_decide; [exact Hd|assumption].
Qed.

(** X8.  Every task the JSON-file server runs has a numeric cron
    expression: a daily one whose minute and hour are numbers ([cronForTime]
    puts 0 for a field that did not parse), or a periodic one with a period
    between 1 and 60; and its zone is not empty when the default zone is
    not. *)
Theorem running_tasks_are_numeric accepts sci_head ACCOUNT_TIMEZONE_DEFAULT ops h tk :
  Part001.tasks (Part001.replay accepts sci_head ACCOUNT_TIMEZONE_DEFAULT ops) !! h
  = Some tk ->
  ((exists m hr, Part001.expr tk = Part001.Daily (Num m) (Num hr))
   \/ (exists p, Part001.expr tk = Part001.EveryMinutes (Num p) /\ 1 <= p <= 60))
  /\ (ACCOUNT_TIMEZONE_DEFAULT <> "" -> Part001.task_tz tk <> "").
Proof.
  intros Htk.
  pose proof (inv_replay001 accepts sci_head ACCOUNT_TIMEZONE_DEFAULT ops) as Hinv.
  destruct (Part001.inv_made _ _ _ _ Hinv h tk Htk) as [r Hin].
  apply list_elem_of_lookup in Hin as [i Hmem].
  unfold Part001.triggers_of in Hmem.
  destruct i as [|[|[|i]]]; cbn [lookup list_lookup] in Hmem;
    try discriminate Hmem; injection Hmem as <-; cbn [Part001.expr Part001.task_tz];
    (split; [|intros Hd; apply str_or_nonempty; exact Hd]).
  - left. apply cronForTime_numeric.
  - left. apply cronForTime_numeric.
  - right. destruct (every_range sci_head r) as (p & -> & Hp). eauto.
Qed.

Lemma running_tasks_are_numeric_witness :
  exists tk,
    Part001.tasks (Part001.replay Scenario.node_cron001 Scenario.sci_head "UTC"
                     Scenario.requests001) !! 6%nat = Some tk
    /\ ((exists m hr, Part001.expr tk = Part001.Daily (Num m) (Num hr))
        \/ (exists p, Part001.expr tk = Part001.EveryMinutes (Num p) /\ 1 <= p <= 60))
    /\ ("UTC" <> "" -> Part001.task_tz tk <> "").
Proof.
  exists {| Part001.expr := Part001.Daily (Num 0) (Num 22);
            Part001.task_tz := "UTC";
            Part001.run :=
              Part001.RunEdge (Scenario.with_tz "UTC" Scenario.night001) PAUSED |}.
  split; [vm_compute; reflexivity|].
  apply (running_tasks_are_numeric Scenario.node_cron001 Scenario.sci_head "UTC"
           Scenario.requests001 6%nat).
  vm_compute. reflexivity.
Defined.

Lemma size_delete_all {V} (l : list nat) : forall (t : gmap nat V),
  NoDup l ->
  (forall h, h ∈ l -> is_Some (t !! h)) ->
  (size (foldl (fun t h => delete h t) t l) + length l = size t)%nat.
Proof.
  induction l as [|h l IH]; intros t Hnd Hlive; simpl; [lia|].
  apply NoDup_cons in Hnd as [Hnotin Hnd].
  assert (Hrest : forall h', h' ∈ l -> is_Some (delete h t !! h')).
  { intros h' Hin. rewrite lookup_delete_ne.
    - apply Hlive. apply elem_of_cons. auto.
    - intros ->. contradiction. }
  pose proof (IH (delete h t) Hnd Hrest) as IH'.
  rewrite map_size_delete_Some in IH' by (apply Hlive; apply elem_of_cons; auto).
  assert (size t <> 0)%nat; [|lia].
  intros Hz. apply map_size_empty_inv in Hz. subst t.
  destruct (Hlive h ltac:(apply elem_of_cons; auto)) as [x Hx].
  rewrite lookup_empty in Hx. discriminate.
Qed.

Lemma tasks_foldl_stop000 l : forall s,
  Part000.tasks (foldl Part000.task_stop s l)
  = foldl (fun t h => delete h t) (Part000.tasks s) l.
Proof. induction l as [|h l IH]; intros s; simpl; [reflexivity|apply IH]. Qed.

Lemma tasks_foldl_stop001 l : forall s,
  Part001.tasks (foldl Part001.task_stop s l)
  = foldl (fun t h => delete h t) (Part001.tasks s) l.
Proof. induction l as [|h l IH]; intros s; simpl; [reflexivity|apply IH]. Qed.

Lemma handles_live000 zone m s rid j h :
  Part000.registry_inv zone m s ->
  Part000.jobs s !! rid = Some j ->
  h ∈ Part000.handles j ->
  is_Some (Part000.tasks s !! h).
Proof.
  intros Hinv Hj Hin.
  destruct (m !! rid) as [r|] eqn:Hm.
  - pose proof (Part000.inv_tasks zone m s Hinv rid r j Hm Hj) as Ht.
    assert (Hx : Part000.tasks s !! h ∈ (fun h => Part000.tasks s !! h) <$> Part000.handles j).
    { apply list_elem_of_fmap. exists h. auto. }
    rewrite Ht in Hx. apply list_elem_of_fmap in Hx as (tk & -> & _). eauto.
  - apply (Part000.inv_dom zone m s Hinv) in Hm. congruence.
Qed.

Lemma handles_live001 sci_head zone m s rid set h :
  Part001.registry_inv sci_head zone m s ->
  Part001.schedulers s !! rid = Some set ->
  h ∈ set ->
  is_Some (Part001.tasks s !! h).
Proof.
  intros Hinv Hj Hin.
  destruct (m !! rid) as [r|] eqn:Hm.
  - pose proof (Part001.inv_tasks sci_head zone m s Hinv rid r set Hm Hj) as Ht.
    assert (Hx : Part001.tasks s !! h ∈ (fun h => Part001.tasks s !! h) <$> set).
    { apply list_elem_of_fmap. exists h. auto. }
    rewrite Ht in Hx. apply list_elem_of_fmap in Hx as (tk & -> & _). eauto.
  - apply (Part001.inv_dom sci_head zone m s Hinv) in Hm. congruence.
Qed.

Lemma handles_three001 sci_head zone m s rid set :
  Part001.registry_inv sci_head zone m s ->
  Part001.schedulers s !! rid = Some set ->
  length set = 3%nat.
Proof.
  intros Hinv Hj.
  destruct (m !! rid) as [r|] eqn:Hm.
  - pose proof (Part001.inv_tasks sci_head zone m s Hinv rid r set Hm Hj) as Ht.
    apply (f_equal length) in Ht. rewrite !length_fmap in Ht. exact Ht.
  - apply (Part001.inv_dom sci_head zone m s Hinv) in Hm. congruence.
Qed.

(** The tasks that run outside the registry are [k]: what the running
    tasks are more than three for each entry. *)
Lemma size_unschedule000 zone m s rid k :
  Part000.registry_inv zone m s ->
  size (Part000.tasks s) = (3 * size (Part000.jobs s) + k)%nat ->
  size (Part000.tasks (Part000.unscheduleRule rid s))
  = (3 * size (Part000.jobs (Part000.unscheduleRule rid s)) + k)%nat.
Proof.
  intros Hinv Hsize. unfold Part000.unscheduleRule.
  destruct (Part000.jobs s !! rid) as [j|] eqn:Hj; [|exact Hsize].
  cbn [Part000.jobs Part000.tasks].
  destruct (jobs_task_stop000 (Part000.handles j) s) as [-> _].
  rewrite tasks_foldl_stop000.
  pose proof (size_delete_all (Part000.handles j) (Part000.tasks s)
                (Part000.inv_nodup zone m s Hinv rid j Hj)
                (fun h Hin => handles_live000 zone m s rid j h Hinv Hj Hin)) as Hdel.
  cbn [Part000.handles length] in Hdel.
  rewrite map_size_delete_Some by eauto.
  assert (size (Part000.jobs s) <> 0)%nat; [|lia].
  intros Hz. apply map_size_empty_inv in Hz. rewrite Hz, lookup_empty in Hj.
  discriminate.
Qed.

Lemma size_started000 zone m s tk :
  Part000.registry_inv zone m s ->
  size (Part000.tasks (Part000.started tk s)) = S (size (Part000.tasks s))
  /\ Part000.jobs (Part000.started tk s) = Part000.jobs s.
Proof.
  intros Hinv. split; [|reflexivity]. cbn [Part000.started Part000.tasks].
  apply map_size_insert_None.
  destruct (Part000.tasks s !! Part000.next_task s) eqn:E; [|reflexivity].
  pose proof (Part000.inv_bound zone m s Hinv _ (ex_intro _ _ E)). lia.
Qed.

Lemma size_schedule000 accepts zone m s r k :
  Part000.registry_inv zone m s ->
  size (Part000.tasks s) = (3 * size (Part000.jobs s) + k)%nat ->
  exists d,
    size (Part000.tasks (snd (Part000.scheduleRule accepts zone r s)))
    = (3 * size (Part000.jobs (snd (Part000.scheduleRule accepts zone r s))) + (k + d))%nat
    /\ (fst (Part000.scheduleRule accepts zone r s) = Returned tt -> d = 0%nat).
Proof.
  intros Hinv Hsize.
  pose proof (inv_unschedule000 zone m s (Part000.id r) Hinv) as H0.
  pose proof (size_unschedule000 zone m s (Part000.id r) k Hinv Hsize) as Hs0.
  pose proof (unscheduleRule_removes (Part000.id r) s) as Hnone.
  destruct (scheduleRule_cases000 accepts zone r s) as (t1 & t2 & t3 & Htr & ->).
  set (s0 := Part000.unscheduleRule (Part000.id r) s) in *.
  assert (H1 : t1 ∈ Part000.triggers_of zone r) by (rewrite Htr, !elem_of_cons; auto).
  assert (H2 : t2 ∈ Part000.triggers_of zone r) by (rewrite Htr, !elem_of_cons; auto).
  pose proof (inv_started000 zone _ _ t1 r H0 H1) as Hi1.
  pose proof (inv_started000 zone _ _ t2 r Hi1 H2) as Hi2.
  destruct (size_started000 zone _ s0 t1 H0) as [Hn1 Hj1].
  destruct (size_started000 zone _ _ t2 Hi1) as [Hn2 Hj2].
  destruct (size_started000 zone _ _ t3 Hi2) as [Hn3 Hj3].
  destruct (negb (Part000.enabled r)); cbn [fst snd].
  { exists 0%nat. split; [lia|reflexivity]. }
  destruct (negb _); cbn [fst snd].
  { exists 0%nat. split; [lia|reflexivity]. }
  destruct (negb _); cbn [fst snd].
  { exists 1%nat. rewrite Hn1, Hj1. split; [lia|discriminate]. }
  destruct (negb _); cbn [fst snd].
  { exists 2%nat. rewrite Hn2, Hj2, Hn1, Hj1. split; [lia|discriminate]. }
  exists 0%nat. split; [|reflexivity].
  cbn [Part000.jobs Part000.tasks].
  rewrite (map_size_insert_None (Part000.id r)) by exact Hnone.
  cbn [Part000.started Part000.tasks Part000.next_task] in Hn3, Hn2, Hn1.
  rewrite Hn3, Hn2, Hn1. lia.
Qed.

Lemma size_replay000 accepts zone ops : forall m s k,
  Part000.registry_inv zone m s ->
  size (Part000.tasks s) = (3 * size (Part000.jobs s) + k)%nat ->
  let s' := foldl (Part000.apply_op accepts zone) s ops in
  exists d,
    size (Part000.tasks s') = (3 * size (Part000.jobs s') + (k + d))%nat
    /\ (Part000.all_return accepts zone s ops = true -> d = 0%nat).
Proof.
  induction ops as [|o ops IH]; intros m s k Hinv Hsize; cbn zeta.
  - exists 0%nat. split; [cbn [foldl]; lia|reflexivity].
  - cbn [foldl Part000.all_return]. destruct o as [r|rid]; cbn [Part000.apply_op].
    + destruct (size_schedule000 accepts zone m s r k Hinv Hsize) as (d1 & Hs1 & Hd1).
      destruct (IH _ _ _ (inv_schedule000 accepts zone m s r Hinv) Hs1) as (d2 & Hs2 & Hd2).
      exists (d1 + d2)%nat. split; [rewrite Hs2; lia|].
      intros [Hret Hall]%andb_prop. cbn [Part000.returns] in Hret.
      rewrite (Hd2 Hall), Hd1; [reflexivity|].
      destruct (fst (Part000.scheduleRule accepts zone r s)) as [[]|]; [reflexivity|].
      discriminate Hret.
    + destruct (IH _ _ _ (inv_unschedule000 zone m s rid Hinv)
                  (size_unschedule000 zone m s rid k Hinv Hsize)) as (d & Hs & Hd).
      exists d. split; [exact Hs|]. cbn [Part000.returns andb]. exact Hd.
Qed.

Lemma size_unschedule001 sci_head zone m s rid k :
  Part001.registry_inv sci_head zone m s ->
  size (Part001.tasks s) = (3 * size (Part001.schedulers s) + k)%nat ->
  size (Part001.tasks (Part001.unschedule rid s))
  = (3 * size (Part001.schedulers (Part001.unschedule rid s)) + k)%nat.
Proof.
  intros Hinv Hsize. unfold Part001.unschedule.
  destruct (Part001.schedulers s !! rid) as [set|] eqn:Hj; [|exact Hsize].
  cbn [Part001.schedulers Part001.tasks].
  destruct (jobs_task_stop001 set s) as [-> _].
  rewrite tasks_foldl_stop001.
  pose proof (size_delete_all set (Part001.tasks s)
                (Part001.inv_nodup sci_head zone m s Hinv rid set Hj)
                (fun h Hin => handles_live001 sci_head zone m s rid set h Hinv Hj Hin))
    as Hdel.
  rewrite (handles_three001 sci_head zone m s rid set Hinv Hj) in Hdel.
  rewrite map_size_delete_Some by eauto.
  assert (size (Part001.schedulers s) <> 0)%nat; [|lia].
  intros Hz. apply map_size_empty_inv in Hz. rewrite Hz, lookup_empty in Hj.
  discriminate.
Qed.

Lemma size_started001 sci_head zone m s tk :
  Part001.registry_inv sci_head zone m s ->
  size (Part001.tasks (Part001.started tk s)) = S (size (Part001.tasks s))
  /\ Part001.schedulers (Part001.started tk s) = Part001.schedulers s.
Proof.
  intros Hinv. split; [|reflexivity]. cbn [Part001.started Part001.tasks].
  apply map_size_insert_None.
  destruct (Part001.tasks s !! Part001.next_task s) eqn:E; [|reflexivity].
  pose proof (Part001.inv_bound sci_head zone m s Hinv _ (ex_intro _ _ E)). lia.
Qed.

Lemma size_schedule001 accepts sci_head zone m s r k :
  Part001.registry_inv sci_head zone m s ->
  size (Part001.tasks s) = (3 * size (Part001.schedulers s) + k)%nat ->
  exists d,
    size (Part001.tasks (snd (Part001.scheduleRule accepts sci_head zone r s)))
    = (3 * size (Part001.schedulers (snd (Part001.scheduleRule accepts sci_head zone r s)))
       + (k + d))%nat
    /\ (fst (Part001.scheduleRule accepts sci_head zone r s) = Returned tt -> d = 0%nat).
Proof.
  intros Hinv Hsize.
  pose proof (inv_unschedule001 sci_head zone m s (Part001.id r) Hinv) as H0.
  pose proof (size_unschedule001 sci_head zone m s (Part001.id r) k Hinv Hsize) as Hs0.
  pose proof (unschedule_removes (Part001.id r) s) as Hnone.
  destruct (scheduleRule_cases001 accepts sci_head zone r s) as (t1 & t2 & t3 & Htr & ->).
  set (s0 := Part001.unschedule (Part001.id r) s) in *.
  assert (H1 : t1 ∈ Part001.triggers_of sci_head zone r)
    by (rewrite Htr, !elem_of_cons; auto).
  assert (H2 : t2 ∈ Part001.triggers_of sci_head zone r)
    by (rewrite Htr, !elem_of_cons; auto).
  pose proof (inv_started001 sci_head zone _ _ t1 r H0 H1) as Hi1.
  pose proof (inv_started001 sci_head zone _ _ t2 r Hi1 H2) as Hi2.
  destruct (size_started001 sci_head zone _ s0 t1 H0) as [Hn1 Hj1].
  destruct (size_started001 sci_head zone _ _ t2 Hi1) as [Hn2 Hj2].
  destruct (size_started001 sci_head zone _ _ t3 Hi2) as [Hn3 Hj3].
  destruct (negb _); cbn [fst snd].
  { exists 0%nat. split; [lia|discriminate]. }
  destruct (negb _); cbn [fst snd].
  { exists 1%nat. rewrite Hn1, Hj1. split; [lia|discriminate]. }
  destruct (negb _); cbn [fst snd].
  { exists 2%nat. rewrite Hn2, Hj2, Hn1, Hj1. split; [lia|discriminate]. }
  exists 0%nat. split; [|reflexivity].
  cbn [Part001.schedulers Part001.tasks].
  rewrite (map_size_insert_None (Part001.id r)) by exact Hnone.
  cbn [Part001.started Part001.tasks Part001.next_task] in Hn3, Hn2, Hn1.
  rewrite Hn3, Hn2, Hn1. lia.
Qed.

Lemma size_replay001 accepts sci_head zone ops : forall m s k,
  Part001.registry_inv sci_head zone m s ->
  size (Part001.tasks s) = (3 * size (Part001.schedulers s) + k)%nat ->
  let s' := foldl (Part001.apply_op accepts sci_head zone) s ops in
  exists d,
    size (Part001.tasks s') = (3 * size (Part001.schedulers s') + (k + d))%nat
    /\ (Part001.all_return accepts sci_head zone s ops = true -> d = 0%nat).
Proof.
  induction ops as [|o ops IH]; intros m s k Hinv Hsize; cbn zeta.
  - exists 0%nat. split; [cbn [foldl]; lia|reflexivity].
  - cbn [foldl Part001.all_return]. destruct o as [r|rid]; cbn [Part001.apply_op].
    + destruct (size_schedule001 accepts sci_head zone m s r k Hinv Hsize)
        as (d1 & Hs1 & Hd1).
      destruct (IH _ _ _ (inv_schedule001 accepts sci_head zone m s r Hinv) Hs1)
        as (d2 & Hs2 & Hd2).
      exists (d1 + d2)%nat. split; [rewrite Hs2; lia|].
      intros [Hret Hall]%andb_prop. cbn [Part001.returns] in Hret.
      rewrite (Hd2 Hall), Hd1; [reflexivity|].
      destruct (fst (Part001.scheduleRule accepts sci_head zone r s)) as [[]|];
        [reflexivity|discriminate Hret].
    + destruct (IH _ _ _ (inv_unschedule001 sci_head zone m s rid Hinv)
                  (size_unschedule001 sci_head zone m s rid k Hinv Hsize))
        as (d & Hs & Hd).
      exists d. split; [exact Hs|]. cbn [Part001.returns andb]. exact Hd.
Qed.

(** *** Tasks outside the registry *)

Lemma stray_unschedule000 s rid :
  Part000.no_stray s -> Part000.no_stray (Part000.unscheduleRule rid s).
Proof.
  intros Hs. unfold Part000.unscheduleRule.
  destruct (Part000.jobs s !! rid) as [j|] eqn:Hj; [|exact Hs].
  destruct (jobs_task_stop000 (Part000.handles j) s) as [Hjobs _].
  intros h [tk Hh]. cbn [Part000.jobs Part000.tasks] in *.
  rewrite tasks_task_stop000 in Hh.
  case_bool_decide as Hin; [discriminate|].
  destruct (Hs h (ex_intro _ tk Hh)) as (rid' & j' & Hj' & Hin').
  exists rid', j'. split; [|exact Hin'].
  rewrite Hjobs, lookup_delete. case_decide as Heq; [|exact Hj'].
  subst rid'. rewrite Hj in Hj'. injection Hj' as ->. contradiction.
Qed.

Lemma stray_schedule000 accepts zone r s :
  Part000.no_stray s ->
  fst (Part000.scheduleRule accepts zone r s) = Returned tt ->
  Part000.no_stray (snd (Part000.scheduleRule accepts zone r s)).
Proof.
  intros Hs.
  pose proof (stray_unschedule000 s (Part000.id r) Hs) as H0.
  pose proof (unscheduleRule_removes (Part000.id r) s) as Hnone.
  destruct (scheduleRule_cases000 accepts zone r s) as (t1 & t2 & t3 & _ & ->).
  set (s0 := Part000.unscheduleRule (Part000.id r) s) in *.
  destruct (negb (Part000.enabled r)); [intros _; exact H0|].
  destruct (negb _); [discriminate|].
  destruct (negb _); [discriminate|].
  destruct (negb _); [discriminate|]. intros _.
  cbn [snd]. set (n := Part000.next_task s0).
  intros h Hh. cbn [Part000.jobs Part000.tasks] in *.
  destruct (decide (h = n \/ h = S n \/ h = S (S n))) as [Hnew|Hold].
  - eexists (Part000.id r), _. rewrite lookup_insert_eq. split; [reflexivity|].
    open_handles. rewrite !elem_of_cons. tauto.
  - rewrite !lookup_insert_ne in Hh by (intros E; symmetry in E; tauto).
    destruct (H0 h Hh) as (rid & j & Hj & Hin).
    exists rid, j. split; [|exact Hin].
    rewrite lookup_insert_ne; [exact Hj|]. intros <-. rewrite Hnone in Hj. discriminate.
Qed.

Lemma stray_replay000 accepts zone ops : forall s,
  Part000.no_stray s ->
  Part000.all_return accepts zone s ops = true ->
  Part000.no_stray (foldl (Part000.apply_op accepts zone) s ops).
Proof.
  induction ops as [|o ops IH]; intros s Hs Hall; [exact Hs|].
  cbn [foldl Part000.all_return] in *. apply andb_prop in Hall as [Hret Hall].
  apply IH; [|exact Hall]. destruct o as [r|rid]; cbn [Part000.apply_op].
  - apply stray_schedule000; [exact Hs|]. cbn [Part000.returns] in Hret.
    destruct (fst (Part000.scheduleRule accepts zone r s)) as [[]|];
      [reflexivity|discriminate Hret].
  - apply stray_unschedule000. exact Hs.
Qed.

Lemma stray_unschedule001 s rid :
  Part001.no_stray s -> Part001.no_stray (Part001.unschedule rid s).
Proof.
  intros Hs. unfold Part001.unschedule.
  destruct (Part001.schedulers s !! rid) as [j|] eqn:Hj; [|exact Hs].
  destruct (jobs_task_stop001 j s) as [Hjobs _].
  intros h [tk Hh]. cbn [Part001.schedulers Part001.tasks] in *.
  rewrite tasks_task_stop001 in Hh.
  case_bool_decide as Hin; [discriminate|].
  destruct (Hs h (ex_intro _ tk Hh)) as (rid' & j' & Hj' & Hin').
  exists rid', j'. split; [|exact Hin'].
  rewrite Hjobs, lookup_delete. case_decide as Heq; [|exact Hj'].
  subst rid'. rewrite Hj in Hj'. injection Hj' as ->. contradiction.
Qed.

Lemma stray_schedule001 accepts sci_head zone r s :
  Part001.no_stray s ->
  fst (Part001.scheduleRule accepts sci_head zone r s) = Returned tt ->
  Part001.no_stray (snd (Part001.scheduleRule accepts sci_head zone r s)).
Proof.
  intros Hs.
  pose proof (stray_unschedule001 s (Part001.id r) Hs) as H0.
  pose proof (unschedule_removes (Part001.id r) s) as Hnone.
  destruct (scheduleRule_cases001 accepts sci_head zone r s) as (t1 & t2 & t3 & _ & ->).
  set (s0 := Part001.unschedule (Part001.id r) s) in *.
  destruct (negb _); [discriminate|].
  destruct (negb _); [discriminate|].
  destruct (negb _); [discriminate|]. intros _.
  cbn [snd]. set (n := Part001.next_task s0).
  intros h Hh. cbn [Part001.schedulers Part001.tasks] in *.
  destruct (decide (h = n \/ h = S n \/ h = S (S n))) as [Hnew|Hold].
  - eexists (Part001.id r), _. rewrite lookup_insert_eq. split; [reflexivity|].
    rewrite !elem_of_cons. tauto.
  - rewrite !lookup_insert_ne in Hh by (intros E; symmetry in E; tauto).
    destruct (H0 h Hh) as (rid & j & Hj & Hin).
    exists rid, j. split; [|exact Hin].
    rewrite lookup_insert_ne; [exact Hj|]. intros <-. rewrite Hnone in Hj. discriminate.
Qed.

Lemma stray_replay001 accepts sci_head zone ops : forall s,
  Part001.no_stray s ->
  Part001.all_return accepts sci_head zone s ops = true ->
  Part001.no_stray (foldl (Part001.apply_op accepts sci_head zone) s ops).
Proof.
  induction ops as [|o ops IH]; intros s Hs Hall; [exact Hs|].
  cbn [foldl Part001.all_return] in *. apply andb_prop in Hall as [Hret Hall].
  apply IH; [|exact Hall]. destruct o as [r|rid]; cbn [Part001.apply_op].
  - apply stray_schedule001; [exact Hs|]. cbn [Part001.returns] in Hret.
    destruct (fst (Part001.scheduleRule accepts sci_head zone r s)) as [[]|];
      [reflexivity|discriminate Hret].
  - apply stray_unschedule001. exact Hs.
Qed.

Lemma no_stray_init000 : Part000.no_stray Part000.init.
Proof. intros h [tk H]. cbn in H. rewrite lookup_empty in H. discriminate. Qed.

Lemma no_stray_init001 : Part001.no_stray Part001.init.
Proof. intros h [tk H]. cbn in H. rewrite lookup_empty in H. discriminate. Qed.

(** X9.  After any sequence of schedule and unschedule requests on a
    fresh process, in both servers, every registry entry stands for three
    running tasks, so that the running tasks are at least three times the
    entries.  When no [scheduleRule] of the sequence threw, they are exactly
    three times the entries and every running task is one of the three of
    an entry. *)
Theorem three_tasks_per_registered_rule :
  (forall accepts DEFAULT_TZ ops,
      let s := Part000.replay accepts DEFAULT_TZ ops in
      (3 * size (Part000.jobs s) <= size (Part000.tasks s))%nat
      /\ (Part000.all_return accepts DEFAULT_TZ Part000.init ops = true ->
          size (Part000.tasks s) = (3 * size (Part000.jobs s))%nat
          /\ Part000.no_stray s))
  /\ (forall accepts sci_head ACCOUNT_TIMEZONE_DEFAULT ops,
      let s := Part001.replay accepts sci_head ACCOUNT_TIMEZONE_DEFAULT ops in
      (3 * size (Part001.schedulers s) <= size (Part001.tasks s))%nat
      /\ (Part001.all_return accepts sci_head ACCOUNT_TIMEZONE_DEFAULT Part001.init ops
          = true ->
          size (Part001.tasks s) = (3 * size (Part001.schedulers s))%nat
          /\ Part001.no_stray s)).
Proof.
  split.
  - intros accepts zone ops s.
    destruct (size_replay000 accepts zone ops ∅ Part000.init 0
                (inv_init000 zone) eq_refl) as (d & Hsize & Hd).
    fold (Part000.replay accepts zone ops) in Hsize. fold s in Hsize.
    split; [lia|]. intros Hall. split; [rewrite Hsize, (Hd Hall); lia|].
    apply stray_replay000; [apply no_stray_init000|exact Hall].
  - intros accepts sci_head zone ops s.
    destruct (size_replay001 accepts sci_head zone ops ∅ Part001.init 0
                (inv_init001 sci_head zone) eq_refl) as (d & Hsize & Hd).
    fold (Part001.replay accepts sci_head zone ops) in Hsize. fold s in Hsize.
    split; [lia|]. intros Hall. split; [rewrite Hsize, (Hd Hall); lia|].
    apply stray_replay001; [apply no_stray_init001|exact Hall].
Qed.

Lemma three_tasks_per_registered_rule_witness :
  size (Part000.tasks (Part000.replay Scenario.node_cron000 "UTC" Scenario.requests000))
  = (3 * size (Part000.jobs
                 (Part000.replay Scenario.node_cron000 "UTC" Scenario.requests000)))%nat
  /\ size (Part001.tasks (Part001.replay Scenario.node_cron001 Scenario.sci_head "UTC"
                            Scenario.requests001))
     = (3 * size (Part001.schedulers
                    (Part001.replay Scenario.node_cron001 Scenario.sci_head "UTC"
                       Scenario.requests001)))%nat.
Proof.
  destruct three_tasks_per_registered_rule as [H0 H1]. split.
  - destruct (H0 Scenario.node_cron000 "UTC" Scenario.requests000) as [_ H].
    apply H. vm_compute. reflexivity.
  - destruct (H1 Scenario.node_cron001 Scenario.sci_head "UTC" Scenario.requests001)
      as [_ H].
    apply H. vm_compute. reflexivity.
Defined.

(** ** Other rules *)

Lemma unschedule_frame000 zone m s rid rid' :
  Part000.registry_inv zone m s ->
  rid <> rid' ->
  Part000.jobs (Part000.unscheduleRule rid' s) !! rid = Part000.jobs s !! rid
  /\ (forall j h, Part000.jobs s !! rid = Some j -> h ∈ Part000.handles j ->
        Part000.tasks (Part000.unscheduleRule rid' s) !! h = Part000.tasks s !! h).
Proof.
  intros Hinv Hne. unfold Part000.unscheduleRule.
  destruct (Part000.jobs s !! rid') as [j'|] eqn:Hj'; [|split; reflexivity].
  cbn [Part000.jobs Part000.tasks].
  destruct (jobs_task_stop000 (Part000.handles j') s) as [-> _].
  split; [apply lookup_delete_ne; congruence|].
  intros j h Hj Hin. rewrite tasks_task_stop000.
  rewrite bool_decide_eq_false_2; [reflexivity|].
  intros Hin'. apply Hne.
  exact (Part000.inv_disjoint zone m s Hinv rid rid' j j' h Hj Hj' Hin Hin').
Qed.

Lemma scheduleRule_jobs000 accepts zone r s rid :
  rid <> Part000.id r ->
  Part000.jobs (snd (Part000.scheduleRule accepts zone r s)) !! rid
  = Part000.jobs (Part000.unscheduleRule (Part000.id r) s) !! rid.
Proof.
  intros Hne.
  destruct (scheduleRule_cases000 accepts zone r s) as (t1 & t2 & t3 & _ & ->).
  destruct (negb (Part000.enabled r)); [reflexivity|].
  destruct (negb _); [reflexivity|].
  destruct (negb _); [reflexivity|].
  destruct (negb _); [reflexivity|].
  cbn [snd Part000.jobs]. apply lookup_insert_ne. congruence.
Qed.

Lemma schedule_frame000 accepts zone m s r rid :
  Part000.registry_inv zone m s ->
  rid <> Part000.id r ->
  Part000.jobs (snd (Part000.scheduleRule accepts zone r s)) !! rid
  = Part000.jobs s !! rid
  /\ (forall j h, Part000.jobs s !! rid = Some j -> h ∈ Part000.handles j ->
        Part000.tasks (snd (Part000.scheduleRule accepts zone r s)) !! h
        = Part000.tasks s !! h).
Proof.
  intros Hinv Hne.
  destruct (unschedule_frame000 zone m s rid (Part000.id r) Hinv Hne) as [Hjobs Htasks].
  split; [rewrite scheduleRule_jobs000 by exact Hne; exact Hjobs|].
  intros j h Hj Hin.
  rewrite scheduleRule_old_tasks000
    by exact (Part000.inv_fresh zone m s Hinv rid j h Hj Hin).
  apply (Htasks j h Hj Hin).
Qed.

Lemma unschedule_frame001 sci_head zone m s rid rid' :
  Part001.registry_inv sci_head zone m s ->
  rid <> rid' ->
  Part001.schedulers (Part001.unschedule rid' s) !! rid = Part001.schedulers s !! rid
  /\ (forall set h, Part001.schedulers s !! rid = Some set -> h ∈ set ->
        Part001.tasks (Part001.unschedule rid' s) !! h = Part001.tasks s !! h).
Proof.
  intros Hinv Hne. unfold Part001.unschedule.
  destruct (Part001.schedulers s !! rid') as [j'|] eqn:Hj'; [|split; reflexivity].
  cbn [Part001.schedulers Part001.tasks].
  destruct (jobs_task_stop001 j' s) as [-> _].
  split; [apply lookup_delete_ne; congruence|].
  intros j h Hj Hin. rewrite tasks_task_stop001.
  rewrite bool_decide_eq_false_2; [reflexivity|].
  intros Hin'. apply Hne.
  exact (Part001.inv_disjoint sci_head zone m s Hinv rid rid' j j' h Hj Hj' Hin Hin').
Qed.

Lemma scheduleRule_jobs001 accepts sci_head zone r s rid :
  rid <> Part001.id r ->
  Part001.schedulers (snd (Part001.scheduleRule accepts sci_head zone r s)) !! rid
  = Part001.schedulers (Part001.unschedule (Part001.id r) s) !! rid.
Proof.
  intros Hne.
  destruct (scheduleRule_cases001 accepts sci_head zone r s) as (t1 & t2 & t3 & _ & ->).
  destruct (negb _); [reflexivity|].
  destruct (negb _); [reflexivity|].
  destruct (negb _); [reflexivity|].
  cbn [snd Part001.schedulers]. apply lookup_insert_ne. congruence.
Qed.

Lemma schedule_frame001 accepts sci_head zone m s r rid :
  Part001.registry_inv sci_head zone m s ->
  rid <> Part001.id r ->
  Part001.schedulers (snd (Part001.scheduleRule accepts sci_head zone r s)) !! rid
  = Part001.schedulers s !! rid
  /\ (forall set h, Part001.schedulers s !! rid = Some set -> h ∈ set ->
        Part001.tasks (snd (Part001.scheduleRule accepts sci_head zone r s)) !! h
        = Part001.tasks s !! h).
Proof.
  intros Hinv Hne.
  destruct (unschedule_frame001 sci_head zone m s rid (Part001.id r) Hinv Hne)
    as [Hjobs Htasks].
  split; [rewrite scheduleRule_jobs001 by exact Hne; exact Hjobs|].
  intros j h Hj Hin.
  rewrite scheduleRule_old_tasks001
    by exact (Part001.inv_fresh sci_head zone m s Hinv rid j h Hj Hin).
  apply (Htasks j h Hj Hin).
Qed.

(** X10.  Scheduling or unscheduling one rule leaves every other rule
    alone, in both servers: the registry entry of another id is the same
    after the request, and its three tasks are the same tasks. *)
Theorem other_rules_untouched :
  (forall accepts DEFAULT_TZ ops o rid j,
      let s := Part000.replay accepts DEFAULT_TZ ops in
      let s' := Part000.apply_op accepts DEFAULT_TZ s o in
      rid <> match o with Part000.Schedule r => Part000.id r
                        | Part000.Unschedule rid' => rid' end ->
      Part000.jobs s !! rid = Some j ->
      Part000.jobs s' !! rid = Some j
      /\ (fun h => Part000.tasks s' !! h) <$> Part000.handles j
         = (fun h => Part000.tasks s !! h) <$> Part000.handles j)
  /\ (forall accepts sci_head ACCOUNT_TIMEZONE_DEFAULT ops o rid set,
      let s := Part001.replay accepts sci_head ACCOUNT_TIMEZONE_DEFAULT ops in
      let s' := Part001.apply_op accepts sci_head ACCOUNT_TIMEZONE_DEFAULT s o in
      rid <> match o with Part001.Schedule r => Part001.id r
                        | Part001.Unschedule rid' => rid' end ->
      Part001.schedulers s !! rid = Some set ->
      Part001.schedulers s' !! rid = Some set
      /\ (fun h => Part001.tasks s' !! h) <$> set
         = (fun h => Part001.tasks s !! h) <$> set).
Proof.
  split.
  - intros accepts zone ops o rid j s s' Hne Hj.
    pose proof (inv_replay000 accepts zone ops) as Hinv. fold s in Hinv.
    assert (H : Part000.jobs s' !! rid = Part000.jobs s !! rid
                /\ (forall j h, Part000.jobs s !! rid = Some j -> h ∈ Part000.handles j ->
                      Part000.tasks s' !! h = Part000.tasks s !! h)).
    { subst s'. destruct o as [r|rid']; cbn [Part000.apply_op].
      - eapply schedule_frame000; eassumption.
      - eapply unschedule_frame000; eassumption. }
    destruct H as [Hjobs Htasks]. split; [congruence|].
    apply list_fmap_ext. intros i h Hh. apply (Htasks j h Hj).
    apply list_elem_of_lookup. eauto.
  - intros accepts sci_head zone ops o rid set s s' Hne Hj.
    pose proof (inv_replay001 accepts sci_head zone ops) as Hinv. fold s in Hinv.
    assert (H : Part001.schedulers s' !! rid = Part001.schedulers s !! rid
                /\ (forall set h, Part001.schedulers s !! rid = Some set -> h ∈ set ->
                      Part001.tasks s' !! h = Part001.tasks s !! h)).
    { subst s'. destruct o as [r|rid']; cbn [Part001.apply_op].
      - eapply schedule_frame001; eassumption.
      - eapply unschedule_frame001; eassumption. }
    destruct H as [Hjobs Htasks]. split; [congruence|].
    apply list_fmap_ext. intros i h Hh. apply (Htasks set h Hj).
    apply list_elem_of_lookup. eauto.
Qed.

(** ** Scheduling, then unscheduling *)

Lemma schedule_then_unschedule000 accepts zone m s r :
  Part000.registry_inv zone m s ->
  fst (Part000.scheduleRule accepts zone r s) = Returned tt ->
  let s0 := Part000.unscheduleRule (Part000.id r) s in
  let s1 := Part000.unscheduleRule (Part000.id r)
              (snd (Part000.scheduleRule accepts zone r s)) in
  Part000.jobs s1 = Part000.jobs s0 /\ Part000.tasks s1 = Part000.tasks s0.
Proof.
  intros Hinv Hret s0 s1.
  pose proof (inv_unschedule000 zone m s (Part000.id r) Hinv) as H0.
  pose proof (unscheduleRule_removes (Part000.id r) s) as Hnone.
  fold s0 in H0, Hnone. subst s1. revert Hret.
  destruct (scheduleRule_cases000 accepts zone r s) as (t1 & t2 & t3 & _ & ->).
  fold s0.
  destruct (negb (Part000.enabled r));
    [intros _; cbn [snd]; rewrite (unscheduleRule_absent _ _ Hnone); split; reflexivity|].
  destruct (negb _); [discriminate|].
  destruct (negb _); [discriminate|].
  destruct (negb _); [discriminate|]. intros _. cbn [snd].
  assert (Hdead : forall h, (Part000.next_task s0 <= h)%nat ->
                            Part000.tasks s0 !! h = None).
  { intros h Hle. destruct (Part000.tasks s0 !! h) eqn:E; [|reflexivity].
    pose proof (Part000.inv_bound _ _ _ H0 h (ex_intro _ _ E)). lia. }
  unfold Part000.unscheduleRule.
  cbn [Part000.jobs Part000.tasks Part000.next_task].
  rewrite lookup_insert_eq.
  cbn [Part000.handles Part000.job_stop Part000.job_start Part000.job_enforce foldl
       Part000.task_stop Part000.jobs Part000.tasks Part000.next_task].
  split.
  - rewrite delete_insert_eq. apply delete_id. exact Hnone.
  - set (n := Part000.next_task s0) in *. apply map_eq. intros h.
    destruct (decide (h = n)) as [->|Hn];
      [rewrite lookup_delete_ne, lookup_delete_ne, lookup_delete_eq by lia;
       symmetry; apply Hdead; lia|].
    destruct (decide (h = S n)) as [->|Hn1];
      [rewrite lookup_delete_ne, lookup_delete_eq by lia;
       symmetry; apply Hdead; lia|].
    destruct (decide (h = S (S n))) as [->|Hn2];
      [rewrite lookup_delete_eq; symmetry; apply Hdead; lia|].
    rewrite !lookup_delete_ne by congruence.
    rewrite !lookup_insert_ne by congruence. reflexivity.
Qed.

Lemma schedule_then_unschedule001 accepts sci_head zone m s r :
  Part001.registry_inv sci_head zone m s ->
  fst (Part001.scheduleRule accepts sci_head zone r s) = Returned tt ->
  let s0 := Part001.unschedule (Part001.id r) s in
  let s1 := Part001.unschedule (Part001.id r)
              (snd (Part001.scheduleRule accepts sci_head zone r s)) in
  Part001.schedulers s1 = Part001.schedulers s0 /\ Part001.tasks s1 = Part001.tasks s0.
Proof.
  intros Hinv Hret s0 s1.
  pose proof (inv_unschedule001 sci_head zone m s (Part001.id r) Hinv) as H0.
  pose proof (unschedule_removes (Part001.id r) s) as Hnone.
  fold s0 in H0, Hnone. subst s1. revert Hret.
  destruct (scheduleRule_cases001 accepts sci_head zone r s) as (t1 & t2 & t3 & _ & ->).
  fold s0.
  destruct (negb _); [discriminate|].
  destruct (negb _); [discriminate|].
  destruct (negb _); [discriminate|]. intros _. cbn [snd].
  assert (Hdead : forall h, (Part001.next_task s0 <= h)%nat ->
                            Part001.tasks s0 !! h = None).
  { intros h Hle. destruct (Part001.tasks s0 !! h) eqn:E; [|reflexivity].
    pose proof (Part001.inv_bound _ _ _ _ H0 h (ex_intro _ _ E)). lia. }
  unfold Part001.unschedule.
  cbn [Part001.schedulers Part001.tasks Part001.next_task].
  rewrite lookup_insert_eq.
  cbn [foldl Part001.task_stop Part001.schedulers Part001.tasks Part001.next_task].
  split.
  - rewrite delete_insert_eq. apply delete_id. exact Hnone.
  - set (n := Part001.next_task s0) in *. apply map_eq. intros h.
    destruct (decide (h = n)) as [->|Hn];
      [rewrite lookup_delete_ne, lookup_delete_ne, lookup_delete_eq by lia;
       symmetry; apply Hdead; lia|].
    destruct (decide (h = S n)) as [->|Hn1];
      [rewrite lookup_delete_ne, lookup_delete_eq by lia;
       symmetry; apply Hdead; lia|].
    destruct (decide (h = S (S n))) as [->|Hn2];
      [rewrite lookup_delete_eq; symmetry; apply Hdead; lia|].
    rewrite !lookup_delete_ne by congruence.
    rewrite !lookup_insert_ne by congruence. reflexivity.
Qed.

(** X11.  In both servers [scheduleRule] leaves none of the tasks of the
    id's old entry running, whether it returns or throws.  When it returns,
    unscheduling the id afterwards leaves the registry and the running
    tasks as unscheduling alone would have: none of the tasks it created
    survives. *)
Theorem schedule_then_unschedule :
  (forall accepts DEFAULT_TZ ops r,
      let s := Part000.replay accepts DEFAULT_TZ ops in
      let out := Part000.scheduleRule accepts DEFAULT_TZ r s in
      let s0 := Part000.unscheduleRule (Part000.id r) s in
      let s1 := Part000.unscheduleRule (Part000.id r) (snd out) in
      (forall j h, Part000.jobs s !! Part000.id r = Some j -> h ∈ Part000.handles j ->
         Part000.tasks (snd out) !! h = None)
      /\ (fst out = Returned tt ->
          Part000.jobs s1 = Part000.jobs s0 /\ Part000.tasks s1 = Part000.tasks s0))
  /\ (forall accepts sci_head ACCOUNT_TIMEZONE_DEFAULT ops r,
      let s := Part001.replay accepts sci_head ACCOUNT_TIMEZONE_DEFAULT ops in
      let out := Part001.scheduleRule accepts sci_head ACCOUNT_TIMEZONE_DEFAULT r s in
      let s0 := Part001.unschedule (Part001.id r) s in
      let s1 := Part001.unschedule (Part001.id r) (snd out) in
      (forall set h, Part001.schedulers s !! Part001.id r = Some set -> h ∈ set ->
         Part001.tasks (snd out) !! h = None)
      /\ (fst out = Returned tt ->
          Part001.schedulers s1 = Part001.schedulers s0
          /\ Part001.tasks s1 = Part001.tasks s0)).
Proof.
  split.
  - intros accepts zone ops r s out s0 s1.
    pose proof (inv_replay000 accepts zone ops) as Hinv. fold s in Hinv.
    split.
    + intros j h. apply (scheduleRule_cancels000 accepts zone _ s r j h Hinv).
    + intros Hret. apply (schedule_then_unschedule000 accepts zone _ s r Hinv Hret).
  - intros accepts sci_head zone ops r s out s0 s1.
    pose proof (inv_replay001 accepts sci_head zone ops) as Hinv. fold s in Hinv.
    split.
    + intros set h. apply (scheduleRule_cancels001 accepts sci_head zone _ s r set h Hinv).
    + intros Hret.
      apply (schedule_then_unschedule001 accepts sci_head zone _ s r Hinv Hret).
Qed.

Lemma schedule_then_unschedule_witness :
  let s := Part000.replay Scenario.node_cron000 "UTC" Scenario.requests000 in
  let out := Part000.scheduleRule Scenario.node_cron000 "UTC" Scenario.summer000 s in
  Part000.tasks (Part000.unscheduleRule 2 (snd out))
  = Part000.tasks (Part000.unscheduleRule 2 s).
Proof.
  destruct schedule_then_unschedule as [H0 _].
  destruct (H0 Scenario.node_cron000 "UTC" Scenario.requests000 Scenario.summer000)
    as [_ H].
  apply H. vm_compute. reflexivity.
Defined.

(** ** The request handlers of the SQLite server *)

Lemma elem_of_List_filter {T} (f : T -> bool) (l : list T) x :
  x ∈ List.filter f l <-> x ∈ l /\ f x = true.
Proof. rewrite !list_elem_of_In. apply filter_In. Qed.

Lemma mirrors_snoc accepts zone rows m row :
  (forall r, r ∈ rows -> Part000.id r <> Part000.id row) ->
  mirrors000 accepts zone rows m ->
  mirrors000 accepts zone (rows ++ [row])
    (Part000.installed_step accepts zone m (Part000.Schedule row)).
Proof.
  intros Hfresh Hm k r. cbn [Part000.installed_step].
  rewrite elem_of_app, list_elem_of_singleton.
  destruct (Part000.enabled row && Part000.accepted accepts zone row) eqn:Hen.
  - apply andb_prop in Hen as [He Ha].
    destruct (decide (k = Part000.id row)) as [->|Hk].
    + rewrite lookup_insert_eq. split.
      * intros [= <-]. auto.
      * intros ([Hin| ->] & Hid & _); [exfalso; eapply Hfresh; eauto|reflexivity].
    + rewrite lookup_insert_ne by congruence. rewrite (Hm k r). split.
      * intros (? & ? & ? & ?); auto.
      * intros ([Hin| ->] & Hid & He' & Ha'); [auto|congruence].
  - destruct (decide (k = Part000.id row)) as [->|Hk].
    + rewrite lookup_delete_eq. split; [discriminate|].
      intros ([Hin| ->] & Hid & He & Ha); [exfalso; eapply Hfresh; eauto|].
      rewrite He, Ha in Hen. discriminate.
    + rewrite lookup_delete_ne by congruence. rewrite (Hm k r). split.
      * intros (? & ? & ? & ?); auto.
      * intros ([Hin| ->] & Hid & He & Ha); [auto|congruence].
Qed.

Lemma mirrors_update accepts zone rows m row updated :
  row ∈ rows ->
  Part000.id row = Part000.id updated ->
  mirrors000 accepts zone rows m ->
  mirrors000 accepts zone
    (map (fun r => if Part000.id r =? Part000.id updated then updated else r) rows)
    (Part000.installed_step accepts zone m (Part000.Schedule updated)).
Proof.
  intros Hrow Hid Hm k r. cbn [Part000.installed_step].
  rewrite list_elem_of_fmap.
  assert (Hup : forall r', (exists y, r' = (if Part000.id y =? Part000.id updated
                                            then updated else y) /\ y ∈ rows)
                           /\ Part000.id r' = Part000.id updated
                           <-> r' = updated).
  { intros r'. split.
    - intros [(y & -> & Hy) Hr']. destruct (Z.eqb_spec (Part000.id y) (Part000.id updated));
        [reflexivity|contradiction].
    - intros ->. split; [|reflexivity]. exists row. split; [|exact Hrow].
      rewrite Hid, Z.eqb_refl. reflexivity. }
  assert (Hother : forall r', Part000.id r' <> Part000.id updated ->
                     ((exists y, r' = (if Part000.id y =? Part000.id updated
                                       then updated else y) /\ y ∈ rows)
                      <-> r' ∈ rows)).
  { intros r' Hne. split.
    - intros (y & -> & Hy).
      destruct (Z.eqb_spec (Part000.id y) (Part000.id updated)); [contradiction|exact Hy].
    - intros Hin. exists r'. split; [|exact Hin].
      destruct (Z.eqb_spec (Part000.id r') (Part000.id updated)); [contradiction|reflexivity]. }
  destruct (Part000.enabled updated && Part000.accepted accepts zone updated) eqn:Hen.
  - apply andb_prop in Hen as [He Ha].
    destruct (decide (k = Part000.id updated)) as [->|Hk].
    + rewrite lookup_insert_eq. split.
      * intros [= <-]. split; [apply (Hup updated); reflexivity|auto].
      * intros (Hin & Hr & _). f_equal. symmetry. apply Hup. auto.
    + rewrite lookup_insert_ne by congruence. rewrite (Hm k r). split.
      * intros (Hin & <- & He' & Ha'). split; [|auto].
        apply Hother; [congruence|exact Hin].
      * intros (Hin & <- & He' & Ha'). split; [|auto].
        apply Hother in Hin; [exact Hin|congruence].
  - destruct (decide (k = Part000.id updated)) as [->|Hk].
    + rewrite lookup_delete_eq. split; [discriminate|].
      intros (Hin & Hr & He & Ha). assert (r = updated) as -> by (apply Hup; auto).
      rewrite He, Ha in Hen. discriminate.
    + rewrite lookup_delete_ne by congruence. rewrite (Hm k r). split.
      * intros (Hin & <- & He & Ha). split; [|auto].
        apply Hother; [congruence|exact Hin].
      * intros (Hin & <- & He & Ha). split; [|auto].
        apply Hother in Hin; [exact Hin|congruence].
Qed.

Lemma mirrors_delete accepts zone rows m rid :
  mirrors000 accepts zone rows m ->
  mirrors000 accepts zone (List.filter (fun r => negb (Part000.id r =? rid)) rows)
    (delete rid m).
Proof.
  intros Hm k r. rewrite lookup_delete, elem_of_List_filter.
  case_decide as Hk.
  - subst k. split; [discriminate|]. intros ([_ Hne] & Hid & _).
    rewrite Hid, Z.eqb_refl in Hne. discriminate.
  - rewrite (Hm k r). split.
    + intros (Hin & <- & He). split; [|auto]. split; [exact Hin|].
      apply negb_true_iff, Z.eqb_neq. congruence.
    + intros ([Hin _] & Hid & He). auto.
Qed.

Lemma select_Some rid t row :
  Api000.select rid t = Some row -> row ∈ Api000.rows t /\ Part000.id row = rid.
Proof.
  unfold Api000.select. intros H. apply find_some in H as [Hin Hid].
  split; [apply list_elem_of_In; exact Hin|apply Z.eqb_eq; exact Hid].
Qed.

Lemma select_None rid t :
  Api000.select rid t = None -> forall r, r ∈ Api000.rows t -> Part000.id r <> rid.
Proof.
  unfold Api000.select. intros H r Hin Hid.
  apply list_elem_of_In in Hin.
  pose proof (find_none _ _ H r Hin) as Hf. cbn beta in Hf.
  apply Z.eqb_neq in Hf. contradiction.
Qed.

Lemma update_ids row t :
  map Part000.id (Api000.rows (Api000.update row t)) = map Part000.id (Api000.rows t).
Proof.
  unfold Api000.update. cbn [Api000.rows]. rewrite map_map. apply map_ext.
  intros r. destruct (Z.eqb_spec (Part000.id r) (Part000.id row)); congruence.
Qed.

Lemma table_ok_update row t :
  Part000.id row <= Api000.seq t -> table_ok t -> table_ok (Api000.update row t).
Proof.
  intros Hle [Hnd Hall]. split; [rewrite update_ids; exact Hnd|].
  unfold Api000.update. cbn [Api000.rows Api000.seq].
  apply Forall_fmap. eapply Forall_impl; [exact Hall|].
  intros r Hr. cbn. destruct (Part000.id r =? Part000.id row); assumption.
Qed.

Lemma table_ok_delete rid t : table_ok t -> table_ok (Api000.delete_from rid t).
Proof.
  intros [Hnd Hall]. unfold Api000.delete_from. split; cbn [Api000.rows Api000.seq].
  - pose proof (fmap_sublist Part000.id _ _
                  (filter_sublist (fun r => negb (Part000.id r =? rid)) (Api000.rows t)))
      as Hsub.
    eauto using sublist_NoDup.
  - rewrite Forall_forall in *. intros r [Hin _]%elem_of_List_filter. auto.
Qed.

Lemma table_ok_insert row t :
  Part000.id row = Api000.seq t + 1 ->
  table_ok t ->
  table_ok {| Api000.rows := Api000.rows t ++ [row]; Api000.seq := Part000.id row |}.
Proof.
  intros Hid [Hnd Hall]. split; cbn [Api000.rows Api000.seq].
  - rewrite map_app. cbn [map]. apply NoDup_app. split; [exact Hnd|].
    split; [|apply NoDup_singleton].
    intros k Hk ->%list_elem_of_singleton.
    apply list_elem_of_fmap in Hk as (r & Hr & Hin).
    rewrite Forall_forall in Hall. specialize (Hall r Hin). lia.
  - apply Forall_app. split; [|constructor; [lia|constructor]].
    eapply Forall_impl; [exact Hall|]. cbn. intros r Hr. lia.
Qed.

(** What [scheduleRule] answers and where it leaves the registry, as a
    pair. *)
Lemma scheduleRule_pair000 accepts zone r s :
  Part000.scheduleRule accepts zone r s
  = (fst (Part000.scheduleRule accepts zone r s),
     snd (Part000.scheduleRule accepts zone r s)).
Proof. destruct (Part000.scheduleRule accepts zone r s); reflexivity. Qed.

Section Served.

Variable accepts : Part000.cron_expr -> string -> bool.
Variable DEFAULT_TZ : string.

(** The start-up loop, when it comes to its end. *)
Lemma schedule_rows_returned l : forall s m,
  Part000.registry_inv DEFAULT_TZ m s ->
  fst (Api000.schedule_rows accepts DEFAULT_TZ l s) = Returned tt ->
  Part000.registry_inv DEFAULT_TZ
    (foldl (Part000.installed_step accepts DEFAULT_TZ) m (Part000.Schedule <$> l))
    (snd (Api000.schedule_rows accepts DEFAULT_TZ l s))
  /\ (Part000.no_stray s ->
      Part000.no_stray (snd (Api000.schedule_rows accepts DEFAULT_TZ l s))).
Proof.
  induction l as [|r l IH]; intros s m Hinv Hret; [split; [exact Hinv|auto]|].
  cbn [Api000.schedule_rows fmap list_fmap foldl] in *.
  pose proof (inv_schedule000 accepts DEFAULT_TZ m s r Hinv) as H1.
  pose proof (fun H => stray_schedule000 accepts DEFAULT_TZ r s H) as H2.
  destruct (Part000.scheduleRule accepts DEFAULT_TZ r s) as [[[]|e] s1];
    cbn [fst snd] in *; [|discriminate Hret].
  destruct (IH s1 _ H1 Hret) as [IH1 IH2]. split; [exact IH1|].
  intros Hs. apply IH2, H2; [exact Hs|reflexivity].
Qed.

Lemma mirrors_schedule_all l : forall m,
  NoDup (map Part000.id l) ->
  (forall r, r ∈ l -> m !! Part000.id r = None) ->
  forall k r,
    foldl (Part000.installed_step accepts DEFAULT_TZ) m (Part000.Schedule <$> l) !! k
    = Some r
    <-> m !! k = Some r
        \/ (r ∈ l /\ Part000.id r = k /\ Part000.enabled r = true
            /\ Part000.accepted accepts DEFAULT_TZ r = true).
Proof.
  induction l as [|x l IH]; intros m Hnd Hfresh k r.
  - cbn. split; [auto|]. intros [H|[H _]]; [exact H|].
    apply elem_of_nil in H. contradiction.
  - cbn [fmap list_fmap foldl map] in *. apply NoDup_cons in Hnd as [Hx Hnd].
    rewrite IH; [|exact Hnd|].
    2:{ intros r' Hr'. cbn [Part000.installed_step].
        assert (Part000.id r' <> Part000.id x).
        { intros Heq. apply Hx. rewrite <- Heq. apply list_elem_of_fmap. eauto. }
        destruct (_ && _);
          [rewrite lookup_insert_ne by congruence|rewrite lookup_delete_ne by congruence];
          apply Hfresh; right; exact Hr'. }
    cbn [Part000.installed_step]. rewrite elem_of_cons.
    pose proof (Hfresh x ltac:(left)) as Hxm.
    destruct (Part000.enabled x && Part000.accepted accepts DEFAULT_TZ x) eqn:Hen.
    + apply andb_prop in Hen as [He Ha].
      destruct (decide (k = Part000.id x)) as [->|Hk].
      * rewrite lookup_insert_eq, Hxm. split.
        -- intros [[= <-]|(Hin & Hid & _)]; [right; auto|].
           exfalso. apply Hx. rewrite <- Hid. apply list_elem_of_fmap. eauto.
        -- intros [H|([->|Hin] & Hid & _)]; [discriminate|left; reflexivity|].
           exfalso. apply Hx. rewrite <- Hid. apply list_elem_of_fmap. eauto.
      * rewrite lookup_insert_ne by congruence. split.
        -- intros [H|(Hin & Hid & Hr)]; [left; exact H|right; auto].
        -- intros [H|([->|Hin] & Hid & Hr)]; [left; exact H|congruence|right; auto].
    + destruct (decide (k = Part000.id x)) as [->|Hk].
      * rewrite lookup_delete_eq, Hxm. split.
        -- intros [H|(Hin & Hid & _)]; [discriminate|].
           exfalso. apply Hx. rewrite <- Hid. apply list_elem_of_fmap. eauto.
        -- intros [H|([->|Hin] & Hid & He & Ha)]; [discriminate| |].
           ++ rewrite He, Ha in Hen. discriminate.
           ++ exfalso. apply Hx. rewrite <- Hid. apply list_elem_of_fmap. eauto.
      * rewrite lookup_delete_ne by congruence. split.
        -- intros [H|(Hin & Hid & Hr)]; [left; exact H|right; auto].
        -- intros [H|([->|Hin] & Hid & Hr)]; [left; exact H|congruence|right; auto].
Qed.

Lemma served_init t :
  table_ok t -> served000 accepts DEFAULT_TZ (Api000.init accepts DEFAULT_TZ t)
  /\ Part000.no_stray (Api000.registry (Api000.init accepts DEFAULT_TZ t)).
Proof.
  intros Hok. unfold Api000.init.
  set (l := List.filter Part000.enabled (Api000.rows t)).
  assert (Hnd : NoDup (map Part000.id l)).
  { destruct Hok as [Hnd _].
    pose proof (fmap_sublist Part000.id _ _
                  (filter_sublist Part000.enabled (Api000.rows t))) as Hsub.
    eauto using sublist_NoDup. }
  pose proof (schedule_rows_returned l Part000.init ∅ (inv_init000 DEFAULT_TZ)) as Hret.
  destruct (Api000.schedule_rows accepts DEFAULT_TZ l Part000.init) as [[[]|e] s];
    cbn [fst snd] in Hret.
  - destruct (Hret eq_refl) as [Hinv Hstray].
    split; [|apply Hstray, no_stray_init000].
    split; [exact Hok|]. cbn [Api000.db Api000.registry Api000.up].
    eexists. split; [exact Hinv|].
    intros k r. rewrite (mirrors_schedule_all l ∅ Hnd (fun _ _ => lookup_empty _)).
    rewrite lookup_empty. subst l. rewrite elem_of_List_filter. split.
    + intros [H|([Hin _] & Hid & He & Ha)]; [discriminate|auto].
    + intros (Hin & Hid & He & Ha). right. auto.
  - split; [|apply no_stray_init000].
    split; [exact Hok|]. cbn [Api000.db Api000.registry Api000.up].
    exists ∅. split; [apply inv_init000|split; reflexivity].
Qed.

Lemma served_handle q sv :
  served000 accepts DEFAULT_TZ sv ->
  served000 accepts DEFAULT_TZ (snd (Api000.handle accepts DEFAULT_TZ q sv)).
Proof.
  intros Hsv.
  destruct q as [b|param b|param|]; cbn [Api000.handle];
    [| | |apply served_init; apply Hsv].
  all: destruct (Api000.up sv) eqn:Hup; [|exact Hsv].
  all: pose proof Hsv as Hsame; destruct Hsv as [Hok (m & Hinv & Hm)];
    rewrite Hup in Hm;
    cbn [Api000.answered fst snd].
  - unfold Api000.post_rules.
    destruct (Api000.b_account_id b) as [account|];
      [|exact Hsame].
    destruct (Api000.b_level b) as [lvl|];
      [|exact Hsame].
    destruct (Api000.b_stop_time b) as [stop|];
      [|exact Hsame].
    destruct (Api000.b_start_time b) as [start|];
      [|exact Hsame].
    destruct (Api000.level_ok lvl);
      [|exact Hsame].
    set (row := Part000.Build_rule _ _ _ _ _ _ _ _ _ _ _ _).
    rewrite (scheduleRule_pair000 accepts DEFAULT_TZ row (Api000.registry sv)).
    assert (Hnew : served000 accepts DEFAULT_TZ
              {| Api000.db := {| Api000.rows := Api000.rows (Api000.db sv) ++ [row];
                                 Api000.seq := Api000.seq (Api000.db sv) + 1 |};
                 Api000.registry :=
                   snd (Part000.scheduleRule accepts DEFAULT_TZ row (Api000.registry sv));
                 Api000.up := Api000.up sv |}).
    { split; cbn [Api000.db Api000.registry Api000.rows Api000.up].
      - apply (table_ok_insert row (Api000.db sv)); [reflexivity|exact Hok].
      - exists (Part000.installed_step accepts DEFAULT_TZ m (Part000.Schedule row)).
        split; [apply inv_schedule000; exact Hinv|]. rewrite Hup.
        apply mirrors_snoc; [|exact Hm].
        intros r Hin. destruct Hok as [_ Hall]. rewrite Forall_forall in Hall.
        specialize (Hall r Hin). subst row. cbn [Part000.id]. lia. }
    destruct (fst (Part000.scheduleRule accepts DEFAULT_TZ row (Api000.registry sv)));
      cbn [snd]; exact Hnew.
  - unfold Api000.patch_rule.
    destruct param as [|rid]; [exact Hsame|].
    destruct (Api000.select rid (Api000.db sv)) as [row|] eqn:Hsel;
      [|exact Hsame].
    destruct (Api000.level_ok _);
      [|exact Hsame].
    set (updated := Part000.Build_rule _ _ _ _ _ _ _ _ _ _ _ _).
    rewrite (scheduleRule_pair000 accepts DEFAULT_TZ updated (Api000.registry sv)).
    destruct (select_Some _ _ _ Hsel) as [Hin Hid].
    assert (Hnew : served000 accepts DEFAULT_TZ
              {| Api000.db := Api000.update updated (Api000.db sv);
                 Api000.registry :=
                   snd (Part000.scheduleRule accepts DEFAULT_TZ updated
                          (Api000.registry sv));
                 Api000.up := Api000.up sv |}).
    { split; cbn [Api000.db Api000.registry Api000.up].
      - apply table_ok_update; [|exact Hok].
        destruct Hok as [_ Hall]. rewrite Forall_forall in Hall.
        specialize (Hall row Hin). subst updated. cbn [Part000.id]. lia.
      - exists (Part000.installed_step accepts DEFAULT_TZ m (Part000.Schedule updated)).
        split; [apply inv_schedule000; exact Hinv|]. rewrite Hup.
        apply (mirrors_update _ _ _ _ row updated); [exact Hin|exact Hid|exact Hm]. }
    destruct (fst (Part000.scheduleRule accepts DEFAULT_TZ updated (Api000.registry sv)));
      cbn [snd]; exact Hnew.
  - unfold Api000.delete_rule.
    destruct param as [|rid]; [exact Hsame|].
    cbn [snd]. split; cbn [Api000.db Api000.registry Api000.up].
    + apply table_ok_delete. exact Hok.
    + exists (delete rid m). split; [apply inv_unschedule000; exact Hinv|].
      rewrite Hup. apply mirrors_delete. exact Hm.
Qed.

Lemma served_serve qs : forall sv,
  served000 accepts DEFAULT_TZ sv ->
  served000 accepts DEFAULT_TZ (Api000.serve accepts DEFAULT_TZ sv qs).
Proof.
  induction qs as [|q qs IH]; intros sv Hsv; [exact Hsv|].
  cbn [Api000.serve foldl]. apply IH, served_handle, Hsv.
Qed.

Lemma served_fresh : served000 accepts DEFAULT_TZ (Api000.fresh accepts DEFAULT_TZ).
Proof.
  apply served_init. split; cbn; constructor.
Qed.

(** A request that is not answered with a 500 starts no task outside the
    registry. *)
Lemma stray_handle q sv :
  served000 accepts DEFAULT_TZ sv ->
  Part000.no_stray (Api000.registry sv) ->
  fst (Api000.handle accepts DEFAULT_TZ q sv) <> Some Api000.ServerError ->
  Part000.no_stray (Api000.registry (snd (Api000.handle accepts DEFAULT_TZ q sv))).
Proof.
  intros Hsv Hs.
  destruct q as [b|param b|param|]; cbn [Api000.handle];
    [| | |intros _; apply served_init; apply Hsv].
  all: destruct (Api000.up sv); [|intros _; exact Hs].
  all: cbn [Api000.answered fst snd].
  - unfold Api000.post_rules.
    destruct (Api000.b_account_id b), (Api000.b_level b), (Api000.b_stop_time b),
      (Api000.b_start_time b); try (intros _; exact Hs).
    destruct (Api000.level_ok _); [|intros _; exact Hs].
    set (row := Part000.Build_rule _ _ _ _ _ _ _ _ _ _ _ _).
    pose proof (stray_schedule000 accepts DEFAULT_TZ row _ Hs) as Hstray.
    destruct (Part000.scheduleRule accepts DEFAULT_TZ row (Api000.registry sv))
      as [[[]|e] s1]; cbn [fst snd Api000.registry] in *; [|congruence].
    intros _. apply Hstray. reflexivity.
  - unfold Api000.patch_rule. destruct param as [|rid]; [intros _; exact Hs|].
    destruct (Api000.select rid (Api000.db sv)); [|intros _; exact Hs].
    destruct (Api000.level_ok _); [|intros _; exact Hs].
    set (updated := Part000.Build_rule _ _ _ _ _ _ _ _ _ _ _ _).
    pose proof (stray_schedule000 accepts DEFAULT_TZ updated _ Hs) as Hstray.
    destruct (Part000.scheduleRule accepts DEFAULT_TZ updated (Api000.registry sv))
      as [[[]|e] s1]; cbn [fst snd Api000.registry] in *; [|congruence].
    intros _. apply Hstray. reflexivity.
  - unfold Api000.delete_rule. destruct param as [|rid]; [intros _; exact Hs|].
    intros _. cbn [snd Api000.registry]. apply stray_unschedule000. exact Hs.
Qed.

Lemma stray_serve qs : forall sv,
  served000 accepts DEFAULT_TZ sv ->
  Part000.no_stray (Api000.registry sv) ->
  Api000.no_error (Api000.responses accepts DEFAULT_TZ sv qs) ->
  Part000.no_stray (Api000.registry (Api000.serve accepts DEFAULT_TZ sv qs)).
Proof.
  induction qs as [|q qs IH]; intros sv Hsv Hs Hno; [exact Hs|].
  cbn [Api000.serve foldl Api000.responses] in *.
  apply Forall_cons in Hno as [Hq Hno].
  apply IH; [apply served_handle, Hsv|apply stray_handle; assumption|exact Hno].
Qed.

End Served.

(** X14.  The registry and the table.  From a fresh database, after any
    sequence of POST, PATCH and DELETE requests and restarts: the ids of the
    table are distinct; every registry entry is for an enabled row of the
    table, and its three tasks are distinct, running and configured from
    that row as it is stored; while the process runs, the registry has an
    entry for an id exactly when the table holds an enabled row of that id
    whose triggers [node-cron] accepts; a process that could not start has
    no registry; and when no request of the run was answered with a 500,
    every running task belongs to an entry. *)
Theorem registry_mirrors_table accepts DEFAULT_TZ qs :
  let sv := Api000.serve accepts DEFAULT_TZ (Api000.fresh accepts DEFAULT_TZ) qs in
  let rows := Api000.rows (Api000.db sv) in
  let s := Api000.registry sv in
  NoDup (map Part000.id rows)
  /\ (forall rid j, Part000.jobs s !! rid = Some j ->
        exists r, r ∈ rows /\ Part000.id r = rid /\ Part000.enabled r = true
                  /\ NoDup (Part000.handles j)
                  /\ (fun h => Part000.tasks s !! h) <$> Part000.handles j
                     = Some <$> Part000.triggers_of DEFAULT_TZ r)
  /\ (Api000.up sv = true ->
      forall rid, is_Some (Part000.jobs s !! rid)
                  <-> exists r, r ∈ rows /\ Part000.id r = rid
                                /\ Part000.enabled r = true
                                /\ Part000.accepted accepts DEFAULT_TZ r = true)
  /\ (Api000.up sv = false -> s = Part000.init)
  /\ (Api000.no_error
        (Api000.responses accepts DEFAULT_TZ (Api000.fresh accepts DEFAULT_TZ) qs) ->
      Part000.no_stray s).
Proof.
  intros sv rows s.
  destruct (served_serve accepts DEFAULT_TZ qs _ (served_fresh accepts DEFAULT_TZ))
    as [[Hnd _] (m & Hinv & Hm)].
  fold sv in Hnd, Hm, Hinv. fold rows in Hnd, Hm. fold s in Hinv, Hm.
  assert (Hdom : forall rid, is_Some (Part000.jobs s !! rid) <-> is_Some (m !! rid)).
  { intros rid. rewrite <- !not_eq_None_Some.
    rewrite (Part000.inv_dom _ _ _ Hinv rid). tauto. }
  assert (Hsub : forall k r, m !! k = Some r ->
                   r ∈ rows /\ Part000.id r = k /\ Part000.enabled r = true).
  { intros k r Hr. destruct (Api000.up sv).
    - apply Hm in Hr as (? & ? & ? & ?). auto.
    - destruct Hm as [-> _]. rewrite lookup_empty in Hr. discriminate. }
  split; [exact Hnd|]. split; [|split; [|split]].
  - intros rid j Hj.
    destruct (proj1 (Hdom rid) (ex_intro _ _ Hj)) as [r Hr].
    destruct (Hsub rid r Hr) as (Hin & Hid & Hen).
    exists r. split; [exact Hin|]. split; [exact Hid|]. split; [exact Hen|].
    split; [exact (Part000.inv_nodup _ _ _ Hinv _ _ Hj)|].
    exact (Part000.inv_tasks _ _ _ Hinv _ _ _ Hr Hj).
  - intros Hup rid. rewrite Hup in Hm. rewrite Hdom. split.
    + intros [r Hr]. exists r. apply Hm. exact Hr.
    + intros (r & Hr). exists r. apply Hm. exact Hr.
  - intros Hup. rewrite Hup in Hm. apply Hm.
  - intros Hno. subst s sv.
    apply (stray_serve accepts DEFAULT_TZ qs _ (served_fresh accepts DEFAULT_TZ));
      [|exact Hno].
    apply served_init. split; cbn; constructor.
Qed.

Lemma registry_mirrors_table_witness :
  let sv := Api000.serve Scenario.node_cron000 "UTC"
              (Api000.fresh Scenario.node_cron000 "UTC") Cases.requests000 in
  Part000.no_stray (Api000.registry sv)
  /\ is_Some (Part000.jobs (Api000.registry sv) !! 1).
Proof.
  destruct (registry_mirrors_table Scenario.node_cron000 "UTC" Cases.requests000)
    as (_ & _ & Hup & _ & Hquiet).
  split.
  - apply Hquiet. vm_compute. repeat constructor; discriminate.
  - apply (Hup eq_refl 1). eexists. split; [vm_compute; left|].
    vm_compute. repeat split; reflexivity.
Defined.

(** *** Ids *)

Lemma find_snoc {T} (f : T -> bool) l x :
  find f (l ++ [x])
  = match find f l with
    | Some y => Some y
    | None => if f x then Some x else None
    end.
Proof.
  induction l as [|y l IH]; [reflexivity|]. cbn [app find].
  destruct (f y); [reflexivity|exact IH].
Qed.

Lemma post_seq accepts DEFAULT_TZ b sv :
  Api000.seq (Api000.db sv)
  <= Api000.seq (Api000.db (snd (Api000.post_rules accepts DEFAULT_TZ b sv)))
  /\ (forall rid, fst (Api000.post_rules accepts DEFAULT_TZ b sv) = Api000.Created rid ->
        rid = Api000.seq (Api000.db sv) + 1
        /\ Api000.seq (Api000.db (snd (Api000.post_rules accepts DEFAULT_TZ b sv))) = rid).
Proof.
  unfold Api000.post_rules.
  destruct (Api000.b_account_id b), (Api000.b_level b), (Api000.b_stop_time b),
    (Api000.b_start_time b); try (cbn; split; [lia|discriminate]).
  destruct (Api000.level_ok _); [|cbn; split; [lia|discriminate]].
  destruct (Part000.scheduleRule _ _ _ _) as [[[]|e] s1]; cbn;
    (split; [lia|]); [|discriminate].
  intros rid [= <-]. split; reflexivity.
Qed.

Lemma handle_seq accepts DEFAULT_TZ q sv :
  Api000.seq (Api000.db sv)
  <= Api000.seq (Api000.db (snd (Api000.handle accepts DEFAULT_TZ q sv)))
  /\ (forall rid,
        fst (Api000.handle accepts DEFAULT_TZ q sv) = Some (Api000.Created rid) ->
        rid = Api000.seq (Api000.db sv) + 1
        /\ Api000.seq (Api000.db (snd (Api000.handle accepts DEFAULT_TZ q sv))) = rid).
Proof.
  destruct q as [b|param b|param|]; cbn [Api000.handle].
  4:{ unfold Api000.init. destruct (Api000.schedule_rows _ _ _ _) as [[|] ?];
        cbn; (split; [lia|discriminate]). }
  all: destruct (Api000.up sv); [|cbn; split; [lia|discriminate]].
  all: cbn [Api000.answered fst snd].
  - destruct (post_seq accepts DEFAULT_TZ b sv) as [H1 H2]. split; [exact H1|].
    intros rid [= H]. apply H2. exact H.
  - unfold Api000.patch_rule. destruct param; [cbn; split; [lia|discriminate]|].
    destruct (Api000.select _ _); [|cbn; split; [lia|discriminate]].
    destruct (Api000.level_ok _); [|cbn; split; [lia|discriminate]].
    destruct (Part000.scheduleRule _ _ _ _) as [[[]|e] s1]; cbn;
      (split; [lia|discriminate]).
  - unfold Api000.delete_rule. destruct param; cbn; (split; [lia|discriminate]).
Qed.

Lemma created_sorted accepts DEFAULT_TZ qs : forall sv,
  StronglySorted Z.lt (Api000.created (Api000.responses accepts DEFAULT_TZ sv qs))
  /\ Forall (fun rid => Api000.seq (Api000.db sv) < rid
                        <= Api000.seq (Api000.db (Api000.serve accepts DEFAULT_TZ sv qs)))
       (Api000.created (Api000.responses accepts DEFAULT_TZ sv qs)).
Proof.
  induction qs as [|q qs IH]; intros sv; [split; constructor|].
  cbn [Api000.responses Api000.serve foldl].
  destruct (IH (snd (Api000.handle accepts DEFAULT_TZ q sv))) as [IHs IHb].
  destruct (handle_seq accepts DEFAULT_TZ q sv) as [Hmono Hnew].
  fold (Api000.serve accepts DEFAULT_TZ (snd (Api000.handle accepts DEFAULT_TZ q sv)) qs).
  assert (Hlater :
            Api000.seq (Api000.db (snd (Api000.handle accepts DEFAULT_TZ q sv)))
            <= Api000.seq (Api000.db
                 (Api000.serve accepts DEFAULT_TZ
                    (snd (Api000.handle accepts DEFAULT_TZ q sv)) qs))).
  { clear. generalize (snd (Api000.handle accepts DEFAULT_TZ q sv)) as sv'.
    induction qs as [|q' qs IH]; intros sv'; [cbn; lia|].
    cbn [Api000.serve foldl]. etransitivity; [|apply IH].
    apply handle_seq. }
  unfold Api000.created in *. cbn [omap].
  destruct (fst (Api000.handle accepts DEFAULT_TZ q sv)) as [[rid| | |]|] eqn:Hresp;
    try (split; [exact IHs|]; eapply Forall_impl; [exact IHb|]; cbn; intros; lia).
  destruct (Hnew rid eq_refl) as [Hrid Hseq]. split.
  - constructor; [exact IHs|]. eapply Forall_impl; [exact IHb|]. cbn. intros; lia.
  - constructor; [lia|]. eapply Forall_impl; [exact IHb|]. cbn. intros; lia.
Qed.

(** Every registry entry is for a row of the table. *)
Lemma entry_has_row accepts DEFAULT_TZ sv rid :
  served000 accepts DEFAULT_TZ sv ->
  is_Some (Part000.jobs (Api000.registry sv) !! rid) ->
  exists r, r ∈ Api000.rows (Api000.db sv) /\ Part000.id r = rid.
Proof.
  intros [_ (m & Hinv & Hm)] Hj.
  destruct (m !! rid) as [r|] eqn:Hr.
  2:{ apply (Part000.inv_dom _ _ _ Hinv) in Hr. destruct Hj as [j Hj]. congruence. }
  destruct (Api000.up sv).
  - apply Hm in Hr as (Hin & Hid & _). eauto.
  - destruct Hm as [-> _]. rewrite lookup_empty in Hr. discriminate.
Qed.

(** X15.  The ids the POST handler answers with are strictly increasing
    along any run, from any state, and above the table's sequence: an id is
    never handed out twice, not even after its rule was deleted.  From a
    fresh database, the id of a new rule is above every stored id, no row
    and no registry entry has it when the handler starts. *)
Theorem post_ids_never_reused accepts DEFAULT_TZ :
  (forall sv qs,
      StronglySorted Z.lt (Api000.created (Api000.responses accepts DEFAULT_TZ sv qs))
      /\ Forall (fun rid => Api000.seq (Api000.db sv) < rid)
           (Api000.created (Api000.responses accepts DEFAULT_TZ sv qs)))
  /\ (forall qs b rid,
        let sv := Api000.serve accepts DEFAULT_TZ (Api000.fresh accepts DEFAULT_TZ) qs in
        fst (Api000.post_rules accepts DEFAULT_TZ b sv) = Api000.Created rid ->
        Forall (fun r => Part000.id r < rid) (Api000.rows (Api000.db sv))
        /\ Api000.select rid (Api000.db sv) = None
        /\ Part000.jobs (Api000.registry sv) !! rid = None).
Proof.
  split.
  - intros sv qs. destruct (created_sorted accepts DEFAULT_TZ qs sv) as [Hs Hb].
    split; [exact Hs|]. eapply Forall_impl; [exact Hb|]. cbn. intros; lia.
  - intros qs b rid sv Hresp.
    pose proof (served_serve accepts DEFAULT_TZ qs _ (served_fresh accepts DEFAULT_TZ))
      as Hsv.
    fold sv in Hsv. destruct (Hsv) as [[Hnd Hall] _].
    destruct (post_seq accepts DEFAULT_TZ b sv) as [_ Hnew].
    destruct (Hnew rid Hresp) as [Hrid _].
    assert (Hbelow : Forall (fun r => Part000.id r < rid) (Api000.rows (Api000.db sv))).
    { eapply Forall_impl; [exact Hall|]. cbn. intros; lia. }
    split; [exact Hbelow|]. split.
    + unfold Api000.select. destruct (find _ _) as [r|] eqn:Hf; [|reflexivity].
      apply find_some in Hf as [Hin Hid]. apply list_elem_of_In in Hin.
      apply Z.eqb_eq in Hid. rewrite Forall_forall in Hbelow.
      specialize (Hbelow r Hin). lia.
    + destruct (Part000.jobs (Api000.registry sv) !! rid) as [j|] eqn:Hj; [|reflexivity].
      destruct (entry_has_row accepts DEFAULT_TZ sv rid Hsv (ex_intro _ _ Hj))
        as (r & Hin & Hid).
      rewrite Forall_forall in Hbelow. specialize (Hbelow r Hin). lia.
Qed.

(** *** One rule at a time *)

Lemma select_insert rid row t k :
  rid <> Part000.id row ->
  Api000.select rid {| Api000.rows := Api000.rows t ++ [row]; Api000.seq := k |}
  = Api000.select rid t.
Proof.
  intros Hne. unfold Api000.select. cbn [Api000.rows]. rewrite find_snoc.
  destruct (find _ (Api000.rows t)); [reflexivity|].
  destruct (Z.eqb_spec (Part000.id row) rid); [congruence|reflexivity].
Qed.

Lemma select_update rid row t :
  rid <> Part000.id row ->
  Api000.select rid (Api000.update row t) = Api000.select rid t.
Proof.
  intros Hne. unfold Api000.select, Api000.update. cbn [Api000.rows].
  induction (Api000.rows t) as [|r l IH]; [reflexivity|]. cbn [map find].
  destruct (Z.eqb_spec (Part000.id r) (Part000.id row)) as [Heq|Hneq].
  - destruct (Z.eqb_spec (Part000.id row) rid); [congruence|].
    destruct (Z.eqb_spec (Part000.id r) rid); [congruence|]. exact IH.
  - destruct (Part000.id r =? rid); [reflexivity|exact IH].
Qed.

Lemma select_updated row t old :
  Api000.select (Part000.id row) t = Some old ->
  Api000.select (Part000.id row) (Api000.update row t) = Some row.
Proof.
  unfold Api000.select, Api000.update. cbn [Api000.rows].
  induction (Api000.rows t) as [|r l IH]; [discriminate|]. cbn [map find].
  destruct (Z.eqb_spec (Part000.id r) (Part000.id row)) as [Heq|Hneq].
  - intros _. rewrite Z.eqb_refl. reflexivity.
  - destruct (Z.eqb_spec (Part000.id r) (Part000.id row)); [contradiction|]. exact IH.
Qed.

Lemma select_delete rid k t :
  rid <> k ->
  Api000.select rid (Api000.delete_from k t) = Api000.select rid t.
Proof.
  intros Hne. unfold Api000.select, Api000.delete_from. cbn [Api000.rows].
  induction (Api000.rows t) as [|r l IH]; [reflexivity|]. cbn [List.filter find].
  destruct (Z.eqb_spec (Part000.id r) k) as [Heq|Hneq]; cbn [negb].
  - destruct (Z.eqb_spec (Part000.id r) rid); [congruence|exact IH].
  - cbn [find]. destruct (Part000.id r =? rid); [reflexivity|exact IH].
Qed.

Lemma select_deleted rid t : Api000.select rid (Api000.delete_from rid t) = None.
Proof.
  unfold Api000.select, Api000.delete_from. cbn [Api000.rows].
  induction (Api000.rows t) as [|r l IH]; [reflexivity|]. cbn [List.filter].
  destruct (Z.eqb_spec (Part000.id r) rid) as [Heq|Hneq]; cbn [negb find]; [exact IH|].
  destruct (Z.eqb_spec (Part000.id r) rid); [contradiction|exact IH].
Qed.

(** X16.  A request is about one rule.  From a fresh database, after any
    run, a POST, PATCH or DELETE leaves the row of every other id as it was,
    its registry entry as it was, and the entry's tasks running as they
    were. *)
Theorem request_touches_one_rule accepts DEFAULT_TZ qs q rid :
  let sv := Api000.serve accepts DEFAULT_TZ (Api000.fresh accepts DEFAULT_TZ) qs in
  let sv' := snd (Api000.handle accepts DEFAULT_TZ q sv) in
  Api000.touches q sv rid = false ->
  Api000.select rid (Api000.db sv') = Api000.select rid (Api000.db sv)
  /\ Part000.jobs (Api000.registry sv') !! rid = Part000.jobs (Api000.registry sv) !! rid
  /\ (forall j, Part000.jobs (Api000.registry sv) !! rid = Some j ->
        (fun h => Part000.tasks (Api000.registry sv') !! h) <$> Part000.handles j
        = (fun h => Part000.tasks (Api000.registry sv) !! h) <$> Part000.handles j).
Proof.
  intros sv sv' Htouch.
  destruct (served_serve accepts DEFAULT_TZ qs _ (served_fresh accepts DEFAULT_TZ))
    as [Hok (m & Hinv & _)].
  fold sv in Hok, Hinv.
  assert (Hsame : forall s : Part000.scheduler,
    Part000.jobs s !! rid = Part000.jobs s !! rid
    /\ (forall j, Part000.jobs s !! rid = Some j ->
          (fun h => Part000.tasks s !! h) <$> Part000.handles j
          = (fun h => Part000.tasks s !! h) <$> Part000.handles j)) by (split; reflexivity).
  assert (Hframe : forall s',
    (Part000.jobs s' !! rid = Part000.jobs (Api000.registry sv) !! rid
     /\ (forall j h, Part000.jobs (Api000.registry sv) !! rid = Some j ->
           h ∈ Part000.handles j ->
           Part000.tasks s' !! h = Part000.tasks (Api000.registry sv) !! h)) ->
    Part000.jobs s' !! rid = Part000.jobs (Api000.registry sv) !! rid
    /\ (forall j, Part000.jobs (Api000.registry sv) !! rid = Some j ->
          (fun h => Part000.tasks s' !! h) <$> Part000.handles j
          = (fun h => Part000.tasks (Api000.registry sv) !! h) <$> Part000.handles j)).
  { intros s' [Hj Ht]. split; [exact Hj|]. intros j Hjj.
    apply list_fmap_ext. intros i h Hh. apply (Ht j h Hjj).
    apply list_elem_of_lookup. eauto. }
  subst sv'.
  destruct q as [b|param b|param|]; cbn [Api000.handle Api000.touches] in *;
    [| | |discriminate].
  all: destruct (Api000.up sv); [|split; [reflexivity|apply Hsame]].
  all: cbn [Api000.answered fst snd].
  - apply Z.eqb_neq in Htouch. unfold Api000.post_rules.
    destruct (Api000.b_account_id b), (Api000.b_level b), (Api000.b_stop_time b),
      (Api000.b_start_time b); try (split; [reflexivity|apply Hsame]).
    destruct (Api000.level_ok _); [|split; [reflexivity|apply Hsame]].
    set (row := Part000.Build_rule _ _ _ _ _ _ _ _ _ _ _ _).
    rewrite (scheduleRule_pair000 accepts DEFAULT_TZ row (Api000.registry sv)).
    assert (Hgoal :
      Api000.select rid {| Api000.rows := Api000.rows (Api000.db sv) ++ [row];
                           Api000.seq := Api000.seq (Api000.db sv) + 1 |}
      = Api000.select rid (Api000.db sv)
      /\ Part000.jobs (snd (Part000.scheduleRule accepts DEFAULT_TZ row
                              (Api000.registry sv))) !! rid
         = Part000.jobs (Api000.registry sv) !! rid
      /\ (forall j, Part000.jobs (Api000.registry sv) !! rid = Some j ->
            (fun h => Part000.tasks (snd (Part000.scheduleRule accepts DEFAULT_TZ row
                                            (Api000.registry sv))) !! h)
              <$> Part000.handles j
            = (fun h => Part000.tasks (Api000.registry sv) !! h) <$> Part000.handles j)).
    { split; [apply select_insert; cbn [Part000.id row]; exact Htouch|].
      apply Hframe. eapply schedule_frame000; [exact Hinv|]. exact Htouch. }
    destruct (fst (Part000.scheduleRule accepts DEFAULT_TZ row (Api000.registry sv)));
      cbn [snd Api000.db Api000.registry]; exact Hgoal.
  - unfold Api000.patch_rule.
    destruct param as [|k]; [split; [reflexivity|apply Hsame]|].
    apply Z.eqb_neq in Htouch.
    destruct (Api000.select k (Api000.db sv)); [|split; [reflexivity|apply Hsame]].
    destruct (Api000.level_ok _); [|split; [reflexivity|apply Hsame]].
    set (updated := Part000.Build_rule _ _ _ _ _ _ _ _ _ _ _ _).
    rewrite (scheduleRule_pair000 accepts DEFAULT_TZ updated (Api000.registry sv)).
    assert (Hgoal :
      Api000.select rid (Api000.update updated (Api000.db sv))
      = Api000.select rid (Api000.db sv)
      /\ Part000.jobs (snd (Part000.scheduleRule accepts DEFAULT_TZ updated
                              (Api000.registry sv))) !! rid
         = Part000.jobs (Api000.registry sv) !! rid
      /\ (forall j, Part000.jobs (Api000.registry sv) !! rid = Some j ->
            (fun h => Part000.tasks (snd (Part000.scheduleRule accepts DEFAULT_TZ updated
                                            (Api000.registry sv))) !! h)
              <$> Part000.handles j
            = (fun h => Part000.tasks (Api000.registry sv) !! h) <$> Part000.handles j)).
    { split; [apply select_update; cbn [Part000.id updated]; exact Htouch|].
      apply Hframe. eapply schedule_frame000; [exact Hinv|]. exact Htouch. }
    destruct (fst (Part000.scheduleRule accepts DEFAULT_TZ updated (Api000.registry sv)));
      cbn [snd Api000.db Api000.registry]; exact Hgoal.
  - unfold Api000.delete_rule.
    destruct param as [|k]; [split; [reflexivity|apply Hsame]|].
    apply Z.eqb_neq in Htouch. cbn [snd Api000.db Api000.registry].
    split; [apply select_delete; exact Htouch|].
    apply Hframe. eapply unschedule_frame000; [exact Hinv|]. exact Htouch.
Qed.

Lemma request_touches_one_rule_witness :
  let sv := Api000.serve Scenario.node_cron000 "UTC"
              (Api000.fresh Scenario.node_cron000 "UTC") Cases.requests000 in
  let sv' := snd (Api000.handle Scenario.node_cron000 "UTC" (Api000.Delete (Num 2)) sv) in
  Api000.select 1 (Api000.db sv') = Api000.select 1 (Api000.db sv)
  /\ Part000.jobs (Api000.registry sv') !! 1 = Part000.jobs (Api000.registry sv) !! 1
  /\ (forall j, Part000.jobs (Api000.registry sv) !! 1 = Some j ->
        (fun h => Part000.tasks (Api000.registry sv') !! h) <$> Part000.handles j
        = (fun h => Part000.tasks (Api000.registry sv) !! h) <$> Part000.handles j).
Proof.
  apply (request_touches_one_rule Scenario.node_cron000 "UTC" Cases.requests000
           (Api000.Delete (Num 2)) 1).
  reflexivity.
Defined.

(** X17.  What the handlers leave behind, from any state.  A request
    answered with 404 changes neither the table nor the registry.  A POST or
    a PATCH answered with 500 either changed nothing, the write having been
    refused, or has written its row and then failed in [scheduleRule]: the
    row is stored and its id has no registry entry.  A PATCH that succeeds
    leaves a row of the same id and the same [account_id] (the body's
    [account_id] is not written), with a level the CHECK accepts.  A DELETE
    always answers [ok]; after it no row and no registry entry has the
    id. *)
Theorem handler_outcomes accepts DEFAULT_TZ sv :
  (forall q,
      fst (Api000.handle accepts DEFAULT_TZ q sv) = Some Api000.NotFound ->
      snd (Api000.handle accepts DEFAULT_TZ q sv) = sv)
  /\ (forall q,
        let sv' := snd (Api000.handle accepts DEFAULT_TZ q sv) in
        fst (Api000.handle accepts DEFAULT_TZ q sv) = Some Api000.ServerError ->
        sv' = sv
        \/ exists row,
             row ∈ Api000.rows (Api000.db sv')
             /\ Api000.touches q sv (Part000.id row) = true
             /\ fst (Part000.scheduleRule accepts DEFAULT_TZ row (Api000.registry sv))
                = Threw Part000.CronError
             /\ Api000.registry sv'
                = snd (Part000.scheduleRule accepts DEFAULT_TZ row (Api000.registry sv))
             /\ Part000.jobs (Api000.registry sv') !! Part000.id row = None)
  /\ (forall rid b,
        fst (Api000.patch_rule accepts DEFAULT_TZ (Num rid) b sv) = Api000.Done ->
        exists old new,
          Api000.select rid (Api000.db sv) = Some old
          /\ Api000.select rid
               (Api000.db (snd (Api000.patch_rule accepts DEFAULT_TZ (Num rid) b sv)))
             = Some new
          /\ Part000.id new = rid
          /\ Part000.account_id new = Part000.account_id old
          /\ Api000.level_ok (Part000.level new) = true)
  /\ (forall param,
        fst (Api000.delete_rule param sv) = Api000.Done
        /\ forall rid, param = Num rid ->
             Api000.select rid (Api000.db (snd (Api000.delete_rule param sv))) = None
             /\ Part000.jobs (Api000.registry (snd (Api000.delete_rule param sv))) !! rid
                = None).
Proof.
  assert (Hthrew : forall row s,
    (exists e, fst (Part000.scheduleRule accepts DEFAULT_TZ row s) = Threw e) ->
    fst (Part000.scheduleRule accepts DEFAULT_TZ row s) = Threw Part000.CronError
    /\ Part000.jobs (snd (Part000.scheduleRule accepts DEFAULT_TZ row s))
         !! Part000.id row = None).
  { intros row s [e He]. revert He.
    pose proof (unscheduleRule_removes (Part000.id row) s) as Hnone.
    destruct (scheduleRule_cases000 accepts DEFAULT_TZ row s) as (t1 & t2 & t3 & _ & ->).
    destruct (negb (Part000.enabled row)); [discriminate|].
    destruct (negb _); [intros _; split; [reflexivity|exact Hnone]|].
    destruct (negb _); [intros _; split; [reflexivity|exact Hnone]|].
    destruct (negb _); [intros _; split; [reflexivity|exact Hnone]|].
    discriminate. }
  split; [|split; [|split]].
  - intros q. destruct q as [b|param b|param|]; cbn [Api000.handle];
      [| | |discriminate].
    all: destruct (Api000.up sv); [|reflexivity].
    all: cbn [Api000.answered fst snd].
    + unfold Api000.post_rules.
      destruct (Api000.b_account_id b), (Api000.b_level b), (Api000.b_stop_time b),
        (Api000.b_start_time b); try reflexivity.
      destruct (Api000.level_ok _); [|reflexivity].
      destruct (Part000.scheduleRule _ _ _ _) as [[|] ?]; cbn; discriminate.
    + unfold Api000.patch_rule. destruct param; [reflexivity|].
      destruct (Api000.select _ _); [|reflexivity].
      destruct (Api000.level_ok _); [|reflexivity].
      destruct (Part000.scheduleRule _ _ _ _) as [[|] ?]; cbn; discriminate.
    + unfold Api000.delete_rule. destruct param; cbn; [reflexivity|discriminate].
  - intros q. cbn zeta. destruct q as [b|param b|param|]; cbn [Api000.handle];
      [| | |discriminate].
    all: destruct (Api000.up sv); [|discriminate].
    all: cbn [Api000.answered fst snd Api000.touches].
    + unfold Api000.post_rules.
      destruct (Api000.b_account_id b), (Api000.b_level b), (Api000.b_stop_time b),
        (Api000.b_start_time b); try (intros _; left; reflexivity).
      destruct (Api000.level_ok _); [|intros _; left; reflexivity].
      set (row := Part000.Build_rule _ _ _ _ _ _ _ _ _ _ _ _).
      pose proof (Hthrew row (Api000.registry sv)) as Hrow.
      destruct (Part000.scheduleRule accepts DEFAULT_TZ row (Api000.registry sv))
        as [[[]|e] s1] eqn:Hsr; cbn [fst snd] in *; [discriminate|].
      intros _. right. exists row. rewrite Hsr.
      cbn [Api000.db Api000.rows Api000.registry fst snd].
      destruct (Hrow (ex_intro _ e eq_refl)) as [H1 H2].
      split; [apply elem_of_app; right; left|].
      split; [cbn [row Part000.id]; apply Z.eqb_refl|].
      split; [exact H1|]. split; [reflexivity|exact H2].
    + unfold Api000.patch_rule. destruct param as [|rid]; [discriminate|].
      destruct (Api000.select rid (Api000.db sv)) as [old|] eqn:Hsel; [|discriminate].
      destruct (Api000.level_ok _); [|intros _; left; reflexivity].
      set (updated := Part000.Build_rule _ _ _ _ _ _ _ _ _ _ _ _).
      pose proof (Hthrew updated (Api000.registry sv)) as Hrow.
      destruct (Part000.scheduleRule accepts DEFAULT_TZ updated (Api000.registry sv))
        as [[[]|e] s1] eqn:Hsr; cbn [fst snd] in *; [discriminate|].
      intros _. right. exists updated. rewrite Hsr.
      cbn [Api000.db Api000.registry fst snd].
      destruct (Hrow (ex_intro _ e eq_refl)) as [H1 H2].
      split.
      { pose proof (select_updated updated (Api000.db sv) old Hsel) as Hnew.
        apply select_Some in Hnew as [Hin _]. exact Hin. }
      split; [cbn [updated Part000.id]; apply Z.eqb_refl|].
      split; [exact H1|]. split; [reflexivity|exact H2].
    + unfold Api000.delete_rule. destruct param; cbn; discriminate.
  - intros rid b. unfold Api000.patch_rule.
    destruct (Api000.select rid (Api000.db sv)) as [old|] eqn:Hsel; [|discriminate].
    destruct (Api000.level_ok _) eqn:Hlvl; [|discriminate].
    set (updated := Part000.Build_rule _ _ _ _ _ _ _ _ _ _ _ _).
    destruct (Part000.scheduleRule accepts DEFAULT_TZ updated (Api000.registry sv))
      as [[[]|e] s1]; cbn [fst snd]; [|discriminate].
    intros _. cbn [Api000.db].
    exists old, updated. split; [reflexivity|].
    split; [apply (select_updated updated _ old); exact Hsel|].
    split; [reflexivity|]. split; [reflexivity|exact Hlvl].
  - intros param. unfold Api000.delete_rule.
    destruct param as [|k]; cbn [fst snd]; (split; [reflexivity|]); [discriminate|].
    intros rid [= ->]. cbn [Api000.db Api000.registry].
    split; [apply select_deleted|apply unscheduleRule_removes].
Qed.

Lemma handler_outcomes_witness :
  let accepts := Scenario.node_cron000 in
  let sv := Api000.serve accepts "UTC" (Api000.fresh accepts "UTC")
              [Api000.Post Cases.night_body] in
  let sv' := snd (Api000.handle accepts "UTC" (Api000.Patch (Num 1) Cases.late_patch) sv) in
  sv' = sv
  \/ exists row,
       row ∈ Api000.rows (Api000.db sv')
       /\ Api000.touches (Api000.Patch (Num 1) Cases.late_patch) sv (Part000.id row) = true
       /\ fst (Part000.scheduleRule accepts "UTC" row (Api000.registry sv))
          = Threw Part000.CronError
       /\ Api000.registry sv'
          = snd (Part000.scheduleRule accepts "UTC" row (Api000.registry sv))
       /\ Part000.jobs (Api000.registry sv') !! Part000.id row = None.
Proof.
  cbn zeta.
  destruct (handler_outcomes Scenario.node_cron000 "UTC"
              (Api000.serve Scenario.node_cron000 "UTC"
                 (Api000.fresh Scenario.node_cron000 "UTC")
                 [Api000.Post Cases.night_body])) as (_ & H & _).
  apply (H (Api000.Patch (Num 1) Cases.late_patch)). vm_compute. reflexivity.
Defined.

(** *** What a POST stores *)

Lemma scheduleRule_entry accepts DEFAULT_TZ r s :
  fst (Part000.scheduleRule accepts DEFAULT_TZ r s) = Returned tt ->
  is_Some (Part000.jobs (snd (Part000.scheduleRule accepts DEFAULT_TZ r s))
             !! Part000.id r)
  <-> Part000.enabled r = true.
Proof.
  intros Hret. split.
  - intros Hsome. destruct (Part000.enabled r) eqn:Hen; [reflexivity|].
    unfold Part000.scheduleRule in Hsome. rewrite Hen in Hsome. cbn [negb snd] in Hsome.
    rewrite unscheduleRule_removes in Hsome. destruct Hsome as [j Hj]. discriminate.
  - intros Hen.
    destruct (scheduleRule_periodic000 accepts DEFAULT_TZ r s Hen Hret) as (j & _ & Hj & _).
    eauto.
Qed.

(** X18.  What a POST stores.  From a fresh database, after any run, a
    POST that succeeds stores a row under the id it answers; the row is
    enabled exactly when the body's [enabled] is truthy, and the registry
    has an entry for the id exactly then: a body without [enabled] stores a
    disabled rule with no trigger.  The row's zone is not empty when
    [DEFAULT_TZ] is not, its interval is not 0, its level passes the CHECK,
    and targets and days left out are stored as no targets and all seven
    days. *)
Theorem post_stores_defaults accepts DEFAULT_TZ qs b rid :
  let sv := Api000.serve accepts DEFAULT_TZ (Api000.fresh accepts DEFAULT_TZ) qs in
  fst (Api000.post_rules accepts DEFAULT_TZ b sv) = Api000.Created rid ->
  let sv' := snd (Api000.post_rules accepts DEFAULT_TZ b sv) in
  exists row,
    Api000.select rid (Api000.db sv') = Some row
    /\ Part000.enabled row = default false (Api000.b_enabled b)
    /\ (is_Some (Part000.jobs (Api000.registry sv') !! rid)
        <-> Api000.b_enabled b = Some true)
    /\ (DEFAULT_TZ <> "" -> Part000.timezone row <> "")
    /\ Part000.enforce_window_minutes row <> 0
    /\ Api000.level_ok (Part000.level row) = true
    /\ (Api000.b_target_ids b = None -> Part000.target_ids row = [])
    /\ (Api000.b_days_of_week b = None -> Part000.days_of_week row = Api000.all_days).
Proof.
  intros sv Hresp sv'. subst sv'.
  destruct (served_serve accepts DEFAULT_TZ qs _ (served_fresh accepts DEFAULT_TZ))
    as [[Hnd Hall] _].
  fold sv in Hnd, Hall. revert Hresp. unfold Api000.post_rules.
  destruct (Api000.b_account_id b) as [account|]; [|discriminate].
  destruct (Api000.b_level b) as [lvl|]; [|discriminate].
  destruct (Api000.b_stop_time b) as [stop|]; [|discriminate].
  destruct (Api000.b_start_time b) as [start|]; [|discriminate].
  destruct (Api000.level_ok lvl) eqn:Hlvl; [|discriminate].
  set (row := Part000.Build_rule _ _ _ _ _ _ _ _ _ _ _ _).
  pose proof (scheduleRule_entry accepts DEFAULT_TZ row (Api000.registry sv)) as Hentry.
  destruct (Part000.scheduleRule accepts DEFAULT_TZ row (Api000.registry sv))
    as [[[]|e] s1]; cbn [fst snd Api000.db Api000.registry] in *; [|discriminate].
  intros [= <-].
  exists row. split.
  { unfold Api000.select. cbn [Api000.rows]. rewrite find_snoc.
    destruct (find _ (Api000.rows (Api000.db sv))) as [r|] eqn:Hf.
    - apply find_some in Hf as [Hin Hid]. apply list_elem_of_In in Hin.
      apply Z.eqb_eq in Hid. rewrite Forall_forall in Hall.
      specialize (Hall r Hin). lia.
    - cbn [row Part000.id]. rewrite Z.eqb_refl. reflexivity. }
  split; [reflexivity|]. split.
  { change (Api000.seq (Api000.db sv) + 1) with (Part000.id row).
    rewrite (Hentry eq_refl). cbn [row Part000.enabled].
    destruct (Api000.b_enabled b) as [[|]|]; cbn; split; congruence. }
  split.
  { intros Hd. cbn [row Part000.timezone]. unfold Part000.str_or.
    case_bool_decide; [exact Hd|assumption]. }
  split.
  { cbn [row Part000.enforce_window_minutes].
    destruct (Z.eqb_spec (default 0 (Api000.b_enforce_window_minutes b)) 0); lia. }
  split; [exact Hlvl|].
  cbn [row Part000.target_ids Part000.days_of_week].
  split; intros ->; reflexivity.
Qed.

Lemma post_stores_defaults_witness :
  let accepts := Scenario.node_cron000 in
  exists row,
    Api000.select 1
      (Api000.db (snd (Api000.post_rules accepts "UTC" Cases.draft_body
                         (Api000.fresh accepts "UTC"))))
    = Some row
    /\ Part000.enabled row = false
    /\ (is_Some (Part000.jobs
                   (Api000.registry
                      (snd (Api000.post_rules accepts "UTC" Cases.draft_body
                              (Api000.fresh accepts "UTC")))) !! 1)
        <-> @None bool = Some true)
    /\ ("UTC" <> "" -> Part000.timezone row <> "")
    /\ Part000.enforce_window_minutes row <> 0
    /\ Api000.level_ok (Part000.level row) = true
    /\ (@None (list string) = None -> Part000.target_ids row = [])
    /\ (@None (list string) = None -> Part000.days_of_week row = Api000.all_days).
Proof.
  apply (post_stores_defaults Scenario.node_cron000 "UTC" [] Cases.draft_body 1).
  reflexivity.
Defined.

(** ** Credentials and ad accounts *)

Section AccountsFacts.

Variable DEFAULT_TZ : string.
Variable owned_reply :
  string -> string -> completion Part000.provider_error (list Accounts000.owned).

Lemma accounts_loop_ok creds : forall i all tr out tr',
  Accounts000.accounts_loop DEFAULT_TZ owned_reply i creds all tr = (Returned out, tr') ->
  tr' = tr ++ map (fun c => Accounts000.EvOwned (Accounts000.business_id c)
                              (Accounts000.access_token c)) creds
  /\ forall a, a ∈ out ->
       a ∈ all
       \/ exists k c o data,
            creds !! k = Some c
            /\ Accounts000.cred_index a = i + Z.of_nat k
            /\ owned_reply (Accounts000.business_id c) (Accounts000.access_token c)
               = Returned data
            /\ o ∈ data
            /\ a = Accounts000.listed DEFAULT_TZ (i + Z.of_nat k) c o.
Proof.
  induction creds as [|c rest IH]; intros i all tr out tr'; cbn [Accounts000.accounts_loop].
  - intros [= <- <-]. rewrite app_nil_r. split; [reflexivity|auto].
  - destruct (owned_reply _ _) as [data|e] eqn:Hreply; [|discriminate].
    intros Hloop. destruct (IH _ _ _ _ _ Hloop) as [-> Hall].
    split; [cbn [map]; rewrite <- app_assoc; reflexivity|].
    intros a Ha. destruct (Hall a Ha) as [Hin|(k & c' & o & data' & Hk & Hi & Hr & Ho & Hl)].
    + apply elem_of_app in Hin as [Hin|Hin]; [left; exact Hin|right].
      apply list_elem_of_fmap in Hin as (o & -> & Ho).
      exists 0%nat, c, o, data. cbn [lookup list_lookup Accounts000.listed
                                    Accounts000.cred_index].
      rewrite Z.add_0_r. auto.
    + right. exists (S k), c', o, data'. cbn [lookup list_lookup].
      replace (i + Z.of_nat (S k)) with (i + 1 + Z.of_nat k) by lia. auto.
Qed.

Lemma accounts_loop_fails creds : forall i all tr,
  (exists e tr', Accounts000.accounts_loop DEFAULT_TZ owned_reply i creds all tr
                 = (Threw e, tr'))
  <-> Exists (Accounts000.fails owned_reply) creds.
Proof.
  induction creds as [|c rest IH]; intros i all tr; cbn [Accounts000.accounts_loop].
  - split; [intros (e & tr' & H); discriminate|intros H; inversion H].
  - destruct (owned_reply _ _) as [data|e] eqn:Hreply.
    + rewrite IH, Exists_cons. split; [auto|].
      intros [[e He]|H]; [|exact H]. congruence.
    + split; [intros _; left; exists e; exact Hreply|eauto].
Qed.

End AccountsFacts.

(** X19.  [GET /api/accounts] fails exactly when the listing of one of
    the credentials fails: one failing credential hides every account.
    When it succeeds it has asked once per credential, in order, and every
    account it answers carries the index of the credential it was listed
    with: [getTokenForRule] gives a rule with that [cred_index] the token
    the account was listed with; the account's zone is not empty when
    [DEFAULT_TZ] is not. *)
Theorem accounts_carry_their_credential CREDS DEFAULT_TZ SLACK_WEBHOOK owned_reply tr :
  let out := Accounts000.get_accounts CREDS DEFAULT_TZ SLACK_WEBHOOK owned_reply tr in
  (fst out = Accounts000.Failed <-> Exists (Accounts000.fails owned_reply) CREDS)
  /\ (forall all, fst out = Accounts000.Json all ->
        snd out = tr ++ map (fun c => Accounts000.EvOwned (Accounts000.business_id c)
                                        (Accounts000.access_token c)) CREDS
        /\ forall a, a ∈ all ->
             exists c o data,
               0 <= Accounts000.cred_index a
               /\ CREDS !! Z.to_nat (Accounts000.cred_index a) = Some c
               /\ owned_reply (Accounts000.business_id c) (Accounts000.access_token c)
                  = Returned data
               /\ o ∈ data
               /\ Accounts000.id a = Accounts000.o_account_id o
               /\ Accounts000.a_business_id a = Accounts000.business_id c
               /\ (DEFAULT_TZ <> "" -> Accounts000.tz a <> "")
               /\ (forall r, Part000.cred_index r = Accounts000.cred_index a ->
                     Accounts000.getTokenForRule CREDS r
                     = Some (Accounts000.access_token c))).
Proof.
  intros out. subst out. unfold Accounts000.get_accounts.
  pose proof (accounts_loop_fails DEFAULT_TZ owned_reply CREDS 0 [] tr) as Hfail.
  destruct (Accounts000.accounts_loop DEFAULT_TZ owned_reply 0 CREDS [] tr)
    as [[all|e] tr1] eqn:Hloop; cbn [fst snd].
  - split.
    + split; [discriminate|]. intros H. apply Hfail in H as (e & tr' & H). discriminate.
    + intros all' [= <-].
      destruct (accounts_loop_ok DEFAULT_TZ owned_reply _ _ _ _ _ _ Hloop) as [-> Hall].
      split; [reflexivity|]. intros a Ha.
      destruct (Hall a Ha) as [Hin|(k & c & o & data & Hk & Hi & Hr & Ho & ->)];
        [apply elem_of_nil in Hin; contradiction|].
      exists c, o, data. cbn [Accounts000.listed Accounts000.cred_index Accounts000.id
                               Accounts000.a_business_id Accounts000.tz].
      rewrite Z.add_0_l, Nat2Z.id.
      split; [lia|]. split; [exact Hk|]. split; [exact Hr|]. split; [exact Ho|].
      split; [reflexivity|]. split; [reflexivity|]. split.
      * intros Hd. unfold Part000.str_or. repeat case_bool_decide; congruence.
      * intros r Hidx. unfold Accounts000.getTokenForRule. rewrite Hidx.
        replace (Z.of_nat k <? 0) with false by (symmetry; apply Z.ltb_ge; lia).
        rewrite Nat2Z.id, Hk. reflexivity.
  - split; [|discriminate]. split; [|reflexivity].
    intros _. apply Hfail. eauto.
Qed.

(** ** The request handlers of the JSON-file server *)

Lemma newest_snoc rid rules r :
  Api001.newest rid (rules ++ [r])
  = if bool_decide (Part001.id r = rid) then Some r else Api001.newest rid rules.
Proof.
  unfold Api001.newest. rewrite List.filter_app. cbn [List.filter].
  case_bool_decide; [apply last_snoc|rewrite app_nil_r; reflexivity].
Qed.

Lemma splice_first_other rid k l x rest :
  Api001.splice_first rid l = Some (x, rest) ->
  k <> rid ->
  List.filter (fun r => bool_decide (Part001.id r = k)) rest
  = List.filter (fun r => bool_decide (Part001.id r = k)) l.
Proof.
  revert x rest. induction l as [|r l IH]; intros x rest; [discriminate|].
  cbn [Api001.splice_first]. case_bool_decide as Hr.
  - intros [= <- <-] Hk. cbn [List.filter].
    rewrite bool_decide_eq_false_2 by congruence. reflexivity.
  - destruct (Api001.splice_first rid l) as [[y rest']|]; [|discriminate].
    intros [= <- <-] Hk. cbn [List.filter]. rewrite (IH y rest' eq_refl Hk). reflexivity.
Qed.

Lemma splice_first_found rid l x rest :
  Api001.splice_first rid l = Some (x, rest) ->
  Part001.id x = rid /\ x ∈ l /\ length l = S (length rest)
  /\ forall r, r ∈ l -> r = x \/ r ∈ rest.
Proof.
  revert x rest. induction l as [|r l IH]; intros x rest; [discriminate|].
  cbn [Api001.splice_first]. case_bool_decide as Hr.
  - intros [= <- <-]. split; [exact Hr|]. split; [left|].
    split; [reflexivity|]. intros r' [->|Hin]%elem_of_cons; auto.
  - destruct (Api001.splice_first rid l) as [[y rest']|]; [|discriminate].
    intros [= <- <-]. destruct (IH y rest' eq_refl) as (Hid & Hin & Hlen & Hall).
    split; [exact Hid|]. split; [right; exact Hin|].
    split; [cbn [length]; congruence|].
    intros r' [->|Hr']%elem_of_cons; [right; left|].
    destruct (Hall r' Hr') as [->|Hrest]; [left; reflexivity|right; right; exact Hrest].
Qed.

Lemma splice_first_None rid l :
  Api001.splice_first rid l = None <-> forall r, r ∈ l -> Part001.id r <> rid.
Proof.
  induction l as [|r l IH]; cbn [Api001.splice_first].
  - split; [intros _ r Hr; apply elem_of_nil in Hr; contradiction|reflexivity].
  - case_bool_decide as Hr.
    + split; [discriminate|]. intros H. exfalso. apply (H r); [left|exact Hr].
    + destruct (Api001.splice_first rid l) as [[y rest']|].
      * split; [discriminate|]. intros H. exfalso.
        assert (Hnone : Some (y, rest') = None); [|discriminate Hnone].
        apply IH. intros r' Hr'. apply H. right. exact Hr'.
      * split; [|reflexivity]. intros _ r' [->|Hr']%elem_of_cons; [exact Hr|].
        apply (proj1 IH eq_refl). exact Hr'.
Qed.

Lemma splice_first_sub rid l x rest :
  Api001.splice_first rid l = Some (x, rest) -> forall r, r ∈ rest -> r ∈ l.
Proof.
  revert x rest. induction l as [|y l IH]; intros x rest; [discriminate|].
  cbn [Api001.splice_first]. case_bool_decide as Hy.
  - intros [= <- <-] r Hr. right. exact Hr.
  - destruct (Api001.splice_first rid l) as [[z rest']|]; [|discriminate].
    intros [= <- <-] r [->|Hr]%elem_of_cons; [left|right; eapply IH; eauto].
Qed.

Lemma rule_id_inj a b : Api001.rule_id a = Api001.rule_id b -> a = b.
Proof.
  unfold Api001.rule_id. cbn [String.append]. intros [= H].
  apply (inj pretty). exact H.
Qed.

Lemma newest_unique k l r :
  NoDup (map Part001.id l) ->
  Api001.newest k l = Some r <-> r ∈ l /\ Part001.id r = k.
Proof.
  induction l as [|x l IH] using rev_ind; intros Hnd.
  - cbn. split; [discriminate|]. intros [H _]. apply elem_of_nil in H. contradiction.
  - rewrite map_app in Hnd. apply NoDup_app in Hnd as (Hnd & Hfresh & _).
    rewrite newest_snoc, elem_of_app, list_elem_of_singleton.
    case_bool_decide as Hx.
    + split.
      * intros [= <-]. auto.
      * intros [[Hin| ->] Hid]; [|reflexivity]. exfalso.
        apply (Hfresh (Part001.id r)); [apply list_elem_of_fmap; eauto|].
        cbn [map]. apply list_elem_of_singleton. congruence.
    + rewrite (IH Hnd). split.
      * intros [Hin Hid]. auto.
      * intros [[Hin| ->] Hid]; [auto|contradiction].
Qed.

Lemma splice_first_unique rid l x rest :
  Api001.splice_first rid l = Some (x, rest) ->
  NoDup (map Part001.id l) ->
  NoDup (map Part001.id rest)
  /\ forall r, r ∈ rest <-> r ∈ l /\ Part001.id r <> rid.
Proof.
  revert x rest. induction l as [|y l IH]; intros x rest; [discriminate|].
  cbn [Api001.splice_first map]. intros Hsp Hnd. apply NoDup_cons in Hnd as [Hy Hnd].
  case_bool_decide as Hid.
  - injection Hsp as <- <-. split; [exact Hnd|]. intros r. rewrite elem_of_cons. split.
    + intros Hin. split; [auto|]. intros Hr. apply Hy.
      apply list_elem_of_fmap. exists r. split; [congruence|exact Hin].
    + intros [[->|Hin] Hne]; [contradiction|exact Hin].
  - destruct (Api001.splice_first rid l) as [[z rest']|] eqn:Hl; [|discriminate].
    injection Hsp as <- <-. destruct (IH z rest' eq_refl Hnd) as [Hnd' Hmem].
    split.
    + cbn [map]. apply NoDup_cons. split; [|exact Hnd'].
      intros Hin. apply Hy. apply list_elem_of_fmap in Hin as (r & Hr & Hin).
      apply list_elem_of_fmap. exists r. split; [exact Hr|]. apply Hmem. exact Hin.
    + intros r. rewrite !elem_of_cons, Hmem. split.
      * intros [->|[Hin Hne]]; auto.
      * intros [[->|Hin] Hne]; auto.
Qed.

Lemma splice_first_app rid l1 l2 :
  Api001.splice_first rid (l1 ++ l2)
  = match Api001.splice_first rid l1 with
    | Some (x, rest) => Some (x, rest ++ l2)
    | None =>
        match Api001.splice_first rid l2 with
        | Some (x, rest) => Some (x, l1 ++ rest)
        | None => None
        end
    end.
Proof.
  induction l1 as [|r l1 IH]; cbn [app Api001.splice_first].
  - destruct (Api001.splice_first rid l2) as [[x rest]|]; reflexivity.
  - case_bool_decide; [reflexivity|]. rewrite IH.
    destruct (Api001.splice_first rid l1) as [[x rest]|]; [reflexivity|].
    destruct (Api001.splice_first rid l2) as [[x rest]|]; reflexivity.
Qed.

Lemma post_rules_eq accepts sci_head zone b now sv :
  Api001.post_rules accepts sci_head zone b now sv
  = (match fst (Part001.scheduleRule accepts sci_head zone
                  (Api001.rule_of_body sci_head zone b now) (Api001.registry sv)) with
     | Returned _ => Some (Api001.Stored (Api001.rule_of_body sci_head zone b now))
     | Threw _ => None
     end,
     {| Api001.file := Api001.file sv ++ [Api001.rule_of_body sci_head zone b now];
        Api001.registry :=
          snd (Part001.scheduleRule accepts sci_head zone
                 (Api001.rule_of_body sci_head zone b now) (Api001.registry sv)) |}).
Proof.
  unfold Api001.post_rules. cbv zeta.
  destruct (Part001.scheduleRule _ _ _ _ _) as [[|] ?]; reflexivity.
Qed.

Lemma serve_snoc accepts sci_head zone sv qs q :
  Api001.serve accepts sci_head zone sv (qs ++ [q])
  = snd (Api001.handle accepts sci_head zone q (Api001.serve accepts sci_head zone sv qs)).
Proof. unfold Api001.serve. rewrite foldl_app. reflexivity. Qed.

Lemma along_snoc accepts sci_head zone p qs q : forall sv,
  Api001.along accepts sci_head zone p sv (qs ++ [q])
  = Api001.along accepts sci_head zone p sv qs
    && p q (Api001.serve accepts sci_head zone sv qs).
Proof.
  induction qs as [|q' qs IH]; intros sv; cbn [app Api001.along Api001.serve foldl].
  - rewrite andb_true_r. reflexivity.
  - rewrite IH, andb_assoc. reflexivity.
Qed.

Section Served001.

Variable accepts : Part001.cron_expr -> string -> bool.
Variable sci_head : Z -> Z.
Variable ACCOUNT_TIMEZONE_DEFAULT : string.

(** What the loop of [bootstrapSchedules] leaves, wherever it stops. *)
Lemma schedule_rules_spec l : forall s m,
  Part001.registry_inv sci_head ACCOUNT_TIMEZONE_DEFAULT m s ->
  exists m',
    Part001.registry_inv sci_head ACCOUNT_TIMEZONE_DEFAULT m'
      (snd (Api001.schedule_rules accepts sci_head ACCOUNT_TIMEZONE_DEFAULT l s))
    /\ (forall k r, m' !! k = Some r ->
          m !! k = Some r
          \/ (r ∈ l /\ Part001.id r = k
              /\ Part001.accepted accepts sci_head ACCOUNT_TIMEZONE_DEFAULT r = true))
    /\ (fst (Api001.schedule_rules accepts sci_head ACCOUNT_TIMEZONE_DEFAULT l s)
         = Returned tt ->
        m' = foldl (Part001.installed_step accepts sci_head ACCOUNT_TIMEZONE_DEFAULT) m
               (Part001.Schedule <$> l)
        /\ Forall (fun r => Part001.accepted accepts sci_head ACCOUNT_TIMEZONE_DEFAULT r
                            = true) l
        /\ (Part001.no_stray s ->
            Part001.no_stray
              (snd (Api001.schedule_rules accepts sci_head ACCOUNT_TIMEZONE_DEFAULT l s)))).
Proof.
  induction l as [|x l IH]; intros s m Hinv.
  - exists m. cbn. split; [exact Hinv|]. split; [auto|].
    intros _. split; [reflexivity|]. split; [constructor|auto].
  - cbn [Api001.schedule_rules].
    pose proof (inv_schedule001 accepts sci_head ACCOUNT_TIMEZONE_DEFAULT m s x Hinv) as H1.
    pose proof (scheduleRule_returns001 accepts sci_head ACCOUNT_TIMEZONE_DEFAULT x s)
      as Hacc.
    pose proof (stray_schedule001 accepts sci_head ACCOUNT_TIMEZONE_DEFAULT x s) as Hstr.
    destruct (Part001.scheduleRule accepts sci_head ACCOUNT_TIMEZONE_DEFAULT x s)
      as [[[]|[]] s1]; cbn [fst snd] in *.
    + pose proof (proj1 Hacc eq_refl) as Ha.
      destruct (IH s1 _ H1) as (m' & Hinv' & Hsub & Hret).
      exists m'. split; [exact Hinv'|]. split.
      * intros k r Hr. destruct (Hsub k r Hr) as [Hm|(Hin & Hid & Hr')].
        -- cbn [Part001.installed_step] in Hm. rewrite Ha in Hm.
           destruct (decide (k = Part001.id x)) as [->|Hk].
           ++ rewrite lookup_insert_eq in Hm. injection Hm as <-.
              right. split; [left|auto].
           ++ rewrite lookup_insert_ne in Hm by congruence. left. exact Hm.
        -- right. split; [right; exact Hin|auto].
      * intros Hfst. destruct (Hret Hfst) as (-> & Hall & Hstray).
        split; [reflexivity|]. split; [constructor; assumption|].
        intros Hs. apply Hstray, Hstr; [exact Hs|reflexivity].
    + exists (Part001.installed_step accepts sci_head ACCOUNT_TIMEZONE_DEFAULT m
                (Part001.Schedule x)).
      split; [exact H1|]. split; [|discriminate].
      intros k r Hm. cbn [Part001.installed_step] in Hm.
      destruct (Part001.accepted accepts sci_head ACCOUNT_TIMEZONE_DEFAULT x) eqn:Ha.
      * pose proof (proj2 Hacc eq_refl) as Hno. discriminate Hno.
      * rewrite lookup_delete in Hm. case_decide; [discriminate|]. left. exact Hm.
Qed.

Lemma installed_newest l k :
  Forall (fun r => Part001.accepted accepts sci_head ACCOUNT_TIMEZONE_DEFAULT r = true) l ->
  foldl (Part001.installed_step accepts sci_head ACCOUNT_TIMEZONE_DEFAULT) ∅
    (Part001.Schedule <$> l) !! k
  = Api001.newest k l.
Proof.
  induction l as [|x l IH] using rev_ind; intros Hall.
  - cbn. apply lookup_empty.
  - apply Forall_app in Hall as [Hall Hx]. apply Forall_inv in Hx.
    rewrite fmap_app, foldl_app. cbn [fmap list_fmap foldl Part001.installed_step].
    rewrite Hx, newest_snoc. case_bool_decide as Hk.
    + subst k. apply lookup_insert_eq.
    + rewrite lookup_insert_ne by exact Hk. apply IH, Hall.
Qed.

Lemma restart_returned sv :
  Api001.settles accepts sci_head ACCOUNT_TIMEZONE_DEFAULT Api001.Restart sv = true ->
  fst (Api001.schedule_rules accepts sci_head ACCOUNT_TIMEZONE_DEFAULT (Api001.file sv)
         Part001.init) = Returned tt.
Proof.
  cbn [Api001.settles Api001.bootstrapSchedules fst].
  destruct (fst (Api001.schedule_rules _ _ _ _ _)) as [[]|]; [reflexivity|discriminate].
Qed.

Lemma served_run qs :
  exists m, served001 accepts sci_head ACCOUNT_TIMEZONE_DEFAULT qs
              (Api001.serve accepts sci_head ACCOUNT_TIMEZONE_DEFAULT
                 (Api001.fresh accepts sci_head ACCOUNT_TIMEZONE_DEFAULT) qs) m.
Proof.
  induction qs as [|q qs IH] using rev_ind.
  - exists ∅. split; cbn.
    + intros k r H. rewrite lookup_empty in H. discriminate.
    + apply inv_init001.
    + intros _ k r H. rewrite lookup_empty in H. discriminate.
    + intros _. apply no_stray_init001.
    + intros _. constructor.
    + intros r Hr. apply elem_of_nil in Hr. contradiction.
    + intros _ _ r Hr. apply elem_of_nil in Hr. contradiction.
  - destruct IH as (m & [Hst Hinv Hfol Hstray Hids Htimes Hcov]).
    rewrite serve_snoc.
    set (sv0 := Api001.fresh accepts sci_head ACCOUNT_TIMEZONE_DEFAULT) in *.
    set (sv := Api001.serve accepts sci_head ACCOUNT_TIMEZONE_DEFAULT sv0 qs) in *.
    assert (Hboot :
      Api001.all_boot accepts sci_head ACCOUNT_TIMEZONE_DEFAULT sv0 (qs ++ [q]) = true ->
      Api001.all_boot accepts sci_head ACCOUNT_TIMEZONE_DEFAULT sv0 qs = true
      /\ Api001.boots accepts sci_head ACCOUNT_TIMEZONE_DEFAULT q sv = true).
    { unfold Api001.all_boot. rewrite along_snoc. apply andb_prop. }
    assert (Hsettle :
      Api001.all_settle accepts sci_head ACCOUNT_TIMEZONE_DEFAULT sv0 (qs ++ [q]) = true ->
      Api001.all_settle accepts sci_head ACCOUNT_TIMEZONE_DEFAULT sv0 qs = true
      /\ Api001.settles accepts sci_head ACCOUNT_TIMEZONE_DEFAULT q sv = true).
    { unfold Api001.all_settle. rewrite along_snoc. apply andb_prop. }
    assert (Hnd : NoDup (Api001.post_times (qs ++ [q])) ->
                  NoDup (Api001.post_times qs)
                  /\ forall b now, q = Api001.Post b now ->
                       now ∉ Api001.post_times qs).
    { unfold Api001.post_times. rewrite omap_app.
      intros (H1 & H2 & _)%NoDup_app. split; [exact H1|].
      intros b now -> Hin. apply (H2 now Hin). cbn. left. }
    assert (Hkeep : forall rules, from_times001 qs rules ->
                                  from_times001 (qs ++ [q]) rules).
    { intros rules Hfrom r Hr. destruct (Hfrom r Hr) as (now & Hnow & Hid).
      exists now. split; [|exact Hid].
      unfold Api001.post_times. rewrite omap_app. apply elem_of_app. left. exact Hnow. }
    destruct q as [b now|rid|]; cbn [Api001.handle snd].
    + rewrite post_rules_eq. cbn [snd].
      set (rule := Api001.rule_of_body sci_head ACCOUNT_TIMEZONE_DEFAULT b now).
      exists (Part001.installed_step accepts sci_head ACCOUNT_TIMEZONE_DEFAULT m
                (Part001.Schedule rule)).
      assert (Hnew : NoDup (Api001.post_times (qs ++ [Api001.Post b now])) ->
                     forall r, r ∈ Api001.file sv -> Part001.id r <> Part001.id rule).
      { intros Hn r Hr Heq. destruct (Htimes r Hr) as (t & Ht & Hid).
        rewrite Hid in Heq. cbn [rule Api001.rule_of_body Part001.id] in Heq.
        apply rule_id_inj in Heq. subst t.
        destruct (Hnd Hn) as [_ Hf]. exact (Hf b now eq_refl Ht). }
      split; cbn [Api001.file Api001.registry].
      * intros k r Hr. cbn [Part001.installed_step] in Hr.
        rewrite elem_of_app, list_elem_of_singleton.
        destruct (Part001.accepted accepts sci_head ACCOUNT_TIMEZONE_DEFAULT rule) eqn:Ha.
        -- destruct (decide (k = Part001.id rule)) as [->|Hk].
           ++ rewrite lookup_insert_eq in Hr. injection Hr as <-. auto.
           ++ rewrite lookup_insert_ne in Hr by congruence.
              destruct (Hst k r Hr) as (? & ? & ?). auto.
        -- rewrite lookup_delete in Hr. case_decide; [discriminate|].
           destruct (Hst k r Hr) as (? & ? & ?). auto.
      * apply inv_schedule001. exact Hinv.
      * intros Hb k r Hr. destruct (Hboot Hb) as [Hb' _].
        rewrite newest_snoc. cbn [Part001.installed_step] in Hr.
        destruct (Part001.accepted accepts sci_head ACCOUNT_TIMEZONE_DEFAULT rule);
          case_bool_decide as Hk.
        -- rewrite Hk, lookup_insert_eq in Hr. exact Hr.
        -- rewrite lookup_insert_ne in Hr by exact Hk. apply (Hfol Hb'), Hr.
        -- rewrite Hk, lookup_delete_eq in Hr. discriminate.
        -- rewrite lookup_delete_ne in Hr by exact Hk. apply (Hfol Hb'), Hr.
      * intros Hs. destruct (Hsettle Hs) as [Hs' Hq].
        apply stray_schedule001; [apply Hstray, Hs'|].
        cbn [Api001.settles] in Hq. apply bool_decide_eq_true in Hq.
        rewrite post_rules_eq in Hq. cbn [fst] in Hq. fold rule in Hq.
        destruct (fst (Part001.scheduleRule _ _ _ rule _)) as [[]|];
          [reflexivity|destruct Hq; discriminate].
      * intros Hn. destruct (Hnd Hn) as [Hn' _].
        rewrite map_app. apply NoDup_app. split; [exact (Hids Hn')|].
        split; [|apply NoDup_singleton].
        intros k Hk ->%list_elem_of_singleton.
        apply list_elem_of_fmap in Hk as (r & Hr & Hin). apply (Hnew Hn r Hin). congruence.
      * intros r [Hin| ->%list_elem_of_singleton]%elem_of_app;
          [exact (Hkeep _ Htimes r Hin)|].
        exists now. split; [|reflexivity].
        unfold Api001.post_times. rewrite omap_app. apply elem_of_app. right. cbn. left.
      * intros Hn Hb r Hin Ha. destruct (Hnd Hn) as [Hn' _].
        destruct (Hboot Hb) as [Hb' _]. cbn [Part001.installed_step].
        apply elem_of_app in Hin as [Hin| ->%list_elem_of_singleton].
        -- pose proof (Hnew Hn r Hin) as Hne.
           destruct (Part001.accepted accepts sci_head ACCOUNT_TIMEZONE_DEFAULT rule);
             [rewrite lookup_insert_ne by congruence|rewrite lookup_delete_ne by congruence];
             apply (Hcov Hn' Hb' r Hin Ha).
        -- rewrite Ha. apply lookup_insert_eq.
    + unfold Api001.delete_rule.
      destruct (Api001.splice_first rid (Api001.file sv)) as [[x rest]|] eqn:Hsp;
        cbn [snd].
      * destruct (splice_first_found _ _ _ _ Hsp) as (Hx & _ & _ & Hall).
        exists (delete rid m). split; cbn [Api001.file Api001.registry].
        -- intros k r Hr. rewrite lookup_delete in Hr. case_decide as Hk; [discriminate|].
           destruct (Hst k r Hr) as (Hin & Hid & Ha). split; [|auto].
           destruct (Hall r Hin) as [->|Hrest]; [congruence|exact Hrest].
        -- apply inv_unschedule001. exact Hinv.
        -- intros Hb k r Hr. destruct (Hboot Hb) as [Hb' _].
           rewrite lookup_delete in Hr. case_decide as Hk; [discriminate|].
           unfold Api001.newest.
           rewrite (splice_first_other rid k _ _ _ Hsp) by congruence.
           apply (Hfol Hb'), Hr.
        -- intros Hs. destruct (Hsettle Hs) as [Hs' _].
           apply stray_unschedule001, Hstray, Hs'.
        -- intros Hn. destruct (Hnd Hn) as [Hn' _].
           apply (splice_first_unique _ _ _ _ Hsp (Hids Hn')).
        -- apply Hkeep. intros r Hr. apply Htimes. eapply splice_first_sub; eauto.
        -- intros Hn Hb r Hr Ha. destruct (Hnd Hn) as [Hn' _].
           destruct (Hboot Hb) as [Hb' _].
           destruct (splice_first_unique _ _ _ _ Hsp (Hids Hn')) as [_ Hmem].
           apply Hmem in Hr as [Hin Hne].
           rewrite lookup_delete_ne by congruence. apply (Hcov Hn' Hb' r Hin Ha).
      * exists m. split.
        -- exact Hst.
        -- exact Hinv.
        -- intros Hb. apply Hfol, Hboot, Hb.
        -- intros Hs. apply Hstray, Hsettle, Hs.
        -- intros Hn. apply Hids, Hnd, Hn.
        -- apply Hkeep, Htimes.
        -- intros Hn Hb. apply Hcov; [apply Hnd, Hn|apply Hboot, Hb].
    + cbn [Api001.bootstrapSchedules snd].
      destruct (schedule_rules_spec (Api001.file sv) Part001.init ∅
                  (inv_init001 sci_head ACCOUNT_TIMEZONE_DEFAULT))
        as (m' & Hinv' & Hsub & Hret).
      exists m'. split; cbn [Api001.file Api001.registry].
      * intros k r Hr. destruct (Hsub k r Hr) as [H|H]; [|exact H].
        rewrite lookup_empty in H. discriminate.
      * exact Hinv'.
      * intros Hb k r Hr. destruct (Hboot Hb) as [_ Hq].
        destruct (Hret (restart_returned sv Hq)) as (-> & Hall & _).
        rewrite installed_newest in Hr by exact Hall. exact Hr.
      * intros Hs. destruct (Hsettle Hs) as [_ Hq].
        destruct (Hret (restart_returned sv Hq)) as (_ & _ & Hst').
        apply Hst', no_stray_init001.
      * intros Hn. apply Hids, Hnd, Hn.
      * apply Hkeep, Htimes.
      * intros Hn Hb r Hr Ha. destruct (Hboot Hb) as [_ Hq].
        destruct (Hret (restart_returned sv Hq)) as (-> & Hall & _).
        rewrite installed_newest by exact Hall.
        apply newest_unique; [apply Hids, Hnd, Hn|auto].
Qed.

End Served001.

(** X20.  The registry follows the file.  From a fresh file, after any
    sequence of POST and DELETE requests and restarts, handled one after
    the other: every registry entry is for a stored rule of its id whose
    triggers [node-cron] accepts, and its three tasks are distinct and
    configured from that rule, which is the newest stored rule of the id
    when every [bootstrapSchedules] of the run came to its end; when no
    [scheduleRule] of the run threw, every running task belongs to an
    entry; and a restart whose [bootstrapSchedules] comes to its end leaves
    an entry for exactly the ids of the stored rules. *)
Theorem registry_follows_file accepts sci_head ACCOUNT_TIMEZONE_DEFAULT qs :
  let sv0 := Api001.fresh accepts sci_head ACCOUNT_TIMEZONE_DEFAULT in
  let sv := Api001.serve accepts sci_head ACCOUNT_TIMEZONE_DEFAULT sv0 qs in
  let s := Api001.registry sv in
  (forall rid set, Part001.schedulers s !! rid = Some set ->
     exists r, r ∈ Api001.file sv /\ Part001.id r = rid
               /\ Part001.accepted accepts sci_head ACCOUNT_TIMEZONE_DEFAULT r = true
               /\ NoDup set
               /\ (fun h => Part001.tasks s !! h) <$> set
                  = Some <$> Part001.triggers_of sci_head ACCOUNT_TIMEZONE_DEFAULT r
               /\ (Api001.all_boot accepts sci_head ACCOUNT_TIMEZONE_DEFAULT sv0 qs = true ->
                   Api001.newest rid (Api001.file sv) = Some r))
  /\ (Api001.all_settle accepts sci_head ACCOUNT_TIMEZONE_DEFAULT sv0 qs = true ->
      Part001.no_stray s)
  /\ (Api001.settles accepts sci_head ACCOUNT_TIMEZONE_DEFAULT Api001.Restart sv = true ->
      forall rid,
        is_Some (Part001.schedulers
                   (Api001.registry
                      (snd (Api001.handle accepts sci_head ACCOUNT_TIMEZONE_DEFAULT
                              Api001.Restart sv)))
                 !! rid)
        <-> exists r, r ∈ Api001.file sv /\ Part001.id r = rid).
Proof.
  intros sv0 sv s.
  destruct (served_run accepts sci_head ACCOUNT_TIMEZONE_DEFAULT qs)
    as (m & [Hst Hinv Hfol Hstray _ _ _]).
  fold sv0 in Hst, Hinv, Hfol, Hstray. fold sv in Hst, Hinv. fold s in Hinv, Hstray.
  split; [|split; [exact Hstray|]].
  - intros rid set Hset.
    destruct (m !! rid) as [r|] eqn:Hr.
    2:{ apply (Part001.inv_dom _ _ _ _ Hinv) in Hr. congruence. }
    destruct (Hst rid r Hr) as (Hin & Hid & Ha).
    exists r. split; [exact Hin|]. split; [exact Hid|]. split; [exact Ha|].
    split; [exact (Part001.inv_nodup _ _ _ _ Hinv _ _ Hset)|].
    split; [exact (Part001.inv_tasks _ _ _ _ Hinv _ _ _ Hr Hset)|].
    intros Hb. apply (Hfol Hb), Hr.
  - intros Hq rid. cbn [Api001.handle snd Api001.bootstrapSchedules Api001.registry].
    destruct (schedule_rules_spec accepts sci_head ACCOUNT_TIMEZONE_DEFAULT
                (Api001.file sv) Part001.init ∅
                (inv_init001 sci_head ACCOUNT_TIMEZONE_DEFAULT))
      as (m' & Hinv' & _ & Hret).
    destruct (Hret (restart_returned accepts sci_head ACCOUNT_TIMEZONE_DEFAULT sv Hq))
      as (-> & Hall & _).
    rewrite <- not_eq_None_Some, (Part001.inv_dom _ _ _ _ Hinv' rid).
    rewrite installed_newest by exact Hall.
    unfold Api001.newest. rewrite last_None. split.
    + intros Hne.
      destruct (List.filter _ (Api001.file sv)) as [|r l] eqn:Hf; [contradiction|].
      assert (Hin : r ∈ List.filter (fun r => bool_decide (Part001.id r = rid))
                          (Api001.file sv)) by (rewrite Hf; left).
      apply list_elem_of_In, filter_In in Hin as [Hin Hid].
      exists r. split; [apply list_elem_of_In; exact Hin|].
      apply bool_decide_eq_true in Hid. exact Hid.
    + intros (r & Hin & Hid) Hnil.
      assert (Hr : In r (List.filter (fun r => bool_decide (Part001.id r = rid))
                           (Api001.file sv))).
      { apply filter_In. split; [apply list_elem_of_In; exact Hin|].
        apply bool_decide_eq_true. exact Hid. }
      rewrite Hnil in Hr. contradiction.
Qed.

(** X21.  When no two POSTs of the run read the same clock value, the
    stored rules have distinct ids.  When besides every [bootstrapSchedules]
    of the run came to its end, the registry mirrors the file: it has an
    entry for exactly the ids of the stored rules whose triggers [node-cron]
    accepts, and the entry of each such rule holds three distinct tasks
    configured from the rule. *)
Theorem registry_mirrors_file accepts sci_head ACCOUNT_TIMEZONE_DEFAULT qs :
  NoDup (Api001.post_times qs) ->
  let sv0 := Api001.fresh accepts sci_head ACCOUNT_TIMEZONE_DEFAULT in
  let sv := Api001.serve accepts sci_head ACCOUNT_TIMEZONE_DEFAULT sv0 qs in
  let s := Api001.registry sv in
  NoDup (map Part001.id (Api001.file sv))
  /\ (Api001.all_boot accepts sci_head ACCOUNT_TIMEZONE_DEFAULT sv0 qs = true ->
      (forall rid,
          is_Some (Part001.schedulers s !! rid)
          <-> exists r, r ∈ Api001.file sv /\ Part001.id r = rid
                        /\ Part001.accepted accepts sci_head ACCOUNT_TIMEZONE_DEFAULT r
                           = true)
      /\ (forall r, r ∈ Api001.file sv ->
            Part001.accepted accepts sci_head ACCOUNT_TIMEZONE_DEFAULT r = true ->
            exists set, Part001.schedulers s !! Part001.id r = Some set
                        /\ NoDup set
                        /\ (fun h => Part001.tasks s !! h) <$> set
                           = Some <$> Part001.triggers_of sci_head
                                        ACCOUNT_TIMEZONE_DEFAULT r)).
Proof.
  intros Hnd sv0 sv s.
  destruct (served_run accepts sci_head ACCOUNT_TIMEZONE_DEFAULT qs)
    as (m & [Hst Hinv _ _ Hids _ Hcov]).
  fold sv0 in Hst, Hinv, Hids, Hcov. fold sv in Hst, Hinv, Hids, Hcov. fold s in Hinv.
  assert (Hdom : forall rid, is_Some (Part001.schedulers s !! rid) <-> is_Some (m !! rid)).
  { intros rid. rewrite <- !not_eq_None_Some.
    rewrite (Part001.inv_dom _ _ _ _ Hinv rid). tauto. }
  split; [exact (Hids Hnd)|]. intros Hb. split.
  - intros rid. rewrite Hdom. split.
    + intros [r Hr]. exists r. apply Hst. exact Hr.
    + intros (r & Hin & <- & Ha). exists r. apply (Hcov Hnd Hb r Hin Ha).
  - intros r Hin Ha.
    pose proof (Hcov Hnd Hb r Hin Ha) as Hr.
    destruct (proj2 (Hdom (Part001.id r)) (ex_intro _ _ Hr)) as [set Hset].
    exists set. split; [exact Hset|].
    split; [exact (Part001.inv_nodup _ _ _ _ Hinv _ _ Hset)|].
    exact (Part001.inv_tasks _ _ _ _ Hinv _ _ _ Hr Hset).
Qed.

Lemma registry_mirrors_file_witness :
  let accepts := Scenario.node_cron001 in
  let sv := Api001.serve accepts Scenario.sci_head "UTC"
              (Api001.fresh accepts Scenario.sci_head "UTC") Cases.requests001 in
  let s := Api001.registry sv in
  NoDup (Api001.post_times Cases.requests001)
  /\ NoDup (map Part001.id (Api001.file sv))
  /\ (forall rid,
        is_Some (Part001.schedulers s !! rid)
        <-> exists r, r ∈ Api001.file sv /\ Part001.id r = rid
                      /\ Part001.accepted accepts Scenario.sci_head "UTC" r = true).
Proof.
  cbn zeta.
  assert (Hnd : NoDup (Api001.post_times Cases.requests001)).
  { cbn. apply NoDup_cons. split; [|apply NoDup_singleton].
    intros H. apply list_elem_of_singleton in H. discriminate H. }
  split; [exact Hnd|].
  destruct (registry_mirrors_file Scenario.node_cron001 Scenario.sci_head "UTC"
              Cases.requests001 Hnd) as [Hids Hboot].
  split; [exact Hids|]. apply Hboot. vm_compute. reflexivity.
Defined.

(** *** Two POSTs in one millisecond *)

(** X22.  Two POSTs that read the same clock value get the same id.  A
    DELETE of that id then removes one rule from the file, the older one,
    and every trigger of the id: the rule of the second POST stays stored
    and has no registry entry. *)
Theorem same_millisecond_posts accepts sci_head ACCOUNT_TIMEZONE_DEFAULT sv b1 b2 now :
  let rid := Api001.rule_id now in
  let sv' := Api001.serve accepts sci_head ACCOUNT_TIMEZONE_DEFAULT sv
               [Api001.Post b1 now; Api001.Post b2 now; Api001.Delete rid] in
  Api001.rule_of_body sci_head ACCOUNT_TIMEZONE_DEFAULT b2 now ∈ Api001.file sv'
  /\ length (Api001.file sv') = S (length (Api001.file sv))
  /\ Part001.schedulers (Api001.registry sv') !! rid = None.
Proof.
  intros rid sv'. subst sv'.
  cbn [Api001.serve foldl Api001.handle]. rewrite !post_rules_eq.
  cbn [snd Api001.file Api001.registry].
  unfold Api001.delete_rule. cbn [Api001.file Api001.registry].
  rewrite <- app_assoc. cbn [app]. rewrite splice_first_app.
  set (r1 := Api001.rule_of_body sci_head ACCOUNT_TIMEZONE_DEFAULT b1 now).
  set (r2 := Api001.rule_of_body sci_head ACCOUNT_TIMEZONE_DEFAULT b2 now).
  assert (Htail : Api001.splice_first rid [r1; r2] = Some (r1, [r2])).
  { cbn [Api001.splice_first]. rewrite bool_decide_eq_true_2; reflexivity. }
  rewrite Htail.
  destruct (Api001.splice_first rid (Api001.file sv)) as [[x rest]|] eqn:Hsp;
    cbn [snd Api001.file Api001.registry].
  - split; [apply elem_of_app; right; right; left|].
    split; [|apply unschedule_removes].
    destruct (splice_first_found _ _ _ _ Hsp) as (_ & _ & Hlen & _).
    rewrite length_app, Hlen. cbn [length]. lia.
  - split; [apply elem_of_app; right; left|].
    split; [|apply unschedule_removes].
    rewrite length_app. cbn [length]. lia.
Qed.
